(** * Maker-checker workflow engine: a shallow embedding

    The development follows the backend of the central-workflow repository:
    [services/workflow.service.ts] (the engine), [handlers/*.ts] (the three
    action handlers and their registry), [validators/workflow.validator.ts]
    (the zod schemas) and [db/schema/*.ts] (the tables).

    Conventions.
    - A table with a uuid primary key that the engine looks up by key is a
      finite map from the key to the row; the other tables are lists in
      insertion order, and [findFirst] is the first matching row.
    - The store is ideal: an insert succeeds, [defaultRandom()] yields a key
      that is not in the table, column widths are not enforced.
    - Every [async] method is a function from the state before the call to
      the state after it and either the returned value or the thrown error.
      The clock readings of one call ([new Date()], the column default
      [now()]) are one instant [now] handed to the call.
    - The static handler map of [ActionHandlerFactory] is a plain object: a
      finite map from its own property names to handlers, in which the key
      [__proto__] stands for the prototype that an assignment to that name
      sets, and a lookup that finds no own property goes on to the names the
      object inherits.  A handler is an instance of a class that declares
      [validate] and [execute], as the three classes of the source are.  The
      map is a state of its own, shared by every [WorkflowService], whose
      only field is its database.
    - An id is the text of a uuid in the form in which the store prints it
      ([uuid_text]).  The store refuses a text that it does not read as a
      uuid: the lookups are modelled on ids of that form, and a statement
      about an id that the caller chooses has [uuid_text] as a hypothesis.
    - A numeric column keeps the text it is given, where the store prints the
      number with the scale of the column: the statements about such a
      column are about the number that the text denotes.
    - A string is the sequence of its characters, one byte each. *)

From Stdlib Require Import ZArith String Ascii List Lia.
From stdpp Require Import base option list gmap strings sorting.

Open Scope string_scope.
Open Scope Z_scope.

#[local] Set Warnings "-register-all".

(** ** Values *)

(** Milliseconds since the epoch, as in a JavaScript [Date]. *)
Definition Time := Z.

(** A payload is [any] in the service and [jsonb] in the table.  Numbers keep
    their literal text: no code of the engine computes with them. *)
Inductive JSON :=
| JNull
| JBool (b : bool)
| JNum (literal : string)
| JStr (s : string)
| JArr (items : list JSON)
| JObj (fields : list (string * JSON)).

Fixpoint assoc (key : string) (fields : list (string * JSON)) : option JSON :=
  match fields with
  | [] => None
  | (k, v) :: rest => if String.eqb k key then Some v else assoc key rest
  end.

(** [payload.key]; [None] is JavaScript's [undefined]. *)
Definition prop (key : string) (payload : JSON) : option JSON :=
  match payload with
  | JObj fields => assoc key fields
  | _ => None
  end.

(** [types/workflow.type.ts]: [ActionStatus] and [ActionTypes]. *)
Inductive ActionStatusType := PENDING | APPROVED | REJECTED.

#[global] Instance ActionStatusType_eq_dec : EqDecision ActionStatusType.
Proof. solve_decision. Defined.

Definition ActionStatus_text (s : ActionStatusType) : string :=
  match s with
  | PENDING => "pending"
  | APPROVED => "approved"
  | REJECTED => "rejected"
  end.

Definition CREATE_USER : string := "create_user".
Definition CREATE_ACCOUNT : string := "create_account".
Definition CREATE_PROMOTION : string := "create_promotion".

(** ** Tables ([db/schema]) *)

Module WorkflowAction.
Record t := {
  id : string;
  actionType : string;
  status : ActionStatusType;
  payload : JSON;
  makerId : string;
  checkerId : option string;
  reviewComment : option string;
  reviewedAt : option Time;
  createdAt : Time;
  updatedAt : Time
}.
End WorkflowAction.

Module User.
Record t := {
  id : string;
  email : string;
  username : string;
  password : string;
  fullName : option string;
  role : string;
  isActive : bool;
  createdAt : Time;
  updatedAt : Time
}.
End User.

Module Account.
Record t := {
  id : string;
  userId : string;
  accountNumber : string;
  accountType : string;
  balance : string;
  currency : string;
  createdAt : Time;
  updatedAt : Time
}.
End Account.

Module Promotion.
Record t := {
  id : string;
  code : string;
  name : string;
  description : option string;
  discountType : string;
  discountValue : string;
  isActive : bool;
  startDate : option Time;
  endDate : option Time;
  createdAt : Time;
  updatedAt : Time
}.
End Promotion.

Record Database := {
  workflowActions : gmap string WorkflowAction.t;
  users : list User.t;
  accounts : list Account.t;
  promotions : list Promotion.t
}.

Definition empty_db : Database :=
  {| workflowActions := ∅; users := []; accounts := []; promotions := [] |}.

Definition set_workflowActions (m : gmap string WorkflowAction.t) (db : Database) : Database :=
  {| workflowActions := m; users := users db; accounts := accounts db;
     promotions := promotions db |}.

Definition set_users (us : list User.t) (db : Database) : Database :=
  {| workflowActions := workflowActions db; users := us; accounts := accounts db;
     promotions := promotions db |}.

Definition set_accounts (acs : list Account.t) (db : Database) : Database :=
  {| workflowActions := workflowActions db; users := users db; accounts := acs;
     promotions := promotions db |}.

Definition set_promotions (ps : list Promotion.t) (db : Database) : Database :=
  {| workflowActions := workflowActions db; users := users db; accounts := accounts db;
     promotions := ps |}.

(** [defaultRandom()] on a list table: a key no row of the table has. *)
Definition fresh_key {A} (key : A → string) (rows : list A) : string :=
  fresh (list_to_set (key <$> rows) : gset string).

(** ** Errors

    The source throws [new Error(message)] everywhere; the kind of an error is
    the place that throws it.  The constructors carry the names of the
    specification's taxonomy. *)
Inductive Error :=
| UnknownActionTypeError (actionType : string)  (* ActionHandlerFactory.getHandler *)
| ValidationError (message : string)            (* thrown by a handler's validate *)
| NotFoundError (actionId : string)             (* WorkflowService.getActionById *)
| AlreadyDecidedError (current : ActionStatusType) (* reviewAction, status check *)
| SelfReviewError                               (* reviewAction, maker check *)
| ExecutionError (message : string)             (* thrown by a handler's execute *)
| TypeError (message : string).                 (* a call of what is no function *)

Definition Error_message (e : Error) : string :=
  match e with
  | UnknownActionTypeError t => "No handler found for action type: " ++ t
  | ValidationError m => m
  | NotFoundError i => "Action with ID " ++ i ++ " not found"
  | AlreadyDecidedError s =>
      "Action is already " ++ ActionStatus_text s ++ " and cannot be reviewed again"
  | SelfReviewError => "Maker cannot review their own action"
  | ExecutionError m => m
  | TypeError m => m
  end.

Inductive result (A : Type) :=
| Ok (value : A)
| Throw (e : Error).
Arguments Ok {A} value.
Arguments Throw {A} e.

(** ** Handlers ([handlers/base.handler.ts]) *)

Inductive ExecutionResult :=
| UserRow (u : User.t)
| AccountRow (a : Account.t)
| PromotionRow (p : Promotion.t)
| OtherResult (j : JSON).

(** [validate] resolves ([None]) or throws an error with a message;
    [execute] returns the database after it and the row it made, or the
    message of the error it threw. *)
Record ActionHandler := {
  validate : JSON → option string;
  execute : Time → Database → JSON → Database * (string + ExecutionResult)
}.

(** The calls the engine makes on handlers, in order. *)
Inductive HandlerCall :=
| CallValidate (actionType : string) (payload : JSON)
| CallExecute (actionType : string) (payload : JSON).

Definition is_execute (c : HandlerCall) : bool :=
  match c with
  | CallExecute _ _ => true
  | CallValidate _ _ => false
  end.

(** The state a [WorkflowService] acts on: its database, and the record of
    the handler calls made so far. *)
Record World := {
  db : Database;
  calls : list HandlerCall
}.

Definition log (c : HandlerCall) (w : World) : World :=
  {| db := db w; calls := calls w ++ [c] |}.

Definition with_db (d : Database) (w : World) : World :=
  {| db := d; calls := calls w |}.

(** ** The registry ([handlers/action-handler.factory.ts]) *)

Module ActionHandlerFactory.

(** The property names of [Object.prototype]: the values are functions,
    and [__proto__] is an accessor that reads and sets the prototype. *)
Definition Object_prototype : list string :=
  ["constructor"; "__defineGetter__"; "__defineSetter__"; "hasOwnProperty";
   "__lookupGetter__"; "__lookupSetter__"; "isPrototypeOf"; "propertyIsEnumerable";
   "toString"; "valueOf"; "__proto__"; "toLocaleString"].

(** What an instance of a handler class adds to them. *)
Definition handler_methods : list string := ["validate"; "execute"].

(** [name in handlers] for a name that is no own property: the names of
    [Object.prototype], and those of the handler that was made the prototype. *)
Definition inherited (handlers : gmap string ActionHandler) (name : string) : bool :=
  bool_decide (name ∈ Object_prototype) ||
  (bool_decide (is_Some (handlers !! "__proto__")) &&
   bool_decide (name ∈ handler_methods)).

(** What [this.handlers[actionType]] is when it is truthy: a handler, or a
    value that the object inherits under that name. *)
Inductive Resolved :=
| Handler (handler : ActionHandler)
| Inherited (name : string).

Definition getHandler (handlers : gmap string ActionHandler) (actionType : string)
  : result Resolved :=
  match handlers !! actionType with
  | Some handler => Ok (Handler handler)
  | None =>
      if inherited handlers actionType then Ok (Inherited actionType)
      else Throw (UnknownActionTypeError actionType)
  end.

(** [this.handlers[actionType] = handler]: an own property, or, for
    [__proto__], the prototype. *)
Definition registerHandler (actionType : string) (handler : ActionHandler)
    (handlers : gmap string ActionHandler) : gmap string ActionHandler :=
  <[actionType := handler]> handlers.

(** [Object.keys]: the own property names; the order of the keys is not
    modelled. *)
Definition getAllActionTypes (handlers : gmap string ActionHandler) : list string :=
  elements (dom handlers ∖ {["__proto__"]}).

End ActionHandlerFactory.

(** ** The engine ([services/workflow.service.ts]) *)

Module WorkflowService.
Import ActionHandlerFactory.

Definition createAction (handlers : gmap string ActionHandler) (now : Time)
    (actionType : string) (payload : JSON) (makerId : string) (w : World)
  : World * result WorkflowAction.t :=
  match getHandler handlers actionType with
  | Throw e => (w, Throw e)
  | Ok (Inherited _) => (w, Throw (TypeError "handler.validate is not a function"))
  | Ok (Handler handler) =>
      let w1 := log (CallValidate actionType payload) w in
      match validate handler payload with
      | Some message => (w1, Throw (ValidationError message))
      | None =>
          let rows := workflowActions (db w1) in
          let action :=
            {| WorkflowAction.id := fresh (dom rows);
               WorkflowAction.actionType := actionType;
               WorkflowAction.status := PENDING;
               WorkflowAction.payload := payload;
               WorkflowAction.makerId := makerId;
               WorkflowAction.checkerId := None;
               WorkflowAction.reviewComment := None;
               WorkflowAction.reviewedAt := None;
               WorkflowAction.createdAt := now;
               WorkflowAction.updatedAt := now |} in
          (with_db (set_workflowActions (<[WorkflowAction.id action := action]> rows) (db w1)) w1,
           Ok action)
      end
  end.

Definition getActionById (actionId : string) (d : Database) : result WorkflowAction.t :=
  match workflowActions d !! actionId with
  | None => Throw (NotFoundError actionId)
  | Some action => Ok action
  end.


(** What [reviewAction] returns: [{ action, executionResult? }].  [action] is
    the first row the update returned, [undefined] when it matched none. *)
Record ReviewResult := {
  action : option WorkflowAction.t;
  executionResult : option ExecutionResult
}.

(** Lines 99-110: fetch the action, then the two guards, in this order. *)
Definition review_fetch (actionId checkerId : string) (d : Database)
  : result WorkflowAction.t :=
  match getActionById actionId d with
  | Throw e => Throw e
  | Ok action =>
      if decide (WorkflowAction.status action ≠ PENDING) then
        Throw (AlreadyDecidedError (WorkflowAction.status action))
      else if decide (WorkflowAction.makerId action = checkerId) then
        Throw SelfReviewError
      else Ok action
  end.

(** The [set] of lines 115-121 applied to one row.  drizzle leaves out of the
    statement a column whose value is [undefined], so an absent
    [reviewComment] keeps what the row has. *)
Definition review_set (now : Time) (checkerId : string) (status : ActionStatusType)
    (reviewComment : option string) (row : WorkflowAction.t) : WorkflowAction.t :=
  {| WorkflowAction.id := WorkflowAction.id row;
     WorkflowAction.actionType := WorkflowAction.actionType row;
     WorkflowAction.status := status;
     WorkflowAction.payload := WorkflowAction.payload row;
     WorkflowAction.makerId := WorkflowAction.makerId row;
     WorkflowAction.checkerId := Some checkerId;
     WorkflowAction.reviewComment :=
       match reviewComment with
       | Some c => Some c
       | None => WorkflowAction.reviewComment row
       end;
     WorkflowAction.reviewedAt := Some now;
     WorkflowAction.createdAt := WorkflowAction.createdAt row;
     WorkflowAction.updatedAt := now |}.

(** Lines 113-123: [update(workflowActions).set(..).where(eq(id, actionId))
    .returning()].  The only condition is on the key. *)
Definition review_update (now : Time) (actionId checkerId : string)
    (status : ActionStatusType) (reviewComment : option string) (d : Database)
  : Database * option WorkflowAction.t :=
  match workflowActions d !! actionId with
  | None => (d, None)
  | Some row =>
      let row' := review_set now checkerId status reviewComment row in
      (set_workflowActions (<[actionId := row']> (workflowActions d)) d, Some row')
  end.

(** Lines 125-138: on approval resolve the handler of the fetched action and
    execute it on the fetched payload. *)
Definition review_finish (handlers : gmap string ActionHandler) (now : Time)
    (status : ActionStatusType) (action : WorkflowAction.t)
    (updatedAction : option WorkflowAction.t) (w : World)
  : World * result ReviewResult :=
  if decide (status = APPROVED) then
    match getHandler handlers (WorkflowAction.actionType action) with
    | Throw e => (w, Throw e)
    | Ok (Inherited _) => (w, Throw (TypeError "handler.execute is not a function"))
    | Ok (Handler handler) =>
        let w1 := log (CallExecute (WorkflowAction.actionType action)
                                   (WorkflowAction.payload action)) w in
        match execute handler now (db w1) (WorkflowAction.payload action) with
        | (d2, inl message) => (with_db d2 w1, Throw (ExecutionError message))
        | (d2, inr r) =>
            (with_db d2 w1,
             Ok {| action := updatedAction; executionResult := Some r |})
        end
    end
  else (w, Ok {| action := updatedAction; executionResult := None |}).

Definition reviewAction (handlers : gmap string ActionHandler) (now : Time)
    (actionId checkerId : string) (status : ActionStatusType)
    (reviewComment : option string) (w : World)
  : World * result ReviewResult :=
  match review_fetch actionId checkerId (db w) with
  | Throw e => (w, Throw e)
  | Ok action =>
      let '(d1, updatedAction) :=
        review_update now actionId checkerId status reviewComment (db w) in
      review_finish handlers now status action updatedAction (with_db d1 w)
  end.

End WorkflowService.

(** ** Library functions the validators call

    zod's [email()] and [uuid()] checks and JavaScript's [Date.parse] are taken
    as they are; [Date_parse] is [None] where [Date.parse] is [NaN]. *)
Class Platform := {
  zod_email : string → bool;
  zod_uuid : string → bool;
  Date_parse : string → option Time
}.

(** ** The schemas ([validators/workflow.validator.ts]) *)

Module Validators.

Definition is_digit (c : ascii) : bool :=
  let n := nat_of_ascii c in ((48 <=? n) && (n <=? 57))%nat.

(** The longest prefix of digits, and what follows it. *)
Fixpoint span_digits (s : string) : string * string :=
  match s with
  | EmptyString => ("", "")
  | String c rest =>
      if is_digit c then
        let '(ds, tl) := span_digits rest in (String c ds, tl)
      else ("", s)
  end.

(** [/^\d+(\.\d{1,2})?$/] *)
Definition decimal_regex (s : string) : bool :=
  let '(whole, rest) := span_digits s in
  negb (String.eqb whole "") &&
  match rest with
  | EmptyString => true
  | String c fraction =>
      Ascii.eqb c "."%char &&
      let '(ds, tl) := span_digits fraction in
      String.eqb tl "" &&
      ((1 <=? String.length ds) && (String.length ds <=? 2))%nat
  end.

(** [z.string()] with a refinement, on the property [key]. *)
Definition required_string (check : string → bool) (key : string) (payload : JSON) : bool :=
  match prop key payload with
  | Some (JStr s) => check s
  | _ => false
  end.

(** [z.string()...optional()] *)
Definition optional_string (check : string → bool) (key : string) (payload : JSON) : bool :=
  match prop key payload with
  | None => true
  | Some (JStr s) => check s
  | Some _ => false
  end.

(** [.min(n)] *)
Definition min_length (n : nat) (s : string) : bool := (n <=? String.length s)%nat.

Definition any_string (s : string) : bool := true.

Section schemas.
Context `{Platform}.

(** [dateString]: a string that [Date.parse] reads. *)
Definition dateString (s : string) : bool :=
  match Date_parse s with
  | Some _ => true
  | None => false
  end.

Definition createUserSchema (payload : JSON) : bool :=
  required_string zod_email "email" payload &&
  required_string (min_length 3) "username" payload &&
  optional_string any_string "fullName" payload.

Definition createAccountSchema (payload : JSON) : bool :=
  required_string zod_uuid "userId" payload &&
  required_string (min_length 5) "accountNumber" payload &&
  required_string (min_length 1) "accountType" payload &&
  optional_string decimal_regex "balance" payload &&
  optional_string (λ s, (String.length s =? 3)%nat) "currency" payload.

Definition createPromotionSchema (payload : JSON) : bool :=
  required_string (min_length 3) "code" payload &&
  required_string (min_length 1) "name" payload &&
  optional_string any_string "description" payload &&
  required_string (λ s, String.eqb s "percentage" || String.eqb s "fixed")
                  "discountType" payload &&
  required_string decimal_regex "discountValue" payload &&
  required_string dateString "startDate" payload &&
  required_string dateString "endDate" payload.

End schemas.
End Validators.

(** ** The text of a uuid

    The [id] columns are of type [uuid].  The store prints a uuid as 32
    hexadecimal digits in lower case, in groups of 8, 4, 4, 4 and 12 with a
    hyphen between them: the keys of the tables are of this form.  A text
    that the store does not read as a uuid is refused by the store before it
    looks for a row. *)
Definition is_hex (c : ascii) : bool :=
  Validators.is_digit c ||
  (let n := nat_of_ascii c in ((97 <=? n) && (n <=? 102))%nat).

(** [n] hexadecimal digits, and what follows them. *)
Fixpoint hex_digits (n : nat) (s : string) : option string :=
  match n, s with
  | O, _ => Some s
  | S n', String c rest => if is_hex c then hex_digits n' rest else None
  | S _, EmptyString => None
  end.

Definition hyphen (s : string) : option string :=
  match s with
  | String "-" rest => Some rest
  | _ => None
  end.

(** A group of [n] digits and the hyphen after it. *)
Definition hex_group (n : nat) (s : string) : option string :=
  hex_digits n s ≫= hyphen.

Definition uuid_text (s : string) : bool :=
  match foldl (λ rest n, rest ≫= hex_group n) (Some s) [8; 4; 4; 4]%nat
          ≫= hex_digits 12 with
  | Some EmptyString => true
  | _ => false
  end.

(** ** The three handlers ([handlers/create-*.handler.ts]) *)

(** [payload.key] at type [string]. *)
Definition string_prop (key : string) (payload : JSON) : option string :=
  match prop key payload with
  | Some (JStr s) => Some s
  | _ => None
  end.

(** A handler's [execute] declares its payload type and does not check it; on
    a payload that is not of that type the model throws this message. *)
Definition ill_typed_payload : string := "payload is not of the declared type".

(** [a || b] on an optional string: the empty string is falsy. *)
Definition or_default (a : option string) (b : string) : string :=
  match a with
  | Some s => if String.eqb s "" then b else s
  | None => b
  end.

Module CreateUserHandler.
Section handler.
Context `{Platform}.

Definition DEFAULT_PASSWORD : string :=
  "$2b$10$4cXn4kdl6v36ARMmUZ0nvOCBGGUKtWk5X.lZRsXWLn/GgQFqaTGRe".

(** The source appends zod's account of the failure to the message; the model
    keeps the prefix. *)
Definition validate (payload : JSON) : option string :=
  if Validators.createUserSchema payload then None
  else Some "Validation failed".

Definition execute (now : Time) (d : Database) (payload : JSON)
  : Database * (string + ExecutionResult) :=
  match string_prop "email" payload, string_prop "username" payload with
  | Some email, Some username =>
      match find (λ u, String.eqb (User.email u) email) (users d) with
      | Some _ => (d, inl ("User with email " ++ email ++ " already exists"))
      | None =>
          match find (λ u, String.eqb (User.username u) username) (users d) with
          | Some _ => (d, inl ("Username " ++ username ++ " is already taken"))
          | None =>
              let newUser :=
                {| User.id := fresh_key User.id (users d);
                   User.email := email;
                   User.username := username;
                   User.password := DEFAULT_PASSWORD;
                   User.fullName := string_prop "fullName" payload;
                   User.role := "MAKER";
                   User.isActive := true;
                   User.createdAt := now;
                   User.updatedAt := now |} in
              (set_users (users d ++ [newUser]) d, inr (UserRow newUser))
          end
      end
  | _, _ => (d, inl ill_typed_payload)
  end.

Definition handler : ActionHandler := Build_ActionHandler validate execute.

End handler.
End CreateUserHandler.

Module CreateAccountHandler.
Section handler.
Context `{Platform}.

Definition validate (payload : JSON) : option string :=
  if Validators.createAccountSchema payload then None
  else Some "Validation failed".

Definition execute (now : Time) (d : Database) (payload : JSON)
  : Database * (string + ExecutionResult) :=
  match string_prop "userId" payload, string_prop "accountNumber" payload,
        string_prop "accountType" payload with
  | Some userId, Some accountNumber, Some accountType =>
      match find (λ u, String.eqb (User.id u) userId) (users d) with
      | None => (d, inl ("User with ID " ++ userId ++ " does not exist"))
      | Some _ =>
          match find (λ a, String.eqb (Account.accountNumber a) accountNumber)
                     (accounts d) with
          | Some _ =>
              (d, inl ("Account with number " ++ accountNumber ++ " already exists"))
          | None =>
              let newAccount :=
                {| Account.id := fresh_key Account.id (accounts d);
                   Account.userId := userId;
                   Account.accountNumber := accountNumber;
                   Account.accountType := accountType;
                   Account.balance := or_default (string_prop "balance" payload) "0";
                   Account.currency := or_default (string_prop "currency" payload) "USD";
                   Account.createdAt := now;
                   Account.updatedAt := now |} in
              (set_accounts (accounts d ++ [newAccount]) d, inr (AccountRow newAccount))
          end
      end
  | _, _, _ => (d, inl ill_typed_payload)
  end.

Definition handler : ActionHandler := Build_ActionHandler validate execute.

End handler.
End CreateAccountHandler.

Module CreatePromotionHandler.

Fixpoint digits_value (acc : Z) (s : string) : Z :=
  match s with
  | EmptyString => acc
  | String c rest => digits_value (10 * acc + (Z.of_nat (nat_of_ascii c) - 48)) rest
  end.

(** [parseFloat(s)] for a string that [/^\d+(\.\d{1,2})?$/] accepts, in
    hundredths; [None] for any other string, which the source never parses
    (the schema has thrown before).

    The source compares the double [parseFloat(s)] with 0 and with 100.  For
    an accepted string that double is the one nearest to the numeral, or
    [Infinity]; it is not negative, and since 100 is a double and rounding is
    monotone it is above 100 exactly when the numeral is.  The hundredths are
    exact, and the two comparisons give the same answers on them. *)
Definition parseFloat_x100 (s : string) : option Z :=
  if Validators.decimal_regex s then
    let '(whole, rest) := Validators.span_digits s in
    let fraction := match rest with String _ f => f | EmptyString => "" end in
    Some (100 * digits_value 0 whole +
          match String.length fraction with
          | 1%nat => 10 * digits_value 0 fraction
          | _ => digits_value 0 fraction
          end)
  else None.

(** [a < b] and [a > b] on numbers; a comparison with [NaN] is false. *)
Definition number_lt (a : option Z) (b : Z) : bool :=
  match a with Some x => x <? b | None => false end.
Definition number_gt (a : option Z) (b : Z) : bool :=
  match a with Some x => b <? x | None => false end.

(** [a <= b] on two [Date]s; false when one is invalid. *)
Definition Date_le (a b : option Time) : bool :=
  match a, b with
  | Some x, Some y => x <=? y
  | _, _ => false
  end.

Section handler.
Context `{Platform}.

(** [new Date(payload.key)]; the lines that call it run after the schema
    accepted the payload, when the property is a string. *)
Definition new_Date (key : string) (payload : JSON) : option Time :=
  match string_prop key payload with
  | Some s => Date_parse s
  | None => None
  end.

Definition discountValue_x100 (payload : JSON) : option Z :=
  match string_prop "discountValue" payload with
  | Some s => parseFloat_x100 s
  | None => None
  end.

Definition validate (payload : JSON) : option string :=
  if negb (Validators.createPromotionSchema payload) then Some "Validation failed"
  else
    let startDate := new_Date "startDate" payload in
    let endDate := new_Date "endDate" payload in
    if Date_le endDate startDate then Some "End date must be after start date"
    else
      let discountValue := discountValue_x100 payload in
      let discountType := string_prop "discountType" payload in
      if bool_decide (discountType = Some "percentage") &&
         (number_lt discountValue 0 || number_gt discountValue (100 * 100))
      then Some "Percentage discount must be between 0 and 100"
      else if bool_decide (discountType = Some "fixed") && number_lt discountValue 0
      then Some "Fixed discount cannot be negative"
      else None.

Definition execute (now : Time) (d : Database) (payload : JSON)
  : Database * (string + ExecutionResult) :=
  match string_prop "code" payload, string_prop "name" payload,
        string_prop "discountType" payload, string_prop "discountValue" payload with
  | Some code, Some name, Some discountType, Some discountValue =>
      match find (λ p, String.eqb (Promotion.code p) code) (promotions d) with
      | Some _ => (d, inl ("Promotion with code " ++ code ++ " already exists"))
      | None =>
          let newPromotion :=
            {| Promotion.id := fresh_key Promotion.id (promotions d);
               Promotion.code := code;
               Promotion.name := name;
               Promotion.description := string_prop "description" payload;
               Promotion.discountType := discountType;
               Promotion.discountValue := discountValue;
               Promotion.isActive := true;
               Promotion.startDate := new_Date "startDate" payload;
               Promotion.endDate := new_Date "endDate" payload;
               Promotion.createdAt := now;
               Promotion.updatedAt := now |} in
          (set_promotions (promotions d ++ [newPromotion]) d,
           inr (PromotionRow newPromotion))
      end
  | _, _, _, _ => (d, inl ill_typed_payload)
  end.

Definition handler : ActionHandler := Build_ActionHandler validate execute.

End handler.
End CreatePromotionHandler.

(** The initial value of [ActionHandlerFactory.handlers]. *)
Definition handlers0 `{Platform} : gmap string ActionHandler :=
  {[ CREATE_USER := CreateUserHandler.handler;
     CREATE_ACCOUNT := CreateAccountHandler.handler;
     CREATE_PROMOTION := CreatePromotionHandler.handler ]}.

(** ** Sequences of calls *)

Inductive Call :=
| CreateAction (now : Time) (actionType : string) (payload : JSON) (makerId : string)
| ReviewAction (now : Time) (actionId checkerId : string) (status : ActionStatusType)
               (reviewComment : option string).

(** One call after the other: each runs to its end before the next starts. *)
Definition run_call (handlers : gmap string ActionHandler) (c : Call) (w : World) : World :=
  match c with
  | CreateAction now actionType payload makerId =>
      (WorkflowService.createAction handlers now actionType payload makerId w).1
  | ReviewAction now actionId checkerId status reviewComment =>
      (WorkflowService.reviewAction handlers now actionId checkerId status reviewComment w).1
  end.

Definition run_calls (handlers : gmap string ActionHandler) (cs : list Call) (w : World)
  : World :=
  foldl (λ w c, run_call handlers c w) w cs.

(** ** The process: one registry, many services

    [ActionHandlerFactory.handlers] is a static field: the process has one
    map, whoever calls [registerHandler].  A [WorkflowService] holds its
    database; what a service has done is the world it acts on. *)
Module Process.

Record t := {
  handlers : gmap string ActionHandler;
  services : list World
}.

Inductive Op :=
| RegisterHandler (actionType : string) (handler : ActionHandler)
| ServiceCall (service : nat) (c : Call).

Definition step (op : Op) (p : t) : t :=
  match op with
  | RegisterHandler actionType handler =>
      {| handlers := ActionHandlerFactory.registerHandler actionType handler (handlers p);
         services := services p |}
  | ServiceCall service c =>
      match services p !! service with
      | None => p
      | Some w =>
          {| handlers := handlers p;
             services := <[service := run_call (handlers p) c w]> (services p) |}
      end
  end.

Definition run (ops : list Op) (p : t) : t := foldl (λ p op, step op p) p ops.

(** Whether [op] assigns a handler to the name [actionType]. *)
Definition registers (actionType : string) (op : Op) : bool :=
  match op with
  | RegisterHandler t _ => String.eqb t actionType
  | ServiceCall _ _ => false
  end.

End Process.

(** ** Overlapping calls

    The server answers requests on one thread; a call gives way to the others
    at each [await].  [reviewAction] awaits three times: the fetch, the update
    and the handler's [execute].  A call in flight is the point it has reached
    and the values it holds there. *)
Module Interleaving.
Import WorkflowService.

Inductive Task :=
| AwaitFetch (actionId checkerId : string) (status : ActionStatusType)
             (reviewComment : option string)
| AwaitUpdate (actionId checkerId : string) (status : ActionStatusType)
              (reviewComment : option string) (action : WorkflowAction.t)
| AwaitExecute (status : ActionStatusType) (action : WorkflowAction.t)
               (updatedAction : option WorkflowAction.t)
| Settled (r : result ReviewResult).

(** The task runs up to its next [await]. *)
Definition step (handlers : gmap string ActionHandler) (now : Time) (t : Task) (w : World)
  : World * Task :=
  match t with
  | AwaitFetch actionId checkerId status reviewComment =>
      match review_fetch actionId checkerId (db w) with
      | Throw e => (w, Settled (Throw e))
      | Ok action => (w, AwaitUpdate actionId checkerId status reviewComment action)
      end
  | AwaitUpdate actionId checkerId status reviewComment action =>
      let '(d1, updatedAction) :=
        review_update now actionId checkerId status reviewComment (db w) in
      (with_db d1 w, AwaitExecute status action updatedAction)
  | AwaitExecute status action updatedAction =>
      let '(w', r) := review_finish handlers now status action updatedAction w in
      (w', Settled r)
  | Settled r => (w, Settled r)
  end.

(** A schedule names, step by step, the task that runs next. *)
Fixpoint run (handlers : gmap string ActionHandler) (now : Time) (schedule : list nat)
    (w : World) (tasks : list Task) : World * list Task :=
  match schedule with
  | [] => (w, tasks)
  | i :: rest =>
      match tasks !! i with
      | None => run handlers now rest w tasks
      | Some t =>
          let '(w', t') := step handlers now t w in
          run handlers now rest w' (<[i := t']> tasks)
      end
  end.

(** Every task takes one step, in the order of the list. *)
Fixpoint round (handlers : gmap string ActionHandler) (now : Time) (w : World)
    (tasks : list Task) : World * list Task :=
  match tasks with
  | [] => (w, [])
  | t :: rest =>
      let '(w1, t') := step handlers now t w in
      let '(w2, rest') := round handlers now w1 rest in
      (w2, t' :: rest')
  end.

(** [n] calls that reject the action [actionId], not yet started. *)
Definition rejections (actionId : string) (reviewers : list (string * option string))
  : list Task :=
  (λ r, AwaitFetch actionId r.1 REJECTED r.2) <$> reviewers.

Definition succeeded (t : Task) : bool :=
  match t with
  | Settled (Ok _) => true
  | _ => false
  end.

Definition already_decided (t : Task) : bool :=
  match t with
  | Settled (Throw (AlreadyDecidedError _)) => true
  | _ => false
  end.

End Interleaving.

(** ** A platform to run examples on

    A stand-in for the library functions: [simple_email] wants a non-empty
    name, an [@] and a non-empty domain; [simple_uuid] wants 36 characters;
    [simple_Date_parse] reads [YYYY-MM-DD] as the number [YYYYMMDD], which
    orders dates as the calendar does. *)
Module Sample.

Fixpoint after_at (s : string) : option string :=
  match s with
  | EmptyString => None
  | String c rest => if Ascii.eqb c "@"%char then Some rest else after_at rest
  end.

Definition simple_email (s : string) : bool :=
  match s, after_at s with
  | String c _, Some domain => negb (Ascii.eqb c "@"%char) && negb (String.eqb domain "")
  | _, _ => false
  end.

Definition simple_uuid (s : string) : bool := (String.length s =? 36)%nat.

Definition simple_Date_parse (s : string) : option Time :=
  let '(y, r1) := Validators.span_digits s in
  match r1 with
  | String "-" r1' =>
      let '(m, r2) := Validators.span_digits r1' in
      match r2 with
      | String "-" r2' =>
          let '(d, r3) := Validators.span_digits r2' in
          if (String.length y =? 4)%nat && (String.length m =? 2)%nat &&
             (String.length d =? 2)%nat && String.eqb r3 ""
          then Some (CreatePromotionHandler.digits_value 0 (y ++ m ++ d))
          else None
      | _ => None
      end
  | _ => None
  end.

#[export] Instance platform : Platform :=
  {| zod_email := simple_email; zod_uuid := simple_uuid; Date_parse := simple_Date_parse |}.

Definition alice : JSON :=
  JObj [("email", JStr "a@x.com"); ("username", JStr "alice")].

Definition world0 : World := {| db := empty_db; calls := [] |}.

Definition handlers : gmap string ActionHandler := handlers0.

(** Two makers submit the same user. *)
Definition world1 : World :=
  (WorkflowService.createAction handlers 10 CREATE_USER alice "m1" world0).1.

Definition world2 : World :=
  (WorkflowService.createAction handlers 11 CREATE_USER alice "m2" world1).1.

(** The first submission is approved: the user exists from here on. *)
Definition world3 : World :=
  (WorkflowService.reviewAction handlers 12 "0" "c1" APPROVED None world2).1.

(** The row of the first submission, as [world1] and [world2] hold it. *)
Definition action0 : WorkflowAction.t :=
  {| WorkflowAction.id := "0";
     WorkflowAction.actionType := CREATE_USER;
     WorkflowAction.status := PENDING;
     WorkflowAction.payload := alice;
     WorkflowAction.makerId := "m1";
     WorkflowAction.checkerId := None;
     WorkflowAction.reviewComment := None;
     WorkflowAction.reviewedAt := None;
     WorkflowAction.createdAt := 10;
     WorkflowAction.updatedAt := 10 |}.

(** The row of the second submission. *)
Definition action1 : WorkflowAction.t :=
  {| WorkflowAction.id := "1";
     WorkflowAction.actionType := CREATE_USER;
     WorkflowAction.status := PENDING;
     WorkflowAction.payload := alice;
     WorkflowAction.makerId := "m2";
     WorkflowAction.checkerId := None;
     WorkflowAction.reviewComment := None;
     WorkflowAction.reviewedAt := None;
     WorkflowAction.createdAt := 11;
     WorkflowAction.updatedAt := 11 |}.

(** Scenario D: two checkers decide the first submission at the same time. *)
Definition two_checkers : list Interleaving.Task :=
  [Interleaving.AwaitFetch "0" "c1" APPROVED None;
   Interleaving.AwaitFetch "0" "c2" REJECTED (Some "no")].

End Sample.

(** ** Predicates used in the statements *)

(** No handler of the registry writes the table of actions: the three
    handlers of the source write the table of the rows they create. *)
Definition handlers_keep_actions (handlers : gmap string ActionHandler) : Prop :=
  ∀ t h, handlers !! t = Some h →
         ∀ now d payload,
           workflowActions (execute h now d payload).1 = workflowActions d.

(** The columns of a row that come from its submission. *)
Definition same_submission (a a' : WorkflowAction.t) : Prop :=
  WorkflowAction.id a' = WorkflowAction.id a ∧
  WorkflowAction.actionType a' = WorkflowAction.actionType a ∧
  WorkflowAction.payload a' = WorkflowAction.payload a ∧
  WorkflowAction.makerId a' = WorkflowAction.makerId a ∧
  WorkflowAction.createdAt a' = WorkflowAction.createdAt a.

(** ** Listing ([WorkflowService.listActions])

    [page] and [limit] are natural numbers, as the controller hands them to
    the service.  The store orders the rows by creation time, newest first,
    and is free in the order of rows created at the same instant; the model
    sorts the rows of the table with a stable sort.  A negative [offset] is
    refused by the store and the call throws. *)
Module Listing.

Record Filters := {
  status : option ActionStatusType;
  actionType : option string;
  page : option nat;
  limit : option nat
}.

(** What [Math.ceil(total / limit)] can be. *)
Inductive PageCount :=
| Pages (n : nat)
| Infinity
| NaN.

Record Pagination := {
  pagination_page : nat;
  pagination_limit : nat;
  total : nat;
  totalPages : PageCount
}.

Record Result := {
  data : list WorkflowAction.t;
  pagination : Pagination
}.

(** [desc(workflowActions.createdAt)] *)
Definition newer (a b : WorkflowAction.t) : Prop :=
  WorkflowAction.createdAt b ≤ WorkflowAction.createdAt a.

#[global] Instance newer_dec : RelDecision newer.
Proof. intros a b. unfold newer. apply _. Defined.

Definition rows (d : Database) : list WorkflowAction.t :=
  (map_to_list (workflowActions d)).*2.

(** Lines 48-54: a condition for [status] when it is given, one for
    [actionType] when it is given and not the empty string, which is falsy. *)
Definition conditions (status : option ActionStatusType) (actionType : option string)
  : list (WorkflowAction.t → bool) :=
  (match status with
   | Some s => [λ a, bool_decide (WorkflowAction.status a = s)]
   | None => []
   end ++
   match actionType with
   | Some t =>
       if String.eqb t "" then []
       else [λ a, bool_decide (WorkflowAction.actionType a = t)]
   | None => []
   end)%list.

(** [and(...conditions)]; no condition selects every row. *)
Definition and_ (conds : list (WorkflowAction.t → bool)) (a : WorkflowAction.t) : bool :=
  forallb (λ c, c a) conds.

(** The rows a query with these conditions sees, in the order it returns
    them before [offset] and [limit]. *)
Definition selected (conds : list (WorkflowAction.t → bool)) (d : Database)
  : list WorkflowAction.t :=
  merge_sort newer (List.filter (and_ conds) (rows d)).

(** [Math.ceil(total / limit)], exact while there are fewer than 2^53 rows. *)
Definition Math_ceil_div (total limit : nat) : PageCount :=
  match limit with
  | O => if (total =? 0)%nat then NaN else Infinity
  | S _ => Pages ((total + limit - 1) / limit)
  end.

(** [None]: the store has refused the query and the call has thrown. *)
Definition listActions (filters : option Filters) (d : Database) : option Result :=
  let status := filters ≫= status in
  let actionType := filters ≫= actionType in
  let page := default 1%nat (filters ≫= page) in
  let limit := default 10%nat (filters ≫= limit) in
  let offset := (Z.of_nat page - 1) * Z.of_nat limit in
  let conds := conditions status actionType in
  if offset <? 0 then None
  else
    let actions := take limit (drop (Z.to_nat offset) (selected conds d)) in
    let total := length (List.filter (and_ conds) (rows d)) in
    Some {| data := actions;
            pagination :=
              {| pagination_page := page;
                 pagination_limit := limit;
                 total := total;
                 totalPages := Math_ceil_div total limit |} |}.

End Listing.

(** The rows on page [p] of a listing with [limit] rows a page; none when
    the store refuses the query. *)
Definition listed_page (status : option ActionStatusType) (actionType : option string)
    (limit : nat) (d : Database) (p : nat) : list WorkflowAction.t :=
  match Listing.listActions
          (Some {| Listing.status := status; Listing.actionType := actionType;
                   Listing.page := Some p; Listing.limit := Some limit |}) d with
  | Some r => Listing.data r
  | None => []
  end.

(** ** The tables the handlers write *)

(** No two users with the same key, email or username. *)
Definition users_unique (d : Database) : Prop :=
  NoDup (User.id <$> users d) ∧
  NoDup (User.email <$> users d) ∧
  NoDup (User.username <$> users d).

(** No two accounts with the same key or number, and every account owned by
    a user of the table. *)
Definition accounts_consistent (d : Database) : Prop :=
  NoDup (Account.id <$> accounts d) ∧
  NoDup (Account.accountNumber <$> accounts d) ∧
  ∀ a, a ∈ accounts d → Account.userId a ∈ User.id <$> users d.

(** No two promotions with the same key or code. *)
Definition promotions_unique (d : Database) : Prop :=
  NoDup (Promotion.id <$> promotions d) ∧
  NoDup (Promotion.code <$> promotions d).

(** ** A second platform and a scenario over the three tables

    The keys of the model are short strings, so this stand-in for [uuid()]
    takes every string that is not empty. *)
Module Scenario.

#[export] Instance platform : Platform :=
  {| zod_email := Sample.simple_email;
     zod_uuid := λ s, negb (String.eqb s "");
     Date_parse := Sample.simple_Date_parse |}.

Definition handlers : gmap string ActionHandler := handlers0.

Definition account : JSON :=
  JObj [("userId", JStr "0"); ("accountNumber", JStr "ACC-001");
        ("accountType", JStr "savings")].

Definition promotion : JSON :=
  JObj [("code", JStr "SPRING"); ("name", JStr "Spring sale");
        ("discountType", JStr "percentage"); ("discountValue", JStr "12.5");
        ("startDate", JStr "2026-03-01"); ("endDate", JStr "2026-04-01")].

(** A user, an account of that user and a promotion are submitted and
    approved, each of them twice. *)
Definition calls : list Call :=
  [CreateAction 1 CREATE_USER Sample.alice "m1";
   CreateAction 2 CREATE_ACCOUNT account "m1";
   CreateAction 3 CREATE_PROMOTION promotion "m1";
   CreateAction 4 CREATE_USER Sample.alice "m2";
   CreateAction 5 CREATE_ACCOUNT account "m2";
   CreateAction 6 CREATE_PROMOTION promotion "m2";
   ReviewAction 7 "0" "c1" APPROVED None;
   ReviewAction 8 "1" "c1" APPROVED None;
   ReviewAction 9 "2" "c1" APPROVED None;
   ReviewAction 10 "3" "c1" APPROVED None;
   ReviewAction 11 "4" "c1" APPROVED None;
   ReviewAction 12 "5" "c1" APPROVED None].

Definition world : World := run_calls handlers calls Sample.world0.

End Scenario.

(** [\d*] on the whole string. *)
Fixpoint all_digits (s : string) : bool :=
  match s with
  | EmptyString => true
  | String c rest => Validators.is_digit c && all_digits rest
  end.

(** ** The controller ([controllers/workflow.controller.ts])

    A request is what the methods read of the context: the path parameter
    [id], and the body as [c.req.json()] gives it, or the message of the
    error that call throws when the body is not JSON.  A response is the
    status code and the fields of the object given to [c.json]; the
    [details] of a failed validation are left out. *)

(** [hay.includes(needle)] *)
Fixpoint includes (needle hay : string) : bool :=
  String.prefix needle hay ||
  match hay with
  | EmptyString => false
  | String _ rest => includes needle rest
  end.

(** The instant of a [Date] in the format of [toISOString]. *)
Class DateFormat := {
  toISOString : Time → string
}.

Module Http.

Record Request := {
  param_id : option string;
  json : string + JSON
}.

Record Response (A : Type) := {
  code : nat;
  success : bool;
  message : option string;
  error : option string;
  data : option A
}.
Arguments code {A} _.
Arguments success {A} _.
Arguments message {A} _.
Arguments error {A} _.
Arguments data {A} _.

Definition failure {A} (code : nat) (error : string) : Response A :=
  {| code := code; success := false; message := None; error := Some error; data := None |}.

Definition succeeded {A} (code : nat) (message : option string) (data : A) : Response A :=
  {| code := code; success := true; message := message; error := None; data := Some data |}.

(** [!actionId] *)
Definition missing (id : option string) : bool :=
  match id with
  | None => true
  | Some s => String.eqb s ""
  end.

End Http.

Module Schemas.
Section schemas.
Context `{Platform} `{DateFormat}.

(** The property [key] of the output of an object schema: present when the
    input has it. *)
Definition kept (key : string) (payload : JSON) : list (string * JSON) :=
  match prop key payload with
  | Some v => [(key, v)]
  | None => []
  end.

(** [dateString]'s [transform]: the date, read and written again. *)
Definition kept_date (key : string) (payload : JSON) : list (string * JSON) :=
  match string_prop key payload with
  | Some s =>
      match Date_parse s with
      | Some t => [(key, JStr (toISOString t))]
      | None => []
      end
  | None => []
  end.

(** What the three payload schemas return: the properties of the schema,
    the others stripped. *)
Definition parse_user (payload : JSON) : option JSON :=
  if Validators.createUserSchema payload then
    Some (JObj (kept "email" payload ++ kept "username" payload ++
                kept "fullName" payload))
  else None.

Definition parse_account (payload : JSON) : option JSON :=
  if Validators.createAccountSchema payload then
    Some (JObj (kept "userId" payload ++ kept "accountNumber" payload ++
                kept "accountType" payload ++ kept "balance" payload ++
                kept "currency" payload))
  else None.

Definition parse_promotion (payload : JSON) : option JSON :=
  if Validators.createPromotionSchema payload then
    Some (JObj (kept "code" payload ++ kept "name" payload ++
                kept "description" payload ++ kept "discountType" payload ++
                kept "discountValue" payload ++ kept_date "startDate" payload ++
                kept_date "endDate" payload))
  else None.

(** [z.union([createUserSchema, createAccountSchema, createPromotionSchema])]:
    the output of the first schema that accepts. *)
Definition parse_payload (payload : JSON) : option JSON :=
  match parse_user payload with
  | Some out => Some out
  | None =>
      match parse_account payload with
      | Some out => Some out
      | None => parse_promotion payload
      end
  end.

Definition is_action_type (s : string) : bool :=
  String.eqb s CREATE_USER || String.eqb s CREATE_ACCOUNT || String.eqb s CREATE_PROMOTION.

(** [createWorkflowActionSchema]: the action type, the parsed payload and the
    maker. *)
Definition createWorkflowActionSchema (body : JSON) : option (string * JSON * string) :=
  match string_prop "actionType" body, prop "payload" body, string_prop "makerId" body with
  | Some actionType, Some payload, Some makerId =>
      if is_action_type actionType && Validators.min_length 1 makerId then
        match parse_payload payload with
        | Some out => Some (actionType, out, makerId)
        | None => None
        end
      else None
  | _, _, _ => None
  end.

(** [z.enum([ActionStatus.APPROVED, ActionStatus.REJECTED])] *)
Definition decision (s : string) : option ActionStatusType :=
  if String.eqb s "approved" then Some APPROVED
  else if String.eqb s "rejected" then Some REJECTED
  else None.

(** [reviewActionSchema]: the decision, the checker and the comment. *)
Definition reviewActionSchema (body : JSON)
  : option (ActionStatusType * string * option string) :=
  match string_prop "status" body ≫= decision, string_prop "checkerId" body with
  | Some status, Some checkerId =>
      if Validators.min_length 1 checkerId then
        match prop "reviewComment" body with
        | None => Some (status, checkerId, None)
        | Some (JStr c) => Some (status, checkerId, Some c)
        | Some _ => None
        end
      else None
  | _, _ => None
  end.

End schemas.
End Schemas.

Module WorkflowController.
Import Http.
Section controller.
Context `{Platform} `{DateFormat}.

(** The catch of [getActionDetail] and [reviewAction]. *)
Definition not_found_or_500 (message : string) : nat :=
  if includes "not found" message then 404%nat else 500%nat.

Definition createAction (handlers : gmap string ActionHandler) (now : Time)
    (req : Request) (w : World) : World * Response WorkflowAction.t :=
  match json req with
  | inl thrown => (w, failure 500 thrown)
  | inr body =>
      match Schemas.createWorkflowActionSchema body with
      | None => (w, failure 400 "Validation failed")
      | Some (actionType, payload, makerId) =>
          match WorkflowService.createAction handlers now actionType payload makerId w with
          | (w', Ok action) =>
              (w', succeeded 201 (Some "Workflow action created successfully") action)
          | (w', Throw e) => (w', failure 500 (Error_message e))
          end
      end
  end.

Definition getActionDetail (req : Request) (w : World) : Response WorkflowAction.t :=
  if missing (param_id req) then failure 400 "Action ID is required"
  else
    match WorkflowService.getActionById (default "" (param_id req)) (db w) with
    | Ok action => succeeded 200 None action
    | Throw e => failure (not_found_or_500 (Error_message e)) (Error_message e)
    end.

Definition reviewAction (handlers : gmap string ActionHandler) (now : Time)
    (req : Request) (w : World) : World * Response WorkflowService.ReviewResult :=
  match json req with
  | inl thrown => (w, failure (not_found_or_500 thrown) thrown)
  | inr body =>
      if missing (param_id req) then (w, failure 400 "Action ID is required")
      else
        match Schemas.reviewActionSchema body with
        | None => (w, failure 400 "Validation failed")
        | Some (status, checkerId, reviewComment) =>
            match WorkflowService.reviewAction handlers now (default "" (param_id req))
                    checkerId status reviewComment w with
            | (w', Ok result) =>
                (w', succeeded 200
                       (Some (if decide (status = APPROVED)
                              then "Action approved and executed successfully"
                              else "Action rejected successfully"))
                       result)
            | (w', Throw e) =>
                (w', failure (not_found_or_500 (Error_message e)) (Error_message e))
            end
        end
  end.

End controller.
End WorkflowController.

(** The property names of the three payload schemas. *)
Definition schema_keys : list string :=
  ["email"; "username"; "fullName";
   "userId"; "accountNumber"; "accountType"; "balance"; "currency";
   "code"; "name"; "description"; "discountType"; "discountValue";
   "startDate"; "endDate"].

(** ** Requests to run examples on

    The date format writes the instants of [Sample.simple_Date_parse] as that
    function reads them. *)
Module Requests.

Definition digit (n : Z) : ascii := ascii_of_nat (48 + Z.to_nat (n mod 10)).

Definition simple_toISOString (t : Time) : string :=
  String (digit (t / 10000000)) (String (digit (t / 1000000))
  (String (digit (t / 100000)) (String (digit (t / 10000))
  (String "-" (String (digit (t / 1000)) (String (digit (t / 100))
  (String "-" (String (digit (t / 10)) (String (digit t) ""))))))))).

#[export] Instance dateFormat : DateFormat :=
  {| toISOString := simple_toISOString |}.

Definition create (actionType : string) (payload : JSON) (makerId : string) : Http.Request :=
  {| Http.param_id := None;
     Http.json := inr (JObj [("actionType", JStr actionType); ("payload", payload);
                             ("makerId", JStr makerId)]) |}.

Definition review (id status checkerId : string) : Http.Request :=
  {| Http.param_id := Some id;
     Http.json := inr (JObj [("status", JStr status); ("checkerId", JStr checkerId)]) |}.

(** A submission of an account that carries the properties of a user too. *)
Definition account_of_alice : JSON :=
  JObj [("userId", JStr "0"); ("accountNumber", JStr "ACC-001");
        ("accountType", JStr "savings");
        ("email", JStr "a@x.com"); ("username", JStr "alice")].

End Requests.

(** ** The routes ([routes/workflow.routes.ts], [middlewares/auth.middleware.ts])

    [jwtPayload] is what hono's [jwt] middleware leaves in the context: the
    payload of the token it verified, [None] when it refuses the request. *)
Module Routes.
Import Http.

Record Context := {
  jwtPayload : option JSON;
  request : Request
}.

(** What a route answers: the refusal of the [jwt] middleware, the 403 of
    [requireRole], or the response of the controller. *)
Inductive Answer (A : Type) :=
| Unauthorized
| Forbidden (error : string)
| Handled (resp : Response A).
Arguments Unauthorized {A}.
Arguments Forbidden {A} _.
Arguments Handled {A} _.

Definition is_handled {A} (a : Answer A) : bool :=
  match a with
  | Handled _ => true
  | _ => false
  end.

Definition jwtMiddleware {A} (c : Context) (next : JSON → World → World * Answer A)
    (w : World) : World * Answer A :=
  match jwtPayload c with
  | None => (w, Unauthorized)
  | Some payload => next payload w
  end.

Definition requireRole {A} (role : string) (payload : JSON)
    (next : World → World * Answer A) (w : World) : World * Answer A :=
  if decide (string_prop "role" payload ≠ Some role) then
    (w, Forbidden ("Unauthorized: " ++ role ++ " role required"))
  else next w.

Definition handled {A} (r : World * Response A) : World * Answer A :=
  (r.1, Handled r.2).

Section routes.
Context `{Platform} `{DateFormat}.

(** [POST /actions] *)
Definition post_actions (handlers : gmap string ActionHandler) (now : Time)
    (c : Context) : World → World * Answer WorkflowAction.t :=
  jwtMiddleware c (λ payload,
    requireRole "MAKER" payload (λ w,
      handled (WorkflowController.createAction handlers now (request c) w))).

(** [GET /actions/:id] *)
Definition get_actions_id (c : Context) : World → World * Answer WorkflowAction.t :=
  jwtMiddleware c (λ _ w, (w, Handled (WorkflowController.getActionDetail (request c) w))).

(** [POST /actions/:id/review] *)
Definition post_actions_id_review (handlers : gmap string ActionHandler) (now : Time)
    (c : Context) : World → World * Answer WorkflowService.ReviewResult :=
  jwtMiddleware c (λ payload,
    requireRole "CHECKER" payload (λ w,
      handled (WorkflowController.reviewAction handlers now (request c) w))).

End routes.
End Routes.

(** ** The action types and their metadata
    ([controllers/action-types.controller.ts])

    Strings are sequences of bytes here: [\w] is a letter, a digit or the
    underscore of ASCII, and a byte of another character is none of them. *)
Module ActionTypesController.

Record Metadata := {
  actionType : string;
  name : string;
  description : string;
  category : string
}.

Definition is_lower (c : ascii) : bool :=
  let n := nat_of_ascii c in ((97 <=? n) && (n <=? 122))%nat.

Definition is_upper (c : ascii) : bool :=
  let n := nat_of_ascii c in ((65 <=? n) && (n <=? 90))%nat.

(** [\w] *)
Definition is_word (c : ascii) : bool :=
  is_lower c || is_upper c || Validators.is_digit c || Ascii.eqb c "_"%char.

(** [l.toUpperCase()] on one character that [\w] matches. *)
Definition toUpperCase (c : ascii) : ascii :=
  if is_lower c then ascii_of_nat (nat_of_ascii c - 32) else c.

(** [.replace(/_/g, ' ')] *)
Fixpoint replace_underscores (s : string) : string :=
  match s with
  | EmptyString => ""
  | String c rest =>
      String (if Ascii.eqb c "_"%char then " "%char else c) (replace_underscores rest)
  end.

(** [.replace(/\b\w/g, l => l.toUpperCase())]; [after_word] tells whether the
    character before is one of [\w]. *)
Fixpoint capitalize_words (after_word : bool) (s : string) : string :=
  match s with
  | EmptyString => ""
  | String c rest =>
      String (if is_word c && negb after_word then toUpperCase c else c)
             (capitalize_words (is_word c) rest)
  end.

Definition metadata_of (t : string) : Metadata :=
  if String.eqb t CREATE_USER then
    {| actionType := t; name := "Create User";
       description := "Create a new user account in the system";
       category := "User Management" |}
  else if String.eqb t CREATE_ACCOUNT then
    {| actionType := t; name := "Create Account";
       description := "Create a new financial account for a user";
       category := "Account Management" |}
  else if String.eqb t CREATE_PROMOTION then
    {| actionType := t; name := "Create Promotion";
       description := "Create a new promotional campaign";
       category := "Marketing" |}
  else
    {| actionType := t;
       name := capitalize_words false (replace_underscores t);
       description := "Action type: " ++ t;
       category := "General" |}.

Definition getActionTypes (handlers : gmap string ActionHandler)
  : Http.Response (list Metadata) :=
  Http.succeeded 200 None (metadata_of <$> ActionHandlerFactory.getAllActionTypes handlers).

End ActionTypesController.

(** ** The registry of components of the host application
    ([frontend/apps/host-app/src/lib/registry.ts])

    The [Map] of the class is the list of its entries in the order in which
    their keys were first set; what the methods write to the console is kept
    in the state. *)
Module ComponentRegistry.

Record Metadata := {
  name : string;
  description : string;
  icon : option string;
  category : option string
}.

Inductive Console :=
| Warn (message : string)
| Log (message : string) (metadata : Metadata).

Definition is_warn (line : Console) : bool :=
  match line with
  | Warn _ => true
  | Log _ _ => false
  end.

Definition quote : string := String (ascii_of_nat 34) "".

Section registry.
Variable Components : Type.

Record WorkflowComponentRegistration := {
  actionType : string;
  metadata : Metadata;
  components : Components
}.

Definition Map := list (string * WorkflowComponentRegistration).

(** [Map.prototype.set]: the value of a key that is there is replaced in
    its place, a new key goes to the end. *)
Fixpoint Map_set (key : string) (value : WorkflowComponentRegistration) (m : Map) : Map :=
  match m with
  | [] => [(key, value)]
  | (k, v) :: rest =>
      if String.eqb k key then (k, value) :: rest
      else (k, v) :: Map_set key value rest
  end.

Fixpoint Map_get (key : string) (m : Map) : option WorkflowComponentRegistration :=
  match m with
  | [] => None
  | (k, v) :: rest => if String.eqb k key then Some v else Map_get key rest
  end.

Fixpoint Map_has (key : string) (m : Map) : bool :=
  match m with
  | [] => false
  | (k, _) :: rest => String.eqb k key || Map_has key rest
  end.

Record t := {
  registrations : Map;
  console : list Console
}.

Definition empty : t := {| registrations := []; console := [] |}.

Definition register (registration : WorkflowComponentRegistration) (r : t) : t :=
  let key := actionType registration in
  let warned :=
    if Map_has key (registrations r) then
      [Warn ("Component for action type " ++ quote ++ key ++ quote ++
             " is already registered. Overwriting.")]
    else [] in
  {| registrations := Map_set key registration (registrations r);
     console := console r ++ warned ++
                [Log ("Registered workflow component: " ++ key) (metadata registration)] |}.

Definition getRegistration (key : string) (r : t) : option WorkflowComponentRegistration :=
  Map_get key (registrations r).

Definition getAllRegistrations (r : t) : list WorkflowComponentRegistration :=
  (registrations r).*2.

Definition hasRegistration (key : string) (r : t) : bool :=
  Map_has key (registrations r).

Definition getActionTypes (r : t) : list string :=
  (registrations r).*1.

(** The registry after the registrations of a list, first to last. *)
Definition registered (rs : list WorkflowComponentRegistration) : t :=
  foldl (λ r registration, register registration r) empty rs.

End registry.

Arguments actionType {Components} _.
Arguments metadata {Components} _.
Arguments components {Components} _.
Arguments registrations {Components} _.
Arguments console {Components} _.
Arguments empty {Components}.
Arguments register {Components} _ _.
Arguments getRegistration {Components} _ _.
Arguments getAllRegistrations {Components} _.
Arguments hasRegistration {Components} _ _.
Arguments getActionTypes {Components} _.
Arguments registered {Components} _.
Arguments Map_set {Components} _ _ _.
Arguments Map_get {Components} _ _.
Arguments Map_has {Components} _ _.

End ComponentRegistry.

(** The types of a list in the order of their first occurrence. *)
Fixpoint first_occurrences (seen l : list string) : list string :=
  match l with
  | [] => []
  | x :: rest =>
      if bool_decide (x ∈ seen) then first_occurrences seen rest
      else x :: first_occurrences (x :: seen) rest
  end.

(** * Properties *)

(** ** The messages of the source *)

Example Error_message_already_approved :
  Error_message (AlreadyDecidedError APPROVED) =
    "Action is already approved and cannot be reviewed again".
Proof. reflexivity. Qed.

Example Error_message_unknown_type :
  Error_message (UnknownActionTypeError "unknown_type") =
    "No handler found for action type: unknown_type".
Proof. reflexivity. Qed.

(** ** The registry *)

Section registry.
Import ActionHandlerFactory.
Implicit Types handlers : gmap string ActionHandler.

Lemma getHandler_Ok handlers t h :
  getHandler handlers t = Ok (Handler h) ↔ handlers !! t = Some h.
Proof.
  unfold getHandler. destruct (handlers !! t); [| destruct (inherited _ _)];
    split; intros E; congruence.
Qed.

Lemma getHandler_Inherited handlers t name :
  getHandler handlers t = Ok (Inherited name) ↔
  handlers !! t = None ∧ inherited handlers t = true ∧ name = t.
Proof.
  unfold getHandler. destruct (handlers !! t); [| destruct (inherited _ _)].
  - split; [discriminate | intros [? _]; discriminate].
  - split; [intros [= <-]; done | intros (_ & _ & ->); done].
  - split; [discriminate | intros (_ & ? & _); discriminate].
Qed.

Lemma getHandler_Throw handlers t e :
  getHandler handlers t = Throw e ↔
  handlers !! t = None ∧ inherited handlers t = false ∧ e = UnknownActionTypeError t.
Proof.
  unfold getHandler. destruct (handlers !! t); [| destruct (inherited _ _)].
  - split; [discriminate | intros [? _]; discriminate].
  - split; [discriminate | intros (_ & ? & _); discriminate].
  - split; [intros [= <-]; done | intros (_ & _ & ->); done].
Qed.

Lemma inherited_registerHandler handlers t h name :
  t ≠ "__proto__" →
  inherited (registerHandler t h handlers) name = inherited handlers name.
Proof.
  intros Hne. unfold inherited, registerHandler. by rewrite lookup_insert_ne.
Qed.

Lemma registerHandler_other handlers t t' h :
  t' ≠ t → t ≠ "__proto__" →
  getHandler (registerHandler t h handlers) t' = getHandler handlers t'.
Proof.
  intros Hne Hproto. unfold getHandler.
  rewrite inherited_registerHandler by done. unfold registerHandler.
  by rewrite lookup_insert_ne.
Qed.

Lemma getAllActionTypes_spec handlers t :
  t ∈ getAllActionTypes handlers ↔ is_Some (handlers !! t) ∧ t ≠ "__proto__".
Proof.
  unfold getAllActionTypes.
  by rewrite elem_of_elements, elem_of_difference, elem_of_dom, not_elem_of_singleton.
Qed.

Lemma Process_step_handlers op p t :
  Process.registers t op = false →
  Process.handlers (Process.step op p) !! t = Process.handlers p !! t.
Proof.
  destruct op as [t' h' | i c]; cbn.
  - intros Hne%String.eqb_neq. unfold registerHandler. by rewrite lookup_insert_ne.
  - intros _. by destruct (Process.services p !! i).
Qed.

Lemma Process_run_handlers ops p t :
  Forall (λ op, Process.registers t op = false) ops →
  Process.handlers (Process.run ops p) !! t = Process.handlers p !! t.
Proof.
  intros Hops. revert p. induction Hops as [| op ops Hop _ IH]; intros p; [done |].
  cbn. unfold Process.run in IH. by rewrite IH, Process_step_handlers.
Qed.

Lemma createAction_resolved handlers handlers' now t payload makerId w :
  getHandler handlers t = getHandler handlers' t →
  WorkflowService.createAction handlers now t payload makerId w =
  WorkflowService.createAction handlers' now t payload makerId w.
Proof. unfold WorkflowService.createAction. by intros ->. Qed.

(** C10. The registry is one map of the process, outside every service.
    After [registerHandler t h], and after whatever the services do and
    whatever is registered for other types, [getHandler t] is [h], whatever
    was registered for [t] before; a second registration replaces the
    first; [createAction] of every service of the process, whatever its
    database, runs as if [h] were the only handler registered for [t]; and
    [getAllActionTypes] lists [t] when [t] is not [__proto__]. *)
Theorem registerHandler_last_write_wins p t h ops :
  Forall (λ op, Process.registers t op = false) ops →
  let p' := Process.run ops (Process.step (Process.RegisterHandler t h) p) in
  getHandler (Process.handlers p') t = Ok (Handler h) ∧
  (t ≠ "__proto__" → t ∈ getAllActionTypes (Process.handlers p')) ∧
  (∀ h0, Process.step (Process.RegisterHandler t h)
           (Process.step (Process.RegisterHandler t h0) p) =
         Process.step (Process.RegisterHandler t h) p) ∧
  (∀ service w now payload makerId,
     Process.services p' !! service = Some w →
     Process.services
       (Process.step (Process.ServiceCall service (CreateAction now t payload makerId)) p')
       !! service =
     Some (WorkflowService.createAction (registerHandler t h ∅) now t payload makerId w).1).
Proof.
  intros Hops p'.
  assert (Process.handlers p' !! t = Some h) as Hh.
  { subst p'. rewrite Process_run_handlers by done. cbn. apply lookup_insert_eq. }
  split_and!.
  - by apply getHandler_Ok.
  - intros Hne. apply getAllActionTypes_spec. by split; [exists h |].
  - intros h0. cbn. unfold registerHandler. by rewrite insert_insert_eq.
  - intros service w now payload makerId Hw. cbn. rewrite Hw. cbn.
    rewrite list_lookup_insert_eq by (by eapply lookup_lt_Some).
    f_equal. f_equal. apply createAction_resolved.
    trans (Ok (Handler h) : result Resolved); [by apply getHandler_Ok |].
    symmetry. apply getHandler_Ok, lookup_insert_eq.
Qed.

(** A type is registered in a process of two services; one of them submits
    and another type is registered before the registry is read. *)
Lemma registerHandler_last_write_wins_witness :
  let h := @CreateUserHandler.handler Sample.platform in
  let p := {| Process.handlers := Sample.handlers;
              Process.services := [Sample.world0; Sample.world2] |} in
  let ops := [Process.ServiceCall 0 (CreateAction 20 CREATE_USER Sample.alice "m1");
              Process.RegisterHandler CREATE_ACCOUNT h] in
  let p' := Process.run ops (Process.step (Process.RegisterHandler "create_refund" h) p) in
  getHandler (Process.handlers p') "create_refund" = Ok (Handler h) ∧
  "create_refund" ∈ getAllActionTypes (Process.handlers p').
Proof.
  intros h p ops p'.
  destruct (registerHandler_last_write_wins p "create_refund" h ops) as (Hget & Hlist & _).
  { constructor; [reflexivity |]. constructor; [reflexivity |]. constructor. }
  split; [exact Hget | apply Hlist; discriminate].
Defined.

(** C10 as the claim has it fails for the name [__proto__]: the assignment
    sets the prototype of the registry, [getHandler] returns the handler
    through the accessor, and [Object.keys] does not list the name. *)
Lemma registerHandler_proto_not_listed :
  let h := @CreateUserHandler.handler Sample.platform in
  getHandler (registerHandler "__proto__" h Sample.handlers) "__proto__" = Ok (Handler h) ∧
  "__proto__" ∉ getAllActionTypes (registerHandler "__proto__" h Sample.handlers).
Proof.
  intros h. split; [reflexivity |].
  rewrite getAllActionTypes_spec. by intros [_ Hne].
Qed.

End registry.

(** ** Submission *)

Section submission.
Import ActionHandlerFactory WorkflowService.
Implicit Types handlers : gmap string ActionHandler.

Lemma fresh_id_unused (rows : gmap string WorkflowAction.t) :
  rows !! fresh (dom rows) = None.
Proof. apply not_elem_of_dom, is_fresh. Qed.

(** C6. [createAction] throws the registry's error and changes nothing when
    the action type names no handler and nothing that the registry inherits.
    When the type names no handler but a property that the registry inherits
    ([constructor], [toString], ...), the guard of [getHandler] lets the
    inherited value through and the call fails where it calls [validate] on
    it, with a [TypeError] and not with the registry's error; nothing is
    persisted.  It throws the handler's validation error and persists
    nothing when [validate] throws; otherwise it inserts, under a key the
    table did not have, a pending row carrying the submitted values, and
    returns it.  In each case the call makes no [execute] call and leaves the
    other tables alone. *)
Theorem createAction_outcomes handlers now actionType payload makerId w w' r :
  createAction handlers now actionType payload makerId w = (w', r) →
  (∃ l, calls w' = (calls w ++ l)%list ∧ Forall (λ c, is_execute c = false) l) ∧
  users (db w') = users (db w) ∧
  accounts (db w') = accounts (db w) ∧
  promotions (db w') = promotions (db w) ∧
  (handlers !! actionType = None → inherited handlers actionType = false →
     w' = w ∧ r = Throw (UnknownActionTypeError actionType)) ∧
  (handlers !! actionType = None → inherited handlers actionType = true →
     w' = w ∧ r = Throw (TypeError "handler.validate is not a function")) ∧
  (∀ h message, handlers !! actionType = Some h → validate h payload = Some message →
     db w' = db w ∧ r = Throw (ValidationError message)) ∧
  (∀ h, handlers !! actionType = Some h → validate h payload = None →
     ∃ a, r = Ok a ∧
          WorkflowAction.status a = PENDING ∧
          WorkflowAction.actionType a = actionType ∧
          WorkflowAction.payload a = payload ∧
          WorkflowAction.makerId a = makerId ∧
          WorkflowAction.checkerId a = None ∧
          workflowActions (db w) !! WorkflowAction.id a = None ∧
          workflowActions (db w') =
            <[WorkflowAction.id a := a]> (workflowActions (db w))).
Proof.
  unfold createAction, getHandler. intros E.
  destruct (handlers !! actionType) as [h|] eqn:Hh.
  - destruct (validate h payload) as [message|] eqn:Hv;
      injection E as <- <-; cbn.
    + split_and!; try done.
      * exists [CallValidate actionType payload]. auto.
      * intros h' m' [= <-] Hv'. split; [done | congruence].
      * intros h' [= <-] Hv'. congruence.
    + split_and!; try done.
      * exists [CallValidate actionType payload]. auto.
      * intros h' m' [= <-] Hv'. congruence.
      * intros h' _ _. eexists. split; [reflexivity |]. cbn.
        split_and!; try done. apply fresh_id_unused.
  - destruct (inherited handlers actionType) eqn:Hi; injection E as <- <-.
    + split_and!; try done.
      exists []. split; [by rewrite app_nil_r | constructor].
    + split_and!; try done.
      exists []. split; [by rewrite app_nil_r | constructor].
Qed.

(** The outcomes, on the registry of the source: a type that nothing has, a
    type that names an inherited property, a payload that [validate]
    refuses, and a submission that is stored. *)
Lemma createAction_outcomes_witness :
  (WorkflowService.createAction Sample.handlers 10 "unknown_type"
     Sample.alice "m1" Sample.world0).2 = Throw (UnknownActionTypeError "unknown_type") ∧
  WorkflowService.createAction Sample.handlers 10 "constructor"
     Sample.alice "m1" Sample.world0 =
    (Sample.world0, Throw (TypeError "handler.validate is not a function")) ∧
  (WorkflowService.createAction Sample.handlers 10 CREATE_USER
     (JObj [("email", JStr "a@x.com")]) "m1" Sample.world0).2
    = Throw (ValidationError "Validation failed") ∧
  ∃ a, (WorkflowService.createAction Sample.handlers 10 CREATE_USER
          Sample.alice "m1" Sample.world0).2 = Ok a ∧
       WorkflowAction.status a = PENDING.
Proof.
  split_and!.
  - destruct (createAction Sample.handlers 10 "unknown_type" Sample.alice "m1"
                Sample.world0) as [w' r] eqn:E.
    destruct (createAction_outcomes _ _ _ _ _ _ _ _ E) as (_ & _ & _ & _ & Hnone & _).
    cbn. refine (proj2 (Hnone _ _)); reflexivity.
  - destruct (createAction Sample.handlers 10 "constructor" Sample.alice "m1"
                Sample.world0) as [w' r] eqn:E.
    destruct (createAction_outcomes _ _ _ _ _ _ _ _ E)
      as (_ & _ & _ & _ & _ & Hinherited & _).
    destruct Hinherited as [-> ->]; reflexivity.
  - destruct (createAction Sample.handlers 10 CREATE_USER
                (JObj [("email", JStr "a@x.com")]) "m1" Sample.world0) as [w' r] eqn:E.
    destruct (createAction_outcomes _ _ _ _ _ _ _ _ E)
      as (_ & _ & _ & _ & _ & _ & Hbad & _).
    cbn. refine (proj2 (Hbad (@CreateUserHandler.handler Sample.platform) _ _ _)); reflexivity.
  - destruct (createAction Sample.handlers 10 CREATE_USER Sample.alice "m1"
                Sample.world0) as [w' r] eqn:E.
    destruct (createAction_outcomes _ _ _ _ _ _ _ _ E)
      as (_ & _ & _ & _ & _ & _ & _ & Hok).
    destruct (Hok (@CreateUserHandler.handler Sample.platform)) as (a & -> & Hp & _);
      [reflexivity ..|].
    exists a. split; [reflexivity | exact Hp].
Defined.

End submission.

(** ** Review: the guards *)

Section review.
Import ActionHandlerFactory WorkflowService.
Implicit Types handlers : gmap string ActionHandler.
Implicit Types d : Database.

Lemma review_fetch_Ok actionId checkerId d a :
  review_fetch actionId checkerId d = Ok a ↔
  workflowActions d !! actionId = Some a ∧
  WorkflowAction.status a = PENDING ∧
  WorkflowAction.makerId a ≠ checkerId.
Proof.
  unfold review_fetch, getActionById.
  destruct (workflowActions d !! actionId) as [a0|].
  - destruct (decide (WorkflowAction.status a0 ≠ PENDING)) as [Hs|Hs].
    + split; [discriminate | intros ([= ->] & ? & _); done].
    + apply dec_stable in Hs.
      destruct (decide (WorkflowAction.makerId a0 = checkerId)).
      * split; [discriminate | intros ([= ->] & _ & ?); done].
      * split; [intros [= ->]; done | intros ([= ->] & _); done].
  - split; [discriminate | intros (? & _); discriminate].
Qed.

Lemma review_fetch_decided actionId checkerId d a :
  workflowActions d !! actionId = Some a →
  WorkflowAction.status a ≠ PENDING →
  review_fetch actionId checkerId d = Throw (AlreadyDecidedError (WorkflowAction.status a)).
Proof.
  intros Ha Hs. unfold review_fetch, getActionById. rewrite Ha.
  case_decide; done.
Qed.

Lemma review_fetch_self actionId d a :
  workflowActions d !! actionId = Some a →
  WorkflowAction.status a = PENDING →
  review_fetch actionId (WorkflowAction.makerId a) d = Throw SelfReviewError.
Proof.
  intros Ha Hs. unfold review_fetch, getActionById. rewrite Ha.
  repeat case_decide; done.
Qed.

Lemma review_fetch_missing actionId checkerId d :
  workflowActions d !! actionId = None →
  review_fetch actionId checkerId d = Throw (NotFoundError actionId).
Proof. intros Ha. unfold review_fetch, getActionById. by rewrite Ha. Qed.

(** A call whose fetch or guards throw writes nothing and calls no handler. *)
Lemma reviewAction_guard handlers now actionId checkerId status reviewComment w e :
  review_fetch actionId checkerId (db w) = Throw e →
  reviewAction handlers now actionId checkerId status reviewComment w = (w, Throw e).
Proof. intros E. unfold reviewAction. by rewrite E. Qed.

(** The update does not look at the status of the row it writes. *)
Lemma review_update_unconditional now actionId checkerId status reviewComment d row :
  workflowActions d !! actionId = Some row →
  review_update now actionId checkerId status reviewComment d =
    (set_workflowActions
       (<[actionId := review_set now checkerId status reviewComment row]> (workflowActions d)) d,
     Some (review_set now checkerId status reviewComment row)).
Proof. intros Hrow. unfold review_update. by rewrite Hrow. Qed.

Lemma with_db_id w : with_db (db w) w = w.
Proof. by destruct w. Qed.

(** A rejection, or any decision but approval, ends after the update. *)
Lemma reviewAction_not_approved handlers now actionId checkerId status reviewComment w a :
  review_fetch actionId checkerId (db w) = Ok a →
  status ≠ APPROVED →
  reviewAction handlers now actionId checkerId status reviewComment w =
    (with_db (set_workflowActions
                (<[actionId := review_set now checkerId status reviewComment a]>
                   (workflowActions (db w))) (db w)) w,
     Ok {| action := Some (review_set now checkerId status reviewComment a);
           executionResult := None |}).
Proof.
  intros E Hs. unfold reviewAction. rewrite E.
  apply review_fetch_Ok in E as (Ha & _ & _).
  rewrite (review_update_unconditional _ _ _ _ _ _ _ Ha).
  unfold review_finish. by case_decide.
Qed.

(** An approval: the update, then the handler of the fetched action on the
    fetched payload. *)
Lemma reviewAction_approved handlers now actionId checkerId reviewComment w a :
  review_fetch actionId checkerId (db w) = Ok a →
  reviewAction handlers now actionId checkerId APPROVED reviewComment w =
    let a' := review_set now checkerId APPROVED reviewComment a in
    let w1 := with_db (set_workflowActions (<[actionId := a']> (workflowActions (db w)))
                                           (db w)) w in
    match handlers !! WorkflowAction.actionType a with
    | None =>
        (w1, Throw (if inherited handlers (WorkflowAction.actionType a)
                    then TypeError "handler.execute is not a function"
                    else UnknownActionTypeError (WorkflowAction.actionType a)))
    | Some h =>
        let w2 := log (CallExecute (WorkflowAction.actionType a) (WorkflowAction.payload a)) w1 in
        match execute h now (db w2) (WorkflowAction.payload a) with
        | (d2, inl message) => (with_db d2 w2, Throw (ExecutionError message))
        | (d2, inr r) =>
            (with_db d2 w2, Ok {| action := Some a'; executionResult := Some r |})
        end
    end.
Proof.
  intros E. unfold reviewAction. rewrite E.
  apply review_fetch_Ok in E as (Ha & _ & _).
  rewrite (review_update_unconditional _ _ _ _ _ _ _ Ha).
  unfold review_finish, getHandler. cbn.
  destruct (handlers !! WorkflowAction.actionType a); [done |].
  by destruct (inherited _ _).
Qed.


(** C5, as amended.  When the checker is the maker of the action the call
    throws and the state is the one before the call: [SelfReviewError] if the
    action is pending, [AlreadyDecidedError] if it is not, the status guard
    coming first. *)
Theorem reviewAction_by_maker handlers now actionId checkerId status reviewComment w a :
  workflowActions (db w) !! actionId = Some a →
  WorkflowAction.makerId a = checkerId →
  ∃ e, reviewAction handlers now actionId checkerId status reviewComment w = (w, Throw e) ∧
       (WorkflowAction.status a = PENDING → e = SelfReviewError) ∧
       (WorkflowAction.status a ≠ PENDING →
          e = AlreadyDecidedError (WorkflowAction.status a)).
Proof.
  intros Ha <-.
  destruct (decide (WorkflowAction.status a = PENDING)) as [Hs|Hs].
  - exists SelfReviewError. split; [| done].
    apply reviewAction_guard. by apply review_fetch_self.
  - exists (AlreadyDecidedError (WorkflowAction.status a)). split; [| done].
    apply reviewAction_guard. by apply review_fetch_decided.
Qed.

(** C3.  The call does not look at the comment of a rejection: on a pending
    action reviewed by another than its maker a rejection succeeds with a
    comment, with the empty comment and with none, and the row is rejected. *)
Theorem reject_whatever_comment handlers now actionId checkerId reviewComment w a :
  workflowActions (db w) !! actionId = Some a →
  WorkflowAction.status a = PENDING →
  WorkflowAction.makerId a ≠ checkerId →
  ∃ w' a',
    reviewAction handlers now actionId checkerId REJECTED reviewComment w =
      (w', Ok {| action := Some a'; executionResult := None |}) ∧
    workflowActions (db w') !! actionId = Some a' ∧
    WorkflowAction.status a' = REJECTED ∧
    WorkflowAction.checkerId a' = Some checkerId ∧
    WorkflowAction.reviewComment a' =
      match reviewComment with
      | Some c => Some c
      | None => WorkflowAction.reviewComment a
      end.
Proof.
  intros Ha Hs Hm.
  assert (E : review_fetch actionId checkerId (db w) = Ok a) by by apply review_fetch_Ok.
  eexists _, _. split.
  { by apply reviewAction_not_approved. }
  cbn. by rewrite lookup_insert_eq.
Qed.

(** No comment and the empty comment, on the first submission of the sample. *)
Lemma reject_whatever_comment_witness :
  (∃ w' a',
     reviewAction Sample.handlers 20 "0" "c1" REJECTED None Sample.world1 =
       (w', Ok {| action := Some a'; executionResult := None |}) ∧
     WorkflowAction.status a' = REJECTED ∧ WorkflowAction.reviewComment a' = None) ∧
  (∃ w' a',
     reviewAction Sample.handlers 20 "0" "c1" REJECTED (Some "") Sample.world1 =
       (w', Ok {| action := Some a'; executionResult := None |}) ∧
     WorkflowAction.status a' = REJECTED ∧ WorkflowAction.reviewComment a' = Some "").
Proof.
  split.
  - destruct (reject_whatever_comment Sample.handlers 20 "0" "c1" None
                Sample.world1 Sample.action0)
      as (w' & a' & E & _ & Hs & _ & Hc); [reflexivity | reflexivity | discriminate |].
    exists w', a'. split_and!; [exact E | exact Hs | exact Hc].
  - destruct (reject_whatever_comment Sample.handlers 20 "0" "c1" (Some "")
                Sample.world1 Sample.action0)
      as (w' & a' & E & _ & Hs & _ & Hc); [reflexivity | reflexivity | discriminate |].
    exists w', a'. split_and!; [exact E | exact Hs | exact Hc].
Defined.

(** The maker of the first submission reviews it while it is pending. *)
Lemma reviewAction_by_maker_witness :
  reviewAction Sample.handlers 20 "0" "m1" APPROVED None Sample.world1 =
    (Sample.world1, Throw SelfReviewError).
Proof.
  destruct (reviewAction_by_maker Sample.handlers 20 "0" "m1" APPROVED None
              Sample.world1 Sample.action0) as (e & E & He & _);
    [reflexivity | reflexivity |].
  rewrite E, (He eq_refl). reflexivity.
Defined.

(** C5 as the specification has it fails once the action is decided: the
    maker of the approved first submission gets [AlreadyDecidedError], not
    [SelfReviewError]. *)
Lemma reviewAction_by_maker_of_decided :
  (WorkflowAction.makerId <$> workflowActions (db Sample.world3) !! "0") = Some "m1" ∧
  (reviewAction Sample.handlers 20 "0" "m1" APPROVED None Sample.world3).2 =
    Throw (AlreadyDecidedError APPROVED) ∧
  (reviewAction Sample.handlers 20 "0" "m1" APPROVED None Sample.world3).2 ≠
    Throw SelfReviewError.
Proof. split_and!; [reflexivity | reflexivity | discriminate]. Qed.


(** ** Review: approval and the handler *)

(** C1.  When the handler's [execute] throws, the call throws its error after
    the row was written: the row stays approved, with the checker on it, and
    every later review of it is refused as already decided.  Nothing puts
    the row back to pending and no other status records the failure. *)
Theorem approval_survives_failed_execute
    handlers now actionId checkerId reviewComment w a h d2 message :
  workflowActions (db w) !! actionId = Some a →
  WorkflowAction.status a = PENDING →
  WorkflowAction.makerId a ≠ checkerId →
  handlers !! WorkflowAction.actionType a = Some h →
  let a' := review_set now checkerId APPROVED reviewComment a in
  let d1 := set_workflowActions (<[actionId := a']> (workflowActions (db w))) (db w) in
  execute h now d1 (WorkflowAction.payload a) = (d2, inl message) →
  workflowActions d2 = workflowActions d1 →
  ∃ w',
    reviewAction handlers now actionId checkerId APPROVED reviewComment w =
      (w', Throw (ExecutionError message)) ∧
    workflowActions (db w') !! actionId = Some a' ∧
    WorkflowAction.status a' = APPROVED ∧
    ∀ now' checkerId' status' reviewComment',
      reviewAction handlers now' actionId checkerId' status' reviewComment' w' =
        (w', Throw (AlreadyDecidedError APPROVED)).
Proof.
  intros Ha Hs Hm Hh a' d1 Hx Hd2.
  assert (E : review_fetch actionId checkerId (db w) = Ok a) by by apply review_fetch_Ok.
  eexists. split.
  { rewrite (reviewAction_approved _ _ _ _ _ _ _ E). rewrite Hh. cbn.
    fold a' d1. rewrite Hx. reflexivity. }
  cbn. rewrite Hd2. unfold d1 at 1. cbn. rewrite lookup_insert_eq.
  split_and!; try done.
  intros now' checkerId' status' reviewComment'.
  apply reviewAction_guard.
  apply (review_fetch_decided _ _ _ a'); cbn; [| done].
  rewrite Hd2. unfold d1. cbn. apply lookup_insert_eq.
Qed.

(** Scenario B: the second submission of the same email is approved after the
    first; [execute] finds the user and throws, the row is approved. *)
Lemma approval_survives_failed_execute_witness :
  ∃ w',
    reviewAction Sample.handlers 13 "1" "c1" APPROVED None Sample.world3 =
      (w', Throw (ExecutionError "User with email a@x.com already exists")) ∧
    (WorkflowAction.status <$> workflowActions (db w') !! "1") = Some APPROVED ∧
    length (users (db w')) = 1%nat.
Proof.
  pose proof (approval_survives_failed_execute Sample.handlers 13 "1" "c1" None
                Sample.world3 Sample.action1 (@CreateUserHandler.handler Sample.platform)
                (set_workflowActions
                   (<["1" := review_set 13 "c1" APPROVED None Sample.action1]>
                      (workflowActions (db Sample.world3))) (db Sample.world3))
                "User with email a@x.com already exists") as X.
  assert (Hrow : workflowActions (db Sample.world3) !! "1" = Some Sample.action1)
    by (vm_compute; reflexivity).
  assert (Hmaker : WorkflowAction.makerId Sample.action1 ≠ "c1") by discriminate.
  specialize (X Hrow eq_refl Hmaker eq_refl). cbv zeta in X.
  lazymatch type of X with
  | ?A → _ => assert (Hthrows : A) by (vm_compute; reflexivity)
  end.
  destruct (X Hthrows eq_refl) as (w' & E & Hrow' & _ & _).
  exists w'. split; [exact E |]. split.
  - rewrite Hrow'. reflexivity.
  - injection E as <-. vm_compute. reflexivity.
Defined.

End review.

(** ** What a review writes *)

Lemma same_submission_refl a : same_submission a a.
Proof. by unfold same_submission. Qed.

Lemma same_submission_trans a b c :
  same_submission a b → same_submission b c → same_submission a c.
Proof. unfold same_submission. intros (?&?&?&?&?) (?&?&?&?&?). split_and!; congruence. Qed.

Lemma review_set_same_submission now checkerId status reviewComment a :
  same_submission a (WorkflowService.review_set now checkerId status reviewComment a).
Proof. by unfold same_submission. Qed.

Section frame.
Import ActionHandlerFactory WorkflowService.
Context (handlers : gmap string ActionHandler).
Context (Hkeep : handlers_keep_actions handlers).

(** Once the guards are passed the table of actions changes in one row, the
    reviewed one, whatever the handler does afterwards. *)
Lemma reviewAction_actions now actionId checkerId status reviewComment w a :
  review_fetch actionId checkerId (db w) = Ok a →
  workflowActions (db (reviewAction handlers now actionId checkerId status reviewComment w).1) =
    <[actionId := review_set now checkerId status reviewComment a]> (workflowActions (db w)).
Proof.
  intros E. destruct (decide (status = APPROVED)) as [-> | Hs].
  - rewrite (reviewAction_approved _ _ _ _ _ _ _ E). cbn.
    destruct (handlers !! WorkflowAction.actionType a) as [h|] eqn:Hh; [| done].
    match goal with
    | |- context [execute h now ?d ?p] =>
        pose proof (Hkeep _ _ Hh now d p) as Hk; destruct (execute h now d p) as [d2 [m|r]]
    end; cbn in *; by rewrite Hk.
  - by rewrite (reviewAction_not_approved _ _ _ _ _ _ _ _ E Hs).
Qed.

(** The handler calls of a review: one [execute], on approval, with the type
    and the payload of the row as it was fetched. *)
Lemma reviewAction_calls now actionId checkerId status reviewComment w w' r a :
  review_fetch actionId checkerId (db w) = Ok a →
  reviewAction handlers now actionId checkerId status reviewComment w = (w', Ok r) →
  action r = Some (review_set now checkerId status reviewComment a) ∧
  calls w' =
    (calls w ++
     if decide (status = APPROVED)
     then [CallExecute (WorkflowAction.actionType a) (WorkflowAction.payload a)]
     else [])%list.
Proof.
  intros E. destruct (decide (status = APPROVED)) as [-> | Hs].
  - rewrite (reviewAction_approved _ _ _ _ _ _ _ E). cbn.
    destruct (handlers !! WorkflowAction.actionType a) as [h|]; [| discriminate].
    match goal with
    | |- context [execute h now ?d ?p] => destruct (execute h now d p) as [d2 [m|x]]
    end; [discriminate |].
    intros [= <- <-]. done.
  - rewrite (reviewAction_not_approved _ _ _ _ _ _ _ _ E Hs).
    intros [= <- <-]. cbn. by rewrite app_nil_r.
Qed.

(** One call, seen from a row that is in the table before it: the row is
    still there, its submission columns are the same, and if it was decided
    it is the same row. *)
Lemma run_call_row c w i a :
  workflowActions (db w) !! i = Some a →
  ∃ a', workflowActions (db (run_call handlers c w)) !! i = Some a' ∧
        same_submission a a' ∧
        (WorkflowAction.status a ≠ PENDING → a' = a).
Proof.
  intros Ha. destruct c as [now t p m | now actionId checkerId status rc]; cbn.
  - unfold createAction, getHandler.
    destruct (handlers !! t) as [h|];
      [| destruct (inherited _ _); exists a; eauto using same_submission_refl].
    destruct (validate h p); cbn; [exists a; eauto using same_submission_refl |].
    exists a. split; [| eauto using same_submission_refl].
    rewrite lookup_insert_ne; [done |].
    intros Heq. rewrite <- Heq, fresh_id_unused in Ha. discriminate.
  - destruct (review_fetch actionId checkerId (db w)) as [a0 | e] eqn:E.
    + rewrite (reviewAction_actions _ _ _ _ _ _ _ E).
      apply review_fetch_Ok in E as (Ha0 & Hs0 & _).
      destruct (decide (actionId = i)) as [-> | Hne].
      * rewrite lookup_insert_eq. assert (a0 = a) as -> by congruence.
        eexists. split; [done |]. split; [apply review_set_same_submission | done].
      * rewrite lookup_insert_ne by done. exists a. eauto using same_submission_refl.
    + rewrite (reviewAction_guard _ _ _ _ _ _ _ _ E). cbn.
      exists a. eauto using same_submission_refl.
Qed.

Lemma run_calls_row cs w i a :
  workflowActions (db w) !! i = Some a →
  ∃ a', workflowActions (db (run_calls handlers cs w)) !! i = Some a' ∧
        same_submission a a' ∧
        (WorkflowAction.status a ≠ PENDING → a' = a).
Proof.
  revert w a. induction cs as [| c cs IH]; intros w a Ha; cbn.
  - exists a. eauto using same_submission_refl.
  - destruct (run_call_row c w i a Ha) as (a1 & Ha1 & Hsame1 & Hfin1).
    destruct (IH _ _ Ha1) as (a2 & Ha2 & Hsame2 & Hfin2).
    exists a2. split; [exact Ha2 |]. split; [by eapply same_submission_trans |].
    intros Hs. specialize (Hfin1 Hs) as ->. by apply Hfin2.
Qed.

End frame.

(** ** The handlers of the source keep to their tables *)

Section source_handlers.
Context `{Platform}.

Lemma CreateUserHandler_keeps_actions now d payload :
  workflowActions (CreateUserHandler.execute now d payload).1 = workflowActions d.
Proof. unfold CreateUserHandler.execute. by repeat case_match. Qed.

Lemma CreateAccountHandler_keeps_actions now d payload :
  workflowActions (CreateAccountHandler.execute now d payload).1 = workflowActions d.
Proof. unfold CreateAccountHandler.execute. by repeat case_match. Qed.

Lemma CreatePromotionHandler_keeps_actions now d payload :
  workflowActions (CreatePromotionHandler.execute now d payload).1 = workflowActions d.
Proof. unfold CreatePromotionHandler.execute. by repeat case_match. Qed.

Lemma handlers0_lookup t h :
  handlers0 !! t = Some h →
  (t = CREATE_USER ∧ h = CreateUserHandler.handler) ∨
  (t = CREATE_ACCOUNT ∧ h = CreateAccountHandler.handler) ∨
  (t = CREATE_PROMOTION ∧ h = CreatePromotionHandler.handler).
Proof.
  unfold handlers0. intros Hh.
  apply lookup_insert_Some in Hh as [[<- <-] | [_ Hh]]; [by left |].
  apply lookup_insert_Some in Hh as [[<- <-] | [_ Hh]]; [by right; left |].
  apply lookup_singleton_Some in Hh as [<- <-]. by right; right.
Qed.

Lemma handlers0_keep_actions : handlers_keep_actions handlers0.
Proof.
  intros t h Hh now d payload.
  destruct (handlers0_lookup _ _ Hh) as [[_ ->] | [[_ ->] | [_ ->]]]; cbn.
  - apply CreateUserHandler_keeps_actions.
  - apply CreateAccountHandler_keeps_actions.
  - apply CreatePromotionHandler_keeps_actions.
Qed.

End source_handlers.

Section frame_claim.
Import ActionHandlerFactory WorkflowService.

Lemma createAction_Ok handlers now t p m w w' a :
  createAction handlers now t p m w = (w', Ok a) →
  workflowActions (db w') !! WorkflowAction.id a = Some a ∧
  WorkflowAction.actionType a = t ∧
  WorkflowAction.payload a = p ∧
  WorkflowAction.status a = PENDING.
Proof.
  unfold createAction, getHandler.
  destruct (handlers !! t) as [h|]; [| by destruct (inherited _ _)].
  destruct (validate h p); [discriminate |].
  intros [= <- <-]. cbn. by rewrite lookup_insert_eq.
Qed.

(** What a review that succeeds has run: on approval the [execute] of the
    handler registered for the type of the fetched row, on the database the
    update left and on the payload of that row; its database is the one the
    call leaves and its row the one the call returns.  Otherwise nothing
    beyond the update. *)
Lemma reviewAction_executes handlers now actionId checkerId status reviewComment w w' r a :
  review_fetch actionId checkerId (db w) = Ok a →
  reviewAction handlers now actionId checkerId status reviewComment w = (w', Ok r) →
  let a' := review_set now checkerId status reviewComment a in
  let d1 := set_workflowActions (<[actionId := a']> (workflowActions (db w))) (db w) in
  if decide (status = APPROVED) then
    ∃ h x, handlers !! WorkflowAction.actionType a = Some h ∧
           execute h now d1 (WorkflowAction.payload a) = (db w', inr x) ∧
           executionResult r = Some x
  else db w' = d1 ∧ executionResult r = None.
Proof.
  intros E. cbv zeta. destruct (decide (status = APPROVED)) as [-> | Hs].
  - rewrite (reviewAction_approved _ _ _ _ _ _ _ E). cbn.
    destruct (handlers !! WorkflowAction.actionType a) as [h|]; [| discriminate].
    match goal with
    | |- context [execute h now ?d ?p] => destruct (execute h now d p) as [d2 [m|x]] eqn:Hx
    end; [discriminate |].
    intros [= <- <-]. exists h, x. done.
  - rewrite (reviewAction_not_approved _ _ _ _ _ _ _ _ E Hs).
    by intros [= <- <-].
Qed.

(** C7.  A review that succeeds replaces one row of the table of actions,
    the reviewed one, by [review_set] of it: the key, the type, the payload,
    the maker and the creation time are those of the row before, and no other
    row changes.  On approval the call runs [execute] of the handler
    registered for the type of that row, once, on the payload of that row
    and on the database as the update left it: the database after the call
    is the one [execute] returned and the [executionResult] is its row.  A
    review that does not approve runs no handler and leaves the other tables
    as they were.  For a row that [createAction] made, after any calls in
    between, the payload that [execute] gets is the payload that was
    submitted. *)
Theorem reviewAction_writes_review_columns handlers :
  handlers_keep_actions handlers →
  (∀ now actionId checkerId status reviewComment w w' r,
     reviewAction handlers now actionId checkerId status reviewComment w = (w', Ok r) →
     ∃ a, workflowActions (db w) !! actionId = Some a ∧
          let a' := review_set now checkerId status reviewComment a in
          let d1 :=
            set_workflowActions (<[actionId := a']> (workflowActions (db w))) (db w) in
          workflowActions (db w') = <[actionId := a']> (workflowActions (db w)) ∧
          action r = Some a' ∧
          same_submission a a' ∧
          calls w' =
            (calls w ++
             if decide (status = APPROVED)
             then [CallExecute (WorkflowAction.actionType a) (WorkflowAction.payload a)]
             else [])%list ∧
          if decide (status = APPROVED) then
            ∃ h x, handlers !! WorkflowAction.actionType a = Some h ∧
                   execute h now d1 (WorkflowAction.payload a) = (db w', inr x) ∧
                   executionResult r = Some x
          else db w' = d1 ∧ executionResult r = None) ∧
  (∀ now0 t p m w0 w1 a0 cs now checkerId reviewComment w' r,
     createAction handlers now0 t p m w0 = (w1, Ok a0) →
     reviewAction handlers now (WorkflowAction.id a0) checkerId APPROVED reviewComment
                  (run_calls handlers cs w1) = (w', Ok r) →
     calls w' = (calls (run_calls handlers cs w1) ++ [CallExecute t p])%list ∧
     (∃ a', workflowActions (db w') !! WorkflowAction.id a0 = Some a' ∧
            WorkflowAction.payload a' = p) ∧
     ∃ h x a1,
       handlers !! t = Some h ∧
       workflowActions (db (run_calls handlers cs w1)) !! WorkflowAction.id a0 = Some a1 ∧
       execute h now
         (set_workflowActions
            (<[WorkflowAction.id a0 := review_set now checkerId APPROVED reviewComment a1]>
               (workflowActions (db (run_calls handlers cs w1))))
            (db (run_calls handlers cs w1)))
         p = (db w', inr x) ∧
       executionResult r = Some x).
Proof.
  intros Hkeep.
  assert (Hone : ∀ now actionId checkerId status reviewComment w w' r,
     reviewAction handlers now actionId checkerId status reviewComment w = (w', Ok r) →
     ∃ a, workflowActions (db w) !! actionId = Some a ∧
          let a' := review_set now checkerId status reviewComment a in
          let d1 :=
            set_workflowActions (<[actionId := a']> (workflowActions (db w))) (db w) in
          workflowActions (db w') = <[actionId := a']> (workflowActions (db w)) ∧
          action r = Some a' ∧
          same_submission a a' ∧
          calls w' =
            (calls w ++
             if decide (status = APPROVED)
             then [CallExecute (WorkflowAction.actionType a) (WorkflowAction.payload a)]
             else [])%list ∧
          if decide (status = APPROVED) then
            ∃ h x, handlers !! WorkflowAction.actionType a = Some h ∧
                   execute h now d1 (WorkflowAction.payload a) = (db w', inr x) ∧
                   executionResult r = Some x
          else db w' = d1 ∧ executionResult r = None).
  { intros now actionId checkerId status reviewComment w w' r Hr.
    destruct (review_fetch actionId checkerId (db w)) as [a | e] eqn:E.
    - exists a. pose proof E as (Ha & _ & _)%review_fetch_Ok.
      split; [exact Ha |]. cbv zeta.
      pose proof (reviewAction_actions handlers Hkeep now actionId checkerId status
                    reviewComment w a E) as Hrows.
      rewrite Hr in Hrows. cbn in Hrows.
      destruct (reviewAction_calls handlers _ _ _ _ _ _ _ _ _ E Hr) as [Hact Hcalls].
      pose proof (reviewAction_executes _ _ _ _ _ _ _ _ _ _ E Hr) as Hexec.
      split_and!; done.
    - rewrite (reviewAction_guard _ _ _ _ _ _ _ _ E) in Hr. discriminate. }
  split; [exact Hone |].
  intros now0 t p m w0 w1 a0 cs now checkerId reviewComment w' r Hc Hr.
  apply createAction_Ok in Hc as (Ha0 & Ht & Hp & _).
  destruct (run_calls_row handlers Hkeep cs w1 _ _ Ha0) as (a1 & Ha1 & Hsame & _).
  destruct (Hone _ _ _ _ _ _ _ _ Hr) as (a & Ha & Hrows & _ & Hsame' & Hcalls & Hexec).
  assert (a = a1) as -> by congruence.
  destruct Hsame as (_ & Ht1 & Hp1 & _).
  rewrite decide_True in Hcalls by done.
  rewrite decide_True in Hexec by done.
  destruct Hexec as (h & x & Hh & Hx & Hres).
  split_and!.
  - by rewrite Hcalls, Ht1, Hp1, Ht, Hp.
  - eexists. split; [rewrite Hrows; apply lookup_insert_eq |].
    cbn. congruence.
  - exists h, x, a1. rewrite Ht1, Ht in Hh. rewrite Hp1, Hp in Hx. done.
Qed.

(** The first submission of the sample is rejected, and in a second world
    approved: the rows written, and on approval the [execute] of the user
    handler on the submitted payload, whose user is in the table after the
    call and is the result of the call. *)
Lemma reviewAction_writes_review_columns_witness :
  (∃ w' r,
     reviewAction Sample.handlers 12 "0" "c1" REJECTED (Some "no") Sample.world2 = (w', Ok r) ∧
     workflowActions (db w') =
       <["0" := review_set 12 "c1" REJECTED (Some "no") Sample.action0]>
         (workflowActions (db Sample.world2)) ∧
     users (db w') = [] ∧ executionResult r = None) ∧
  (∃ w' r u,
     reviewAction Sample.handlers 12 "0" "c1" APPROVED None Sample.world2 = (w', Ok r) ∧
     calls w' = (calls Sample.world2 ++ [CallExecute CREATE_USER Sample.alice])%list ∧
     executionResult r = Some (UserRow u) ∧
     users (db w') = [u] ∧
     User.email u = "a@x.com").
Proof.
  destruct (reviewAction_writes_review_columns Sample.handlers handlers0_keep_actions)
    as [Hone Hsince].
  assert (workflowActions (db Sample.world2) !! "0" = Some Sample.action0) as Ha0
    by (vm_compute; reflexivity).
  split.
  - destruct (reviewAction Sample.handlers 12 "0" "c1" REJECTED (Some "no") Sample.world2)
      as [w' [r | e]] eqn:E; [| vm_compute in E; discriminate].
    exists w', r. split; [reflexivity |].
    destruct (Hone _ _ _ _ _ _ _ _ E) as (a & Ha & Hrows & _ & _ & _ & Hexec).
    assert (a = Sample.action0) as -> by congruence.
    rewrite decide_False in Hexec by discriminate. destruct Hexec as [Hdb Hres].
    split_and!; [exact Hrows | by rewrite Hdb | exact Hres].
  - destruct (reviewAction Sample.handlers 12 "0" "c1" APPROVED None Sample.world2)
      as [w' [r | e]] eqn:E; [| vm_compute in E; discriminate].
    destruct (Hsince 10 CREATE_USER Sample.alice "m1" Sample.world0 Sample.world1
                Sample.action0 [CreateAction 11 CREATE_USER Sample.alice "m2"]
                12 "c1" None w' r ltac:(vm_compute; reflexivity) E)
      as (Hcalls & _ & h & x & a1 & Hh & Ha1 & Hx & Hres).
    assert (h = @CreateUserHandler.handler Sample.platform) as ->.
    { assert (Sample.handlers !! CREATE_USER = Some (@CreateUserHandler.handler Sample.platform))
        as Hu by reflexivity.
      congruence. }
    assert (a1 = Sample.action0) as ->.
    { change (run_calls Sample.handlers [CreateAction 11 CREATE_USER Sample.alice "m2"]
                Sample.world1) with Sample.world2 in Ha1.
      cbn [WorkflowAction.id Sample.action0] in Ha1. congruence. }
    remember (db w') as d' eqn:Hdb in Hx. vm_compute in Hx. injection Hx as <- <-.
    eexists w', r, _. split_and!; [reflexivity | exact Hcalls | exact Hres | |].
    + by rewrite <- Hdb.
    + reflexivity.
Defined.

End frame_claim.

(** ** One call after the other: a decided row is final *)

Section sequential.
Import WorkflowService.

(** A review of a decided action is refused and changes nothing. *)
Lemma reviewAction_decided handlers now actionId checkerId status reviewComment w a :
  workflowActions (db w) !! actionId = Some a →
  WorkflowAction.status a ≠ PENDING →
  reviewAction handlers now actionId checkerId status reviewComment w =
    (w, Throw (AlreadyDecidedError (WorkflowAction.status a))).
Proof. intros Ha Hs. apply reviewAction_guard. by apply review_fetch_decided. Qed.

(** When no call starts before the one before it has ended, a row that is
    decided stays as it is through any calls. *)
Lemma decided_row_is_final handlers cs w i a :
  handlers_keep_actions handlers →
  workflowActions (db w) !! i = Some a →
  WorkflowAction.status a ≠ PENDING →
  workflowActions (db (run_calls handlers cs w)) !! i = Some a.
Proof.
  intros Hkeep Ha Hs.
  destruct (run_calls_row handlers Hkeep cs w i a Ha) as (a' & Ha' & _ & Hfin).
  by rewrite Ha', (Hfin Hs).
Qed.

End sequential.

(** ** Overlapping reviews *)

Section overlap.
Import WorkflowService Interleaving.

(** A task that runs alone is the call. *)
Lemma run_alone handlers now actionId checkerId status reviewComment w :
  run handlers now [0; 0; 0]%nat w [AwaitFetch actionId checkerId status reviewComment] =
  let '(w', r) := reviewAction handlers now actionId checkerId status reviewComment w in
  (w', [Settled r]).
Proof.
  unfold reviewAction. cbn.
  destruct (review_fetch actionId checkerId (db w)) as [a | e]; cbn; [| done].
  destruct (review_update now actionId checkerId status reviewComment (db w))
    as [d1 updated]; cbn.
  by destruct (review_finish handlers now status a updated (with_db d1 w)).
Qed.

(** Two rejections that both fetch the pending row before either updates it
    both succeed, whatever the row and the checkers; the row keeps the second
    update. *)
Lemma stale_fetch_two_rejections handlers now actionId c1 c2 rc1 rc2 w a :
  workflowActions (db w) !! actionId = Some a →
  WorkflowAction.status a = PENDING →
  WorkflowAction.makerId a ≠ c1 →
  WorkflowAction.makerId a ≠ c2 →
  ∃ w' r1 r2,
    run handlers now [0; 1; 0; 1; 0; 1]%nat w
        [AwaitFetch actionId c1 REJECTED rc1; AwaitFetch actionId c2 REJECTED rc2] =
      (w', [Settled (Ok r1); Settled (Ok r2)]) ∧
    (WorkflowAction.checkerId <$> workflowActions (db w') !! actionId) = Some (Some c2).
Proof.
  intros Ha Hs Hm1 Hm2.
  assert (E1 : review_fetch actionId c1 (db w) = Ok a) by by apply review_fetch_Ok.
  assert (E2 : review_fetch actionId c2 (db w) = Ok a) by by apply review_fetch_Ok.
  cbn [run lookup list_lookup step]. rewrite E1. cbn [insert list_insert lookup list_lookup].
  cbn [run lookup list_lookup step]. rewrite E2. cbn [insert list_insert lookup list_lookup].
  cbn [run lookup list_lookup step].
  rewrite (review_update_unconditional _ _ _ _ _ _ _ Ha).
  cbn [insert list_insert lookup list_lookup run step with_db db].
  erewrite review_update_unconditional by (cbn; apply lookup_insert_eq).
  cbn [insert list_insert lookup list_lookup run step with_db db].
  unfold review_finish. rewrite !decide_False by done.
  cbn [insert list_insert lookup list_lookup run step with_db db].
  eexists _, _, _. split; [reflexivity |].
  cbn. by rewrite lookup_insert_eq.
Qed.

Lemma run_app handlers now s1 s2 w tasks :
  run handlers now (s1 ++ s2) w tasks =
  let '(w1, tasks1) := run handlers now s1 w tasks in run handlers now s2 w1 tasks1.
Proof.
  revert w tasks. induction s1 as [| i s1 IH]; intros w tasks; cbn; [done |].
  destruct (tasks !! i) as [t |]; [| apply IH].
  destruct (step handlers now t w) as [w' t']. apply IH.
Qed.

(** The schedule [k, k+1, ..] over the tasks from the [k]-th on is a round
    of them. *)
Lemma run_round handlers now w pre tasks :
  run handlers now (seq (length pre) (length tasks)) w (pre ++ tasks) =
  let '(w', tasks') := round handlers now w tasks in (w', (pre ++ tasks')%list).
Proof.
  revert w pre. induction tasks as [| t rest IH]; intros w pre; cbn.
  - done.
  - rewrite list_lookup_middle by done.
    destruct (step handlers now t w) as [w1 t'].
    rewrite insert_app_r_alt, Nat.sub_diag by done. cbn [insert list_insert].
    specialize (IH w1 (pre ++ [t'])%list).
    rewrite length_app, Nat.add_1_r, <- !app_assoc in IH. cbn in IH. rewrite IH.
    destruct (round handlers now w1 rest) as [w2 rest'].
    by rewrite <- app_assoc.
Qed.

Lemma round_fetch handlers now actionId reviewers w a :
  workflowActions (db w) !! actionId = Some a →
  WorkflowAction.status a = PENDING →
  Forall (λ r, WorkflowAction.makerId a ≠ r.1) reviewers →
  round handlers now w (rejections actionId reviewers) =
    (w, (λ r, AwaitUpdate actionId r.1 REJECTED r.2 a) <$> reviewers).
Proof.
  intros Ha Hs. induction 1 as [| r rs Hr _ IH]; cbn; [done |].
  assert (review_fetch actionId r.1 (db w) = Ok a) as -> by by apply review_fetch_Ok.
  unfold rejections in IH. by rewrite IH.
Qed.

Lemma round_update handlers now actionId reviewers w a row :
  workflowActions (db w) !! actionId = Some row →
  ∃ w' tasks',
    round handlers now w ((λ r, AwaitUpdate actionId r.1 REJECTED r.2 a) <$> reviewers) =
      (w', tasks') ∧
    length tasks' = length reviewers ∧
    Forall (λ t, ∃ u, t = AwaitExecute REJECTED a u) tasks'.
Proof.
  revert w row. induction reviewers as [| r rs IH]; intros w row Hrow; cbn.
  - by exists w, [].
  - rewrite (review_update_unconditional _ _ _ _ _ _ _ Hrow).
    edestruct IH as (w' & tasks' & -> & Hlen & Hall).
    { cbn. apply lookup_insert_eq. }
    eexists _, _. split; [reflexivity |]. split; [cbn; by rewrite Hlen |].
    constructor; [by eexists | done].
Qed.

Lemma round_finish handlers now w a tasks :
  Forall (λ t, ∃ u, t = AwaitExecute REJECTED a u) tasks →
  ∃ tasks', round handlers now w tasks = (w, tasks') ∧
            length tasks' = length tasks ∧
            Forall (λ t, succeeded t = true) tasks'.
Proof.
  induction 1 as [| t ts [u ->] _ (tasks' & IH & Hlen & Hall)].
  - by exists [].
  - cbn [round step]. unfold review_finish. rewrite decide_False by done.
    rewrite IH. eexists. split; [reflexivity |].
    split; [cbn; by rewrite Hlen |]. by constructor.
Qed.

(** However many rejections of one pending action overlap so that all fetch
    it before any updates it, all of them succeed. *)
Lemma overlapping_rejections_all_succeed handlers now actionId reviewers w a :
  workflowActions (db w) !! actionId = Some a →
  WorkflowAction.status a = PENDING →
  Forall (λ r, WorkflowAction.makerId a ≠ r.1) reviewers →
  let n := length reviewers in
  ∃ w' tasks',
    run handlers now (seq 0 n ++ seq 0 n ++ seq 0 n) w (rejections actionId reviewers) =
      (w', tasks') ∧
    length tasks' = n ∧
    Forall (λ t, succeeded t = true) tasks'.
Proof.
  intros Ha Hs Hrs n.
  assert (Hround : ∀ w0 tasks, length tasks = n →
            run handlers now (seq 0 n) w0 tasks = round handlers now w0 tasks).
  { intros w0 tasks <-. pose proof (run_round handlers now w0 [] tasks) as Hr.
    cbn [length app] in Hr. rewrite Hr.
    by destruct (round handlers now w0 tasks). }
  rewrite run_app, Hround by (unfold rejections; by rewrite length_fmap).
  rewrite (round_fetch _ _ _ _ _ _ Ha Hs Hrs). cbv beta iota.
  destruct (round_update handlers now actionId reviewers w a a Ha)
    as (w1 & tasks1 & E1 & Hlen1 & Hall1).
  rewrite run_app, Hround by by rewrite length_fmap.
  rewrite E1. cbv beta iota.
  destruct (round_finish handlers now w1 a tasks1 Hall1) as (tasks2 & E2 & Hlen2 & Hall2).
  rewrite Hround by done. rewrite E2.
  exists w1, tasks2. split_and!; [done | by rewrite Hlen2, Hlen1 | done].
Qed.

(** C2.  Scenario D on the sample: two checkers, one approving and one
    rejecting the same pending submission, both fetch it before either
    updates it.  Both calls succeed and neither is told that the action was
    decided; the row ends rejected by the second checker, and the user of the
    approval has been created. *)
Theorem overlapping_reviews_both_succeed :
  let '(w', tasks) :=
    run Sample.handlers 20 [0; 1; 0; 1; 0; 1]%nat Sample.world1 Sample.two_checkers in
  forallb succeeded tasks = true ∧
  existsb already_decided tasks = false ∧
  ((λ a, (WorkflowAction.status a, WorkflowAction.checkerId a)) <$>
     workflowActions (db w') !! "0") = Some (REJECTED, Some "c2") ∧
  User.email <$> users (db w') = ["a@x.com"] ∧
  filter (λ c, is_execute c = true) (calls w') = [CallExecute CREATE_USER Sample.alice].
Proof. vm_compute. split_and!; reflexivity. Qed.

(** C4.  In the same run the status of the row changes twice: pending when
    both calls have fetched it, approved after the first update, rejected
    after the second.  The second update is made on a decided row. *)
Theorem overlapping_reviews_change_decided_status :
  let status_after schedule :=
    WorkflowAction.status <$>
      workflowActions (db (run Sample.handlers 20 schedule Sample.world1
                               Sample.two_checkers).1) !! "0" in
  status_after [0; 1]%nat = Some PENDING ∧
  status_after [0; 1; 0]%nat = Some APPROVED ∧
  status_after [0; 1; 0; 1]%nat = Some REJECTED ∧
  status_after [0; 1; 0; 1; 0; 1]%nat = Some REJECTED.
Proof. vm_compute. split_and!; reflexivity. Qed.

End overlap.

(** ** The password of created users *)

Section default_password.
Context `{Platform}.
Import WorkflowService.

Lemma CreateUserHandler_execute_users now d payload u :
  u ∈ users (CreateUserHandler.execute now d payload).1 →
  u ∈ users d ∨ User.password u = CreateUserHandler.DEFAULT_PASSWORD.
Proof.
  unfold CreateUserHandler.execute. repeat case_match; cbn; intros Hu; auto.
  apply elem_of_app in Hu as [Hu | Hu]; [by left |].
  apply list_elem_of_singleton in Hu as ->. by right.
Qed.

Lemma CreateAccountHandler_keeps_users now d payload :
  users (CreateAccountHandler.execute now d payload).1 = users d.
Proof. unfold CreateAccountHandler.execute. by repeat case_match. Qed.

Lemma CreatePromotionHandler_keeps_users now d payload :
  users (CreatePromotionHandler.execute now d payload).1 = users d.
Proof. unfold CreatePromotionHandler.execute. by repeat case_match. Qed.

(** C9.  [CreateUserHandler.execute] either throws or appends one user, whose
    password is the constant of the source whatever the payload; and a user
    that a review on the registry of the source adds to the table has that
    password. *)
Theorem created_users_share_one_password :
  (∀ now d payload d' r,
     CreateUserHandler.execute now d payload = (d', inr r) →
     ∃ u, r = UserRow u ∧
          users d' = (users d ++ [u])%list ∧
          User.password u = CreateUserHandler.DEFAULT_PASSWORD) ∧
  (∀ now actionId checkerId status reviewComment w u,
     u ∈ users (db (reviewAction handlers0 now actionId checkerId status reviewComment w).1) →
     u ∈ users (db w) ∨ User.password u = CreateUserHandler.DEFAULT_PASSWORD).
Proof.
  split.
  - intros now d payload d' r. unfold CreateUserHandler.execute.
    repeat case_match; intros [= <- <-]. eexists. split_and!; done.
  - intros now actionId checkerId status reviewComment w u.
    destruct (review_fetch actionId checkerId (db w)) as [a | e] eqn:E.
    + destruct (decide (status = APPROVED)) as [-> | Hs].
      * rewrite (reviewAction_approved _ _ _ _ _ _ _ E). cbv zeta.
        destruct (handlers0 !! WorkflowAction.actionType a) as [h|] eqn:Hh;
          [| cbn; auto].
        cbn [db log with_db].
        match goal with
        | |- context [execute h now ?d0 ?p] =>
            assert (Hu : u ∈ users (execute h now d0 p).1 →
                         u ∈ users (db w) ∨
                         User.password u = CreateUserHandler.DEFAULT_PASSWORD);
            [| destruct (execute h now d0 p) as [d2 [m | x]]; exact Hu]
        end.
        destruct (handlers0_lookup _ _ Hh) as [[_ ->] | [[_ ->] | [_ ->]]]; cbn.
        -- intros Hu. by apply CreateUserHandler_execute_users in Hu.
        -- rewrite CreateAccountHandler_keeps_users. cbn; auto.
        -- rewrite CreatePromotionHandler_keeps_users. cbn; auto.
      * rewrite (reviewAction_not_approved _ _ _ _ _ _ _ _ E Hs). cbn; auto.
    + rewrite (reviewAction_guard _ _ _ _ _ _ _ _ E). cbn; auto.
Qed.

End default_password.

(** Two users with different payloads, created one after the other. *)
Lemma created_users_share_one_password_witness :
  ∃ d1 d2 u1 u2,
    CreateUserHandler.execute 1 empty_db Sample.alice = (d1, inr (UserRow u1)) ∧
    CreateUserHandler.execute 2 d1
      (JObj [("email", JStr "b@y.org"); ("username", JStr "bob");
             ("fullName", JStr "Bob B")]) = (d2, inr (UserRow u2)) ∧
    User.email u1 ≠ User.email u2 ∧
    User.password u1 = User.password u2.
Proof.
  destruct (@created_users_share_one_password Sample.platform) as [Hx _].
  destruct (CreateUserHandler.execute 1 empty_db Sample.alice) as [d1 [m1 | r1]] eqn:E1;
    [vm_compute in E1; discriminate |].
  destruct (Hx _ _ _ _ _ E1) as (u1 & -> & _ & Hp1).
  destruct (CreateUserHandler.execute 2 d1
              (JObj [("email", JStr "b@y.org"); ("username", JStr "bob");
                     ("fullName", JStr "Bob B")])) as [d2 [m2 | r2]] eqn:E2.
  { vm_compute in E1. injection E1 as <- <-. vm_compute in E2. discriminate. }
  destruct (Hx _ _ _ _ _ E2) as (u2 & -> & _ & Hp2).
  exists d1, d2, u1, u2. split_and!; [done | done | | congruence].
  vm_compute in E1. injection E1 as <- <-. vm_compute in E2. injection E2 as <- <-.
  discriminate.
Defined.

(** ** Validation of a promotion *)

Section numerals.
Import Validators CreatePromotionHandler.

Lemma is_digit_value c : is_digit c = true → 0 ≤ Z.of_nat (nat_of_ascii c) - 48.
Proof.
  unfold is_digit. intros [H1 _]%andb_prop. apply Nat.leb_le in H1. lia.
Qed.

Lemma span_digits_value_nonneg s acc :
  0 ≤ acc → 0 ≤ digits_value acc (span_digits s).1.
Proof.
  revert acc. induction s as [| c rest IH]; intros acc Hacc; cbn; [done |].
  destruct (is_digit c) eqn:Hc; [| done].
  specialize (IH (10 * acc + (Z.of_nat (nat_of_ascii c) - 48))).
  destruct (span_digits rest) as [ds tl]. cbn in *.
  apply IH. pose proof (is_digit_value c Hc). lia.
Qed.

(** A string of which nothing follows the digits is its digits. *)
Lemma span_digits_whole s ds : span_digits s = (ds, "") → s = ds.
Proof.
  revert ds. induction s as [| c rest IH]; intros ds; cbn.
  - by intros [= <-].
  - destruct (is_digit c); [| intros [= _ ?]; done].
    destruct (span_digits rest) as [ds' tl]. intros [= <- ->].
    by rewrite (IH ds').
Qed.

(** A numeral the regex accepts is not negative. *)
Lemma parseFloat_x100_nonneg s v : parseFloat_x100 s = Some v → 0 ≤ v.
Proof.
  unfold parseFloat_x100, decimal_regex.
  pose proof (span_digits_value_nonneg s 0 (Z.le_refl 0)) as Hwhole.
  destruct (span_digits s) as [whole rest]. cbn in Hwhole.
  destruct rest as [| c fraction].
  - destruct (negb (String.eqb whole "") && true); [| done].
    intros [= <-]. cbn. lia.
  - pose proof (span_digits_value_nonneg fraction 0 (Z.le_refl 0)) as Hfrac.
    pose proof (span_digits_whole fraction) as Hall.
    destruct (span_digits fraction) as [ds tl]. cbn in Hfrac.
    destruct (negb (String.eqb whole "") &&
              (Ascii.eqb c "." && (String.eqb tl "" &&
                 ((1 <=? String.length ds) && (String.length ds <=? 2))%nat))) eqn:Hre;
      [| done].
    apply andb_prop in Hre as [_ [_ [Htl _]%andb_prop]%andb_prop].
    apply String.eqb_eq in Htl as ->. rewrite (Hall ds eq_refl).
    intros [= <-]. destruct (String.length ds) as [| [| n]]; lia.
Qed.

(** A numeral with a sign is not accepted. *)
Lemma decimal_regex_minus s : decimal_regex (String "-" s) = false.
Proof. reflexivity. Qed.

End numerals.

Section promotion.
Context `{Platform}.
Import Validators CreatePromotionHandler.

Lemma required_string_true check key payload :
  required_string check key payload = true →
  ∃ s, string_prop key payload = Some s ∧ check s = true.
Proof.
  unfold required_string, string_prop.
  destruct (prop key payload) as [[] |]; try discriminate. eauto.
Qed.

Lemma decimal_regex_parses s :
  decimal_regex s = true → ∃ v, parseFloat_x100 s = Some v ∧ 0 ≤ v.
Proof.
  intros Hre. destruct (parseFloat_x100 s) as [v |] eqn:E.
  - exists v. split; [done |]. by apply parseFloat_x100_nonneg in E.
  - unfold parseFloat_x100 in E. rewrite Hre in E.
    destruct (span_digits s). discriminate.
Qed.

(** What the schema gives to the lines after it, and what they then return. *)
Lemma validate_after_schema payload :
  createPromotionSchema payload = true →
  ∃ dt s e v,
    string_prop "discountType" payload = Some dt ∧
    (dt = "percentage" ∨ dt = "fixed") ∧
    new_Date "startDate" payload = Some s ∧
    new_Date "endDate" payload = Some e ∧
    discountValue_x100 payload = Some v ∧
    0 ≤ v ∧
    validate payload =
      if e <=? s then Some "End date must be after start date"
      else if bool_decide (dt = "percentage") && (100 * 100 <? v)
           then Some "Percentage discount must be between 0 and 100"
           else None.
Proof.
  intros Hschema. pose proof Hschema as Hs. unfold createPromotionSchema in Hs.
  repeat match type of Hs with _ && _ = true => apply andb_prop in Hs as [Hs ?] end.
  repeat match goal with
         | Hr : required_string _ _ _ = true |- _ =>
             apply required_string_true in Hr as (? & ? & ?)
         end.
  match goal with
  | Hd : string_prop "discountType" payload = Some ?x |- _ => rename x into dt, Hd into Hdt
  end.
  match goal with
  | Hd : string_prop "discountValue" payload = Some ?x, Hr : decimal_regex ?x = true |- _ =>
      rename Hd into Hdv; apply decimal_regex_parses in Hr as (v & Hv & Hv0)
  end.
  match goal with
  | Hd : string_prop "startDate" payload = Some ?x, Hr : dateString ?x = true |- _ =>
      rename Hd into Hsd; unfold dateString in Hr;
      destruct (Date_parse x) as [s |] eqn:Hst; [clear Hr | discriminate]
  end.
  match goal with
  | Hd : string_prop "endDate" payload = Some ?x, Hr : dateString ?x = true |- _ =>
      rename Hd into Hed; unfold dateString in Hr;
      destruct (Date_parse x) as [e |] eqn:Het; [clear Hr | discriminate]
  end.
  exists dt, s, e, v.
  assert (Hsn : new_Date "startDate" payload = Some s) by (unfold new_Date; by rewrite Hsd).
  assert (Hen : new_Date "endDate" payload = Some e) by (unfold new_Date; by rewrite Hed).
  assert (Hvn : discountValue_x100 payload = Some v)
    by (unfold discountValue_x100; by rewrite Hdv).
  split_and!; try done.
  - match goal with
    | Hc : _ || _ = true |- _ =>
        apply orb_prop in Hc as [Hc | Hc]; apply String.eqb_eq in Hc; auto
    end.
  - unfold validate. rewrite Hschema, Hsn, Hen, Hvn, Hdt. cbn [negb Date_le number_lt number_gt].
    destruct (e <=? s); [done |].
    assert ((v <? 0) = false) as -> by lia. cbn [orb].
    rewrite andb_false_r.
    destruct (decide (dt = "percentage")) as [-> | Hne].
    + rewrite !bool_decide_eq_true_2 by done. done.
    + rewrite !(bool_decide_eq_false_2 (_ = _)) by congruence. done.
Qed.


(** C8.  [validate] is a function of the payload alone.  It accepts exactly
    the payloads that the schema accepts, whose end date is after the start
    date and whose discount, when its type is percentage, is at most 100 (a
    discount that has passed the schema is not negative); it throws when the
    end date is not after the start date, when a percentage is above 100,
    and when the numeral carries a sign, and a submission it refuses leaves
    the database as it was. *)
Theorem CreatePromotionHandler_validate_spec payload :
  (validate payload = None ↔
     createPromotionSchema payload = true ∧
     (∃ s e, new_Date "startDate" payload = Some s ∧
             new_Date "endDate" payload = Some e ∧ s < e) ∧
     (string_prop "discountType" payload = Some "percentage" →
        ∃ v, discountValue_x100 payload = Some v ∧ 0 ≤ v ≤ 100 * 100) ∧
     (string_prop "discountType" payload = Some "fixed" →
        ∃ v, discountValue_x100 payload = Some v ∧ 0 ≤ v)) ∧
  (createPromotionSchema payload = false → validate payload = Some "Validation failed") ∧
  (∀ s e, new_Date "startDate" payload = Some s →
          new_Date "endDate" payload = Some e →
          e ≤ s → validate payload ≠ None) ∧
  (∀ v, string_prop "discountType" payload = Some "percentage" →
        discountValue_x100 payload = Some v →
        100 * 100 < v → validate payload ≠ None) ∧
  (∀ s, string_prop "discountValue" payload = Some (String "-" s) →
        validate payload = Some "Validation failed") ∧
  (∀ handlers now makerId w message,
     handlers !! CREATE_PROMOTION = Some handler →
     validate payload = Some message →
     db (WorkflowService.createAction handlers now CREATE_PROMOTION payload makerId w).1 = db w).
Proof.
  assert (Hbad : createPromotionSchema payload = false →
                 validate payload = Some "Validation failed").
  { intros Hs. unfold validate. by rewrite Hs. }
  split_and!.
  - split.
    + intros Hv. destruct (createPromotionSchema payload) eqn:Hs;
        [| rewrite Hbad in Hv; done].
      destruct (validate_after_schema payload Hs)
        as (dt & s & e & v & Hdt & _ & Hsn & Hen & Hvn & Hv0 & Hval).
      rewrite Hval in Hv.
      destruct (e <=? s) eqn:Hle; [done |].
      destruct (bool_decide (dt = "percentage") && (100 * 100 <? v)) eqn:Hp; [done |].
      split_and!; [done | exists s, e; split_and!; [done | done | lia] | |].
      * intros Hpct. exists v. split; [done |].
        assert (dt = "percentage") as Hd by congruence.
        rewrite (bool_decide_eq_true_2 _ Hd) in Hp. cbn in Hp. lia.
      * intros _. by exists v.
    + intros (Hs & (s & e & Hsn & Hen & Hlt) & Hpct & _).
      destruct (validate_after_schema payload Hs)
        as (dt & s' & e' & v & Hdt & _ & Hsn' & Hen' & Hvn & Hv0 & ->).
      assert (s' = s) as -> by congruence. assert (e' = e) as -> by congruence.
      assert ((e <=? s) = false) as -> by lia.
      destruct (decide (dt = "percentage")) as [-> | Hne].
      * destruct (Hpct Hdt) as (v' & Hv' & Hrange).
        assert (v' = v) as -> by congruence.
        assert ((100 * 100 <? v) = false) as -> by lia. by rewrite andb_false_r.
      * by rewrite (bool_decide_eq_false_2 _ Hne).
  - exact Hbad.
  - intros s e Hsn Hen Hle. destruct (createPromotionSchema payload) eqn:Hs;
      [| by rewrite Hbad].
    destruct (validate_after_schema payload Hs)
      as (dt & s' & e' & v & _ & _ & Hsn' & Hen' & _ & _ & ->).
    assert (s' = s) as -> by congruence. assert (e' = e) as -> by congruence.
    by assert ((e <=? s) = true) as -> by lia.
  - intros v Hpct Hvn Hgt. destruct (createPromotionSchema payload) eqn:Hs;
      [| by rewrite Hbad].
    destruct (validate_after_schema payload Hs)
      as (dt & s & e & v' & Hdt & _ & _ & _ & Hvn' & _ & ->).
    assert (v' = v) as -> by congruence.
    assert (dt = "percentage") as -> by congruence.
    destruct (e <=? s); [done |].
    assert ((100 * 100 <? v) = true) as -> by lia.
    by rewrite bool_decide_eq_true_2.
  - intros s Hdv. apply Hbad. unfold createPromotionSchema.
    assert (required_string decimal_regex "discountValue" payload = false) as Hreq.
    { unfold required_string. unfold string_prop in Hdv.
      destruct (prop "discountValue" payload) as [[] |]; try done.
      injection Hdv as ->. apply decimal_regex_minus. }
    rewrite Hreq. by rewrite !andb_false_r.
  - intros handlers now makerId w message Hh Hv.
    unfold WorkflowService.createAction, ActionHandlerFactory.getHandler.
    rewrite Hh. cbn. by rewrite Hv.
Qed.

End promotion.

(** A promotion that is accepted; one that ends when it starts; one of 100.5
    per cent; one with a signed discount. *)
Lemma CreatePromotionHandler_validate_spec_witness :
  let promotion discountType discountValue endDate :=
    JObj [("code", JStr "SPRING"); ("name", JStr "Spring sale");
          ("discountType", JStr discountType); ("discountValue", JStr discountValue);
          ("startDate", JStr "2026-03-01"); ("endDate", JStr endDate)] in
  let validate := CreatePromotionHandler.validate (H := Sample.platform) in
  validate (promotion "percentage" "100" "2026-04-01") = None ∧
  validate (promotion "fixed" "250.50" "2026-03-01") ≠ None ∧
  validate (promotion "percentage" "100.5" "2026-04-01") ≠ None ∧
  validate (promotion "fixed" "-5" "2026-04-01") = Some "Validation failed".
Proof.
  intros promotion validate. split_and!.
  - apply (proj1 (@CreatePromotionHandler_validate_spec Sample.platform _)).
    split_and!.
    + reflexivity.
    + exists 20260301, 20260401. split_and!; [reflexivity | reflexivity | lia].
    + intros _. exists 10000. split; [reflexivity | lia].
    + intros Hfixed. discriminate Hfixed.
  - refine (proj1 (proj2 (proj2 (@CreatePromotionHandler_validate_spec Sample.platform _)))
              20260301 20260301 _ _ _); [reflexivity | reflexivity | lia].
  - refine (proj1 (proj2 (proj2 (proj2
              (@CreatePromotionHandler_validate_spec Sample.platform _))))
              10050 _ _ _); [reflexivity | reflexivity | lia].
  - refine (proj1 (proj2 (proj2 (proj2 (proj2
              (@CreatePromotionHandler_validate_spec Sample.platform _)))))
              "5" _). reflexivity.
Defined.

(** * Further properties of the code *)

(** ** Listing *)

Section listing.
Import Listing.

#[local] Instance newer_total : Total newer.
Proof. intros a b. unfold newer. lia. Qed.

#[local] Instance newer_trans : Transitive newer.
Proof. intros a b c. unfold newer. lia. Qed.

Lemma selected_elem conds d a :
  a ∈ selected conds d ↔ a ∈ rows d ∧ and_ conds a = true.
Proof.
  unfold selected. rewrite merge_sort_Permutation.
  rewrite !list_elem_of_In. apply filter_In.
Qed.

Lemma selected_sorted conds d : StronglySorted newer (selected conds d).
Proof. apply Sorted_StronglySorted; [apply _ |]. apply Sorted_merge_sort, _. Qed.

Lemma selected_length conds d :
  length (selected conds d) = length (List.filter (and_ conds) (rows d)).
Proof. unfold selected. by rewrite merge_sort_Permutation. Qed.

Lemma rows_elem d a : a ∈ rows d ↔ ∃ k, workflowActions d !! k = Some a.
Proof.
  unfold rows. rewrite list_elem_of_fmap. split.
  - intros ([k a'] & -> & Hin). exists k. by apply elem_of_map_to_list.
  - intros (k & Hk). exists (k, a). split; [done |]. by apply elem_of_map_to_list.
Qed.

Lemma conditions_status s t a :
  and_ (conditions (Some s) t) a = true → WorkflowAction.status a = s.
Proof.
  unfold and_, conditions. cbn. intros [H _]%andb_prop. by apply bool_decide_eq_true in H.
Qed.

Lemma conditions_actionType s t a :
  t ≠ "" →
  and_ (conditions s (Some t)) a = true → WorkflowAction.actionType a = t.
Proof.
  intros Ht. unfold and_, conditions.
  destruct (String.eqb_spec t ""); [done |].
  rewrite forallb_app. intros [_ H]%andb_prop. cbn in H.
  apply andb_prop in H as [H _]. by apply bool_decide_eq_true in H.
Qed.

Lemma StronglySorted_take_drop {A} (R : relation A) (l : list A) n m :
  StronglySorted R l → StronglySorted R (take n (drop m l)).
Proof.
  intros Hl.
  assert (StronglySorted R (drop m l)) as Hd.
  { rewrite <- (take_drop m l) in Hl. by apply StronglySorted_app_1_r in Hl. }
  rewrite <- (take_drop n (drop m l)) in Hd. by apply StronglySorted_app_1_l in Hd.
Qed.

Lemma elem_of_take_drop {A} (l : list A) n m x : x ∈ take n (drop m l) → x ∈ l.
Proof.
  intros Hx. by apply subseteq_take, subseteq_drop in Hx.
Qed.

(** X1.  What a listing returns: at most [limit] rows, newest first, each of
    them a row of the table that has the status asked for and, when a type
    other than the empty string is asked for, that type. *)
Theorem listActions_data filters d r :
  listActions filters d = Some r →
  (length (data r) ≤ default 10 (filters ≫= limit))%nat ∧
  StronglySorted newer (data r) ∧
  ∀ a, a ∈ data r →
    (∃ k, workflowActions d !! k = Some a) ∧
    (∀ s, filters ≫= status = Some s → WorkflowAction.status a = s) ∧
    (∀ t, filters ≫= actionType = Some t → t ≠ "" → WorkflowAction.actionType a = t).
Proof.
  unfold listActions. case_match; [done |]. intros [= <-]. cbn [data].
  split_and!.
  - rewrite length_take. lia.
  - apply StronglySorted_take_drop, selected_sorted.
  - intros a Ha%elem_of_take_drop. apply selected_elem in Ha as [Hrow Hand].
    split_and!.
    + by apply rows_elem.
    + intros s Hs. rewrite Hs in Hand. by eapply conditions_status.
    + intros t Ht Hne. rewrite Ht in Hand. by eapply conditions_actionType.
Qed.

(** The approved rows of the sample, and its user submissions. *)
Lemma listActions_data_witness :
  ∃ r, listActions (Some {| status := Some APPROVED; actionType := Some CREATE_USER;
                            page := None; limit := Some 5%nat |})
                   (db Sample.world3) = Some r ∧
       WorkflowAction.id <$> data r = ["0"] ∧
       (length (data r) ≤ 5)%nat.
Proof.
  eexists. split; [vm_compute; reflexivity |].
  split; [reflexivity |].
  match goal with
  | |- (length (data ?r) ≤ _)%nat =>
      exact (proj1 (listActions_data
                      (Some {| status := Some APPROVED; actionType := Some CREATE_USER;
                               page := None; limit := Some 5%nat |})
                      (db Sample.world3) r ltac:(vm_compute; reflexivity)))
  end.
Defined.

Lemma filter_no_condition (l : list WorkflowAction.t) : List.filter (and_ []) l = l.
Proof. induction l as [| a l IH]; cbn; [done |]. by rewrite IH. Qed.

Lemma ceil_div_least (n l : nat) :
  (0 < l)%nat →
  (n ≤ (n + l - 1) / l * l)%nat ∧ ∀ j, (n ≤ j * l)%nat → ((n + l - 1) / l ≤ j)%nat.
Proof.
  intros Hl. pose proof (Nat.div_mod_eq (n + l - 1) l) as Hdm.
  pose proof (Nat.mod_upper_bound (n + l - 1) l) as Hm.
  split; [nia |].
  intros j Hj. apply Nat.lt_succ_r, Nat.Div0.div_lt_upper_bound. nia.
Qed.

(** X2.  The count of a listing: [total] is the number of all rows that the
    conditions select, whatever the page and the limit, so at least the
    number of rows returned, and the size of the table when no status is
    asked for and the type is absent or the empty string.  For a positive
    limit [totalPages] is the least number of pages that hold [total] rows;
    for the limit 0 it is no number of pages. *)
Theorem listActions_total filters d r :
  listActions filters d = Some r →
  let l := default 10%nat (filters ≫= limit) in
  let n := total (pagination r) in
  n = length (selected (conditions (filters ≫= status) (filters ≫= actionType)) d) ∧
  (length (data r) ≤ n)%nat ∧
  (filters ≫= status = None →
   filters ≫= actionType = None ∨ filters ≫= actionType = Some "" →
   n = size (workflowActions d)) ∧
  ((0 < l)%nat →
   ∃ k, totalPages (pagination r) = Pages k ∧
        (n ≤ k * l)%nat ∧ ∀ j, (n ≤ j * l)%nat → (k ≤ j)%nat) ∧
  (l = 0%nat →
   totalPages (pagination r) = if (n =? 0)%nat then NaN else Infinity).
Proof.
  unfold listActions. case_match; [done |]. intros [= <-]. cbn [data pagination total totalPages].
  split_and!.
  - by rewrite selected_length.
  - rewrite length_take, length_drop, selected_length. lia.
  - intros -> Ht.
    assert (conditions None (filters ≫= actionType) = []) as ->.
    { by destruct Ht as [-> | ->]. }
    rewrite filter_no_condition. unfold rows.
    by rewrite length_fmap, length_map_to_list.
  - intros Hl. unfold Math_ceil_div.
    destruct (default 10%nat (filters ≫= limit)) as [| l'] eqn:El; [lia |].
    eexists. split; [reflexivity |]. apply ceil_div_least. lia.
  - intros ->. reflexivity.
Qed.

(** Three pages of one row for the two submissions of the sample, asked for
    by their type; and no page count for the limit 0. *)
Lemma listActions_total_witness :
  (∃ r, listActions (Some {| status := None; actionType := Some CREATE_USER;
                             page := Some 3%nat; limit := Some 1%nat |})
                    (db Sample.world2) = Some r ∧
        data r = [] ∧ total (pagination r) = 2%nat ∧
        ∃ k, totalPages (pagination r) = Pages k ∧ (2 ≤ k * 1)%nat) ∧
  (∃ r, listActions (Some {| status := None; actionType := Some "";
                             page := None; limit := Some 0%nat |})
                    (db Sample.world2) = Some r ∧
        total (pagination r) = size (workflowActions (db Sample.world2)) ∧
        totalPages (pagination r) = Infinity).
Proof.
  split.
  - eexists. split; [vm_compute; reflexivity |].
    split; [reflexivity |]. split; [reflexivity |].
    match goal with
    | |- ∃ k, totalPages (pagination ?r) = _ ∧ _ =>
        destruct (proj1 (proj2 (proj2 (proj2
                   (listActions_total
                      (Some {| status := None; actionType := Some CREATE_USER;
                               page := Some 3%nat; limit := Some 1%nat |})
                      (db Sample.world2) r ltac:(vm_compute; reflexivity)))))
                   ltac:(cbn; lia)) as (k & Hk & Hle & _)
    end.
    exists k. split; [exact Hk | exact Hle].
  - eexists. split; [vm_compute; reflexivity |].
    match goal with
    | |- total (pagination ?r) = _ ∧ _ =>
        pose proof (listActions_total
                      (Some {| status := None; actionType := Some "";
                               page := None; limit := Some 0%nat |})
                      (db Sample.world2) r ltac:(vm_compute; reflexivity))
          as (_ & _ & Hsize & _ & Hzero)
    end.
    split; [apply Hsize; [reflexivity | by right] |].
    rewrite (Hzero eq_refl). reflexivity.
Defined.

Lemma listed_page_eq status actionType limit d p :
  (1 ≤ p)%nat →
  listed_page status actionType limit d p =
    take limit (drop ((p - 1) * limit) (selected (conditions status actionType) d)).
Proof.
  intros Hp.
  assert (((Z.of_nat p - 1) * Z.of_nat limit <? 0) = false) as Hoff
    by (apply Z.ltb_ge; nia).
  cbv beta iota zeta delta [listed_page listActions mbind option_bind default from_option
    id Listing.status Listing.actionType Listing.page Listing.limit].
  rewrite Hoff. cbn [data].
  by replace (Z.to_nat ((Z.of_nat p - 1) * Z.of_nat limit)) with ((p - 1) * limit)%nat by nia.
Qed.

Lemma concat_chunks {A} (l : list A) k n :
  concat ((λ p, take k (drop ((p - 1) * k) l)) <$> seq 1 n) = take (n * k) l.
Proof.
  induction n as [| n IH]; [done |].
  rewrite seq_S, fmap_app, concat_app, IH. cbn [fmap list_fmap concat].
  rewrite app_nil_r.
  replace ((1 + n - 1) * k)%nat with (n * k)%nat by lia.
  rewrite take_take_drop. f_equal. lia.
Qed.

Lemma NoDup_fmap_eq {A B} (f : A → B) (l : list A) x y :
  NoDup (f <$> l) → x ∈ l → y ∈ l → f x = f y → x = y.
Proof.
  induction l as [| a l IH]; cbn; [by intros _ ?%elem_of_nil |].
  intros [Hnotin Hnd]%NoDup_cons [-> | Hx]%elem_of_cons [-> | Hy]%elem_of_cons Hf.
  - done.
  - exfalso. apply Hnotin. rewrite Hf. by apply list_elem_of_fmap_2.
  - exfalso. apply Hnotin. rewrite <- Hf. by apply list_elem_of_fmap_2.
  - by apply IH.
Qed.

(** X3.  The pages of a listing.  For a positive limit, on a table in which
    no two rows were created at the same instant, the pages 1 to
    [totalPages] one after the other are the selected rows, newest first: a
    rearrangement of the rows that the conditions select, and the only one
    that is newest first.  The pages after the last are empty. *)
Theorem listActions_pages status actionType limit d :
  (0 < limit)%nat →
  NoDup (WorkflowAction.createdAt <$> rows d) →
  let conds := conditions status actionType in
  let all := selected conds d in
  let n := ((length all + limit - 1) / limit)%nat in
  concat (listed_page status actionType limit d <$> seq 1 n) = all ∧
  (∀ p, (n < p)%nat → listed_page status actionType limit d p = []) ∧
  all ≡ₚ List.filter (and_ conds) (rows d) ∧
  (∀ l, l ≡ₚ List.filter (and_ conds) (rows d) → StronglySorted newer l → l = all).
Proof.
  intros Hlimit Htimes conds all n.
  destruct (ceil_div_least (length all) limit Hlimit) as [Hn _]. fold n in Hn.
  assert (Hperm : all ≡ₚ List.filter (and_ conds) (rows d))
    by apply merge_sort_Permutation.
  split_and!.
  - trans (take (n * limit) all); [| by apply take_ge].
    rewrite <- concat_chunks. f_equal.
    apply list_fmap_ext. intros i p Hp%lookup_seq. apply listed_page_eq. lia.
  - intros p Hp. rewrite listed_page_eq by lia. fold conds all.
    rewrite drop_ge; [apply take_nil |]. nia.
  - done.
  - intros l Hl Hsorted.
    apply (StronglySorted_unique_strong newer); [| done | apply selected_sorted |].
    + intros x1 x2 Hx1 Hx2 H12 H21.
      apply (NoDup_fmap_eq WorkflowAction.createdAt (rows d)); [done | | |].
      * rewrite Hl in Hx1. apply list_elem_of_In, filter_In in Hx1 as [Hx1 _].
        by apply list_elem_of_In.
      * by apply selected_elem in Hx2 as [Hx2 _].
      * unfold newer in *. lia.
    + by rewrite Hl, Hperm.
Qed.

(** The two submissions of the sample on pages of one row. *)
Lemma listActions_pages_witness :
  WorkflowAction.id <$>
    concat (listed_page None (Some CREATE_USER) 1 (db Sample.world2) <$> seq 1 2) =
    ["1"; "0"] ∧
  listed_page None (Some CREATE_USER) 1 (db Sample.world2) 3 = [].
Proof.
  destruct (listActions_pages None (Some CREATE_USER) 1 (db Sample.world2))
    as (Hpages & Hlast & _); [lia | apply (bool_decide_unpack _); vm_compute; exact I |].
  split.
  - change 2%nat with
      ((length (selected (conditions None (Some CREATE_USER)) (db Sample.world2)) + 1 - 1) / 1)%nat
      at 1.
    rewrite Hpages. vm_compute. reflexivity.
  - apply Hlast. vm_compute. lia.
Defined.

End listing.

(** ** Submitting, fetching and reviewing again *)

Section service_round_trips.
Import ActionHandlerFactory WorkflowService.
Implicit Types handlers : gmap string ActionHandler.

(** X4.  A submission that succeeds can be fetched: [getActionById] on the
    returned key gives the returned row; the key was not in the table
    before; every other key gives what it gave before, and the table has one
    row more. *)
Theorem createAction_getActionById handlers now t p m w w' a :
  createAction handlers now t p m w = (w', Ok a) →
  getActionById (WorkflowAction.id a) (db w') = Ok a ∧
  getActionById (WorkflowAction.id a) (db w) = Throw (NotFoundError (WorkflowAction.id a)) ∧
  (∀ i, i ≠ WorkflowAction.id a → getActionById i (db w') = getActionById i (db w)) ∧
  size (workflowActions (db w')) = S (size (workflowActions (db w))).
Proof.
  unfold createAction, getHandler.
  destruct (handlers !! t) as [h |]; [| by destruct (inherited _ _)].
  destruct (validate h p); [discriminate |].
  intros [= <- <-]. unfold getActionById. cbn.
  pose proof (fresh_id_unused (workflowActions (db w))) as Hfresh.
  rewrite lookup_insert_eq, Hfresh. split_and!; try done.
  - intros i Hi. by rewrite lookup_insert_ne.
  - by apply map_size_insert_None.
Qed.

Lemma createAction_getActionById_witness :
  WorkflowAction.makerId <$>
    match getActionById "1" (db Sample.world2) with
    | Ok a => Some a
    | Throw _ => None
    end = Some "m2" ∧
  getActionById "1" (db Sample.world1) = Throw (NotFoundError "1") ∧
  getActionById "0" (db Sample.world2) = getActionById "0" (db Sample.world1).
Proof.
  pose proof (createAction_getActionById Sample.handlers 11 CREATE_USER Sample.alice "m2"
                Sample.world1 Sample.world2 Sample.action1
                ltac:(vm_compute; reflexivity)) as (Hget & Hnew & Hother & _).
  split_and!.
  - change "1" with (WorkflowAction.id Sample.action1). rewrite Hget. reflexivity.
  - exact Hnew.
  - apply Hother. discriminate.
Defined.

(** X5.  A review of an id that is the text of a uuid and is the key of no
    row throws [NotFoundError] for every checker and decision, changes
    nothing and calls no handler. *)
Theorem reviewAction_missing handlers now actionId checkerId status reviewComment w :
  uuid_text actionId = true →
  workflowActions (db w) !! actionId = None →
  reviewAction handlers now actionId checkerId status reviewComment w =
    (w, Throw (NotFoundError actionId)) ∧
  getActionById actionId (db w) = Throw (NotFoundError actionId).
Proof.
  intros _ Hnone. split.
  - by apply reviewAction_guard, review_fetch_missing.
  - unfold getActionById. by rewrite Hnone.
Qed.

Lemma reviewAction_missing_witness :
  reviewAction Sample.handlers 20 "6366612b-00c9-4cbd-abd7-da61d1264245" "c1" APPROVED None
    Sample.world2 =
    (Sample.world2, Throw (NotFoundError "6366612b-00c9-4cbd-abd7-da61d1264245")).
Proof.
  apply (reviewAction_missing Sample.handlers 20 "6366612b-00c9-4cbd-abd7-da61d1264245"
           "c1" APPROVED None Sample.world2).
  - vm_compute. reflexivity.
  - vm_compute. reflexivity.
Defined.

(** X6.  One review, when calls do not overlap: after a review that has
    succeeded with a decision other than pending, and after any calls that
    follow it, every review of that action is refused with
    [AlreadyDecidedError] carrying that decision, and changes nothing. *)
Theorem reviewed_once handlers now actionId checkerId status reviewComment w w1 r :
  handlers_keep_actions handlers →
  reviewAction handlers now actionId checkerId status reviewComment w = (w1, Ok r) →
  status ≠ PENDING →
  ∀ cs now' checkerId' status' reviewComment',
    reviewAction handlers now' actionId checkerId' status' reviewComment'
                 (run_calls handlers cs w1) =
      (run_calls handlers cs w1, Throw (AlreadyDecidedError status)).
Proof.
  intros Hkeep Hr Hs cs now' checkerId' status' reviewComment'.
  destruct (review_fetch actionId checkerId (db w)) as [a | e] eqn:E;
    [| rewrite (reviewAction_guard _ _ _ _ _ _ _ _ E) in Hr; discriminate].
  pose proof (reviewAction_actions handlers Hkeep now actionId checkerId status
                reviewComment w a E) as Hrows.
  rewrite Hr in Hrows. cbn in Hrows.
  assert (workflowActions (db w1) !! actionId =
          Some (review_set now checkerId status reviewComment a)) as Hrow
    by (rewrite Hrows; apply lookup_insert_eq).
  pose proof (decided_row_is_final handlers cs w1 actionId _ Hkeep Hrow Hs) as Hfinal.
  by rewrite (reviewAction_decided _ _ _ _ _ _ _ _ Hfinal Hs).
Qed.

(** A rejection of the first submission; the second submission is approved
    next, and then the first is reviewed again. *)
Lemma reviewed_once_witness :
  let w1 := (reviewAction Sample.handlers 12 "0" "c1" REJECTED (Some "no") Sample.world2).1 in
  let w2 := run_calls Sample.handlers [ReviewAction 13 "1" "c1" APPROVED None] w1 in
  reviewAction Sample.handlers 14 "0" "c2" APPROVED None w2 =
    (w2, Throw (AlreadyDecidedError REJECTED)).
Proof.
  intros w1 w2.
  destruct (reviewAction Sample.handlers 12 "0" "c1" REJECTED (Some "no") Sample.world2)
    as [w1' [r | e]] eqn:E; [| vm_compute in E; discriminate].
  apply (reviewed_once Sample.handlers 12 "0" "c1" REJECTED (Some "no") Sample.world2 w1' r
           handlers0_keep_actions E ltac:(discriminate)
           [ReviewAction 13 "1" "c1" APPROVED None] 14 "c2" APPROVED None).
Defined.



End service_round_trips.

(** ** The registry, further *)

Section registry_frame.
Import ActionHandlerFactory.
#[local] Set Warnings "-clear-no-such-hyp".

Lemma getAllActionTypes_length (handlers : gmap string ActionHandler) :
  length (getAllActionTypes handlers) = size (dom handlers ∖ {["__proto__"]}).
Proof. reflexivity. Qed.

Lemma getAllActionTypes_proto (handlers : gmap string ActionHandler) h :
  getAllActionTypes (registerHandler "__proto__" h handlers) = getAllActionTypes handlers.
Proof.
  unfold getAllActionTypes, registerHandler. f_equal.
  rewrite dom_insert_L. set_solver.
Qed.

Lemma getAllActionTypes_insert (handlers : gmap string ActionHandler) t h :
  t ≠ "__proto__" →
  dom (registerHandler t h handlers) ∖ {["__proto__"]} =
    {[t]} ∪ (dom handlers ∖ {["__proto__"]}).
Proof. intros Hne. unfold registerHandler. rewrite dom_insert_L. set_solver. Qed.

(** X8.  A registration under a name other than [__proto__] touches one
    key: every other action type resolves as before, the listed types are
    the old ones and the registered one, without repetition, and their
    number grows by one exactly when the type was not registered.  A
    registration under [__proto__] adds no type to the list: it makes the
    handler the prototype of the registry, so the names of the handler's
    methods resolve, to what is no handler, and the registered types resolve
    as before. *)
Theorem registerHandler_frame (handlers : gmap string ActionHandler) t h :
  if decide (t = "__proto__") then
    getAllActionTypes (registerHandler t h handlers) = getAllActionTypes handlers ∧
    getHandler (registerHandler t h handlers) t = Ok (Handler h) ∧
    (∀ name, name ∈ handler_methods → handlers !! name = None →
             getHandler (registerHandler t h handlers) name = Ok (Inherited name)) ∧
    (∀ t' h', t' ≠ t → handlers !! t' = Some h' →
              getHandler (registerHandler t h handlers) t' = Ok (Handler h'))
  else
    (∀ t', t' ≠ t →
           getHandler (registerHandler t h handlers) t' = getHandler handlers t') ∧
    (∀ t', t' ∈ getAllActionTypes (registerHandler t h handlers) ↔
           t' = t ∨ t' ∈ getAllActionTypes handlers) ∧
    NoDup (getAllActionTypes (registerHandler t h handlers)) ∧
    length (getAllActionTypes (registerHandler t h handlers)) =
      if decide (t ∈ getAllActionTypes handlers)
      then length (getAllActionTypes handlers)
      else S (length (getAllActionTypes handlers)).
Proof.
  case_decide as Hproto.
  - subst t. split_and!.
    + apply getAllActionTypes_proto.
    + apply getHandler_Ok, lookup_insert_eq.
    + intros name Hname Hnone. apply getHandler_Inherited.
      assert (name ≠ "__proto__") as Hne.
      { intros ->. revert Hname. apply (bool_decide_unpack _). vm_compute. exact I. }
      unfold registerHandler. rewrite lookup_insert_ne by done.
      split_and!; [done | | done].
      unfold inherited. rewrite lookup_insert_eq.
      rewrite (bool_decide_true (is_Some (Some h))) by done.
      rewrite (bool_decide_true (name ∈ handler_methods)) by done.
      apply orb_true_r.
    + intros t' h' Hne Hh'. apply getHandler_Ok. unfold registerHandler.
      by rewrite lookup_insert_ne.
  - split_and!.
    + intros t' Hne. by apply registerHandler_other.
    + intros t'. unfold getAllActionTypes.
      rewrite getAllActionTypes_insert by done.
      rewrite !elem_of_elements, elem_of_union, elem_of_singleton. done.
    + unfold getAllActionTypes. apply NoDup_elements.
    + rewrite !getAllActionTypes_length, getAllActionTypes_insert by done.
      case_decide as Hin.
      * unfold getAllActionTypes in Hin. apply elem_of_elements in Hin.
        f_equal. apply subseteq_union_1_L. by apply singleton_subseteq_l.
      * unfold getAllActionTypes in Hin. rewrite elem_of_elements in Hin.
        rewrite size_union by (by apply disjoint_singleton_l).
        by rewrite size_singleton.
Qed.

(** X9.  The registry of the source lists and resolves the three action
    types of [ActionTypes], each to its own handler.  For another string
    [getHandler] throws [UnknownActionTypeError], unless the string is the
    name of a property of [Object.prototype]: then it returns the value of
    that property, which is no handler. *)
Theorem handlers0_types `{Platform} t :
  getAllActionTypes handlers0 ≡ₚ [CREATE_USER; CREATE_ACCOUNT; CREATE_PROMOTION] ∧
  getHandler handlers0 CREATE_USER = Ok (Handler CreateUserHandler.handler) ∧
  getHandler handlers0 CREATE_ACCOUNT = Ok (Handler CreateAccountHandler.handler) ∧
  getHandler handlers0 CREATE_PROMOTION = Ok (Handler CreatePromotionHandler.handler) ∧
  (t ∉ [CREATE_USER; CREATE_ACCOUNT; CREATE_PROMOTION] →
   getHandler handlers0 t =
     if bool_decide (t ∈ Object_prototype) then Ok (Inherited t)
     else Throw (UnknownActionTypeError t)).
Proof.
  split; [| split; [reflexivity | split; [reflexivity | split; [reflexivity |]]]].
  - apply NoDup_Permutation; [unfold getAllActionTypes; apply NoDup_elements | |].
    + apply (bool_decide_unpack _). vm_compute. exact I.
    + intros t'. rewrite getAllActionTypes_spec. split.
      * intros [[h Hh] _].
        apply handlers0_lookup in Hh as [[-> _] | [[-> _] | [-> _]]]; set_solver.
      * intros Ht'.
        repeat (apply elem_of_cons in Ht' as [-> | Ht']; [by split; [eexists |] |]).
        by apply elem_of_nil in Ht'.
  - intros Hnot.
    assert (handlers0 !! t = None) as Hnone.
    { apply eq_None_not_Some. intros [h Hh].
      apply handlers0_lookup in Hh as [[-> _] | [[-> _] | [-> _]]]; set_solver. }
    unfold getHandler, inherited. rewrite Hnone.
    assert (handlers0 !! "__proto__" = None) as -> by reflexivity.
    rewrite (bool_decide_false (is_Some None)) by (by intros [? ?]).
    rewrite andb_false_l, orb_false_r. done.
Qed.

Lemma handlers0_types_witness :
  getHandler Sample.handlers "delete_user" = Throw (UnknownActionTypeError "delete_user") ∧
  getHandler Sample.handlers "constructor" = Ok (Inherited "constructor").
Proof.
  split.
  - apply (@handlers0_types Sample.platform "delete_user").
    apply (bool_decide_unpack _). vm_compute. exact I.
  - apply (@handlers0_types Sample.platform "constructor").
    apply (bool_decide_unpack _). vm_compute. exact I.
Defined.

End registry_frame.

(** ** The handlers and their tables *)

Section tables.
Import ActionHandlerFactory WorkflowService.

Lemma find_key_None {A} (key : A → string) (x : string) (l : list A) :
  find (λ a, String.eqb (key a) x) l = None ↔ x ∉ key <$> l.
Proof.
  induction l as [| a l IH]; cbn.
  - split; [intros _; apply not_elem_of_nil | done].
  - destruct (String.eqb_spec (key a) x) as [<- | Hne].
    + split; [done | intros Hn; exfalso; apply Hn; left].
    + rewrite IH, not_elem_of_cons.
      split; [intros ?; split; [congruence | done] | intros [_ ?]; done].
Qed.

Lemma find_key_Some {A} (key : A → string) (x : string) (l : list A) a :
  find (λ a, String.eqb (key a) x) l = Some a → x ∈ key <$> l.
Proof.
  intros Hf. destruct (decide (x ∈ key <$> l)) as [| Hn]; [done |].
  apply find_key_None in Hn. congruence.
Qed.

Lemma fresh_key_unused {A} (key : A → string) (l : list A) :
  fresh_key key l ∉ key <$> l.
Proof.
  unfold fresh_key. intros Hin.
  apply (is_fresh (list_to_set (key <$> l) : gset string)).
  by apply elem_of_list_to_set.
Qed.



Lemma NoDup_snoc_fresh {A} (l : list A) x : NoDup l → x ∉ l → NoDup (l ++ [x]).
Proof.
  intros Hl Hx. apply NoDup_app. split_and!; [done | | apply NoDup_singleton].
  intros y Hy ->%list_elem_of_singleton. done.
Qed.

Section preservation.
Context (handlers : gmap string ActionHandler) (P : Database → Prop).
Hypothesis P_actions : ∀ d m, P d → P (set_workflowActions m d).
Hypothesis P_execute :
  ∀ t h, handlers !! t = Some h → ∀ now d p, P d → P (execute h now d p).1.

Lemma createAction_preserves now t p m w :
  P (db w) → P (db (createAction handlers now t p m w).1).
Proof.
  intros HP. unfold createAction, getHandler.
  destruct (handlers !! t) as [h |]; [| by destruct (inherited _ _)].
  destruct (validate h p); cbn; [done |]. by apply P_actions.
Qed.

Lemma reviewAction_preserves now actionId checkerId status reviewComment w :
  P (db w) → P (db (reviewAction handlers now actionId checkerId status reviewComment w).1).
Proof.
  intros HP. destruct (review_fetch actionId checkerId (db w)) as [a | e] eqn:E.
  - destruct (decide (status = APPROVED)) as [-> | Hs].
    + rewrite (reviewAction_approved _ _ _ _ _ _ _ E). cbv zeta.
      destruct (handlers !! WorkflowAction.actionType a) as [h |] eqn:Hh;
        [| by apply P_actions].
      cbn [db log with_db].
      match goal with
      | |- context [execute h now ?d0 ?p] =>
          pose proof (P_execute _ _ Hh now d0 p (P_actions _ _ HP)) as HP';
          destruct (execute h now d0 p) as [d2 [m | x]]; exact HP'
      end.
    + rewrite (reviewAction_not_approved _ _ _ _ _ _ _ _ E Hs). by apply P_actions.
  - by rewrite (reviewAction_guard _ _ _ _ _ _ _ _ E).
Qed.

Lemma run_calls_preserves cs w : P (db w) → P (db (run_calls handlers cs w)).
Proof.
  revert w. induction cs as [| c cs IH]; intros w HP; [done |].
  cbn. apply IH. destruct c; cbn.
  - by apply createAction_preserves.
  - by apply reviewAction_preserves.
Qed.

End preservation.

Section source_tables.
Context `{Platform}.

Lemma CreateUserHandler_users_unique now d payload :
  users_unique d → users_unique (CreateUserHandler.execute now d payload).1.
Proof.
  intros (Hid & Hemail & Hname). unfold CreateUserHandler.execute.
  repeat case_match; cbn; try done.
  unfold users_unique. cbn. rewrite !fmap_app. cbn.
  split_and!; apply NoDup_snoc_fresh; try done.
  - apply fresh_key_unused.
  - by apply find_key_None.
  - by apply find_key_None.
Qed.

Lemma CreateAccountHandler_accounts_consistent now d payload :
  accounts_consistent d → accounts_consistent (CreateAccountHandler.execute now d payload).1.
Proof.
  intros (Hid & Hnumber & Howner). unfold CreateAccountHandler.execute.
  repeat case_match; cbn; try done.
  unfold accounts_consistent. cbn. rewrite !fmap_app. cbn.
  split_and!.
  - apply NoDup_snoc_fresh; [done | apply fresh_key_unused].
  - apply NoDup_snoc_fresh; [done | by apply find_key_None].
  - intros a [Ha | ->%list_elem_of_singleton]%elem_of_app; [by apply Howner |].
    cbn. by eapply find_key_Some.
Qed.

Lemma CreateUserHandler_accounts_consistent now d payload :
  accounts_consistent d → accounts_consistent (CreateUserHandler.execute now d payload).1.
Proof.
  intros (Hid & Hnumber & Howner). unfold CreateUserHandler.execute.
  repeat case_match; cbn; try done.
  unfold accounts_consistent. cbn. split_and!; try done.
  intros a Ha. rewrite fmap_app. apply elem_of_app. left. by apply Howner.
Qed.

Lemma CreatePromotionHandler_promotions_unique now d payload :
  promotions_unique d → promotions_unique (CreatePromotionHandler.execute now d payload).1.
Proof.
  intros (Hid & Hcode). unfold CreatePromotionHandler.execute.
  repeat case_match; cbn; try done.
  unfold promotions_unique. cbn. rewrite !fmap_app. cbn.
  split_and!; apply NoDup_snoc_fresh; try done.
  - apply fresh_key_unused.
  - by apply find_key_None.
Qed.

(** X11.  The users table keeps its unique keys through the workflow: when
    no two users share a key, an email or a username, no two do after any
    sequence of submissions and reviews on the registry of the source. *)
Theorem users_stay_unique cs w :
  users_unique (db w) → users_unique (db (run_calls handlers0 cs w)).
Proof.
  apply run_calls_preserves; [done |].
  intros t h Hh now d p HP.
  destruct (handlers0_lookup _ _ Hh) as [[_ ->] | [[_ ->] | [_ ->]]]; cbn.
  - by apply CreateUserHandler_users_unique.
  - unfold users_unique. by rewrite CreateAccountHandler_keeps_users.
  - unfold users_unique. by rewrite CreatePromotionHandler_keeps_users.
Qed.

(** X12.  The accounts table keeps its unique keys and its owners: when no
    two accounts share a key or a number and every account belongs to a user
    of the users table, the same holds after any sequence of submissions
    and reviews on the registry of the source. *)
Theorem accounts_stay_consistent cs w :
  accounts_consistent (db w) → accounts_consistent (db (run_calls handlers0 cs w)).
Proof.
  apply run_calls_preserves; [done |].
  intros t h Hh now d p HP.
  destruct (handlers0_lookup _ _ Hh) as [[_ ->] | [[_ ->] | [_ ->]]]; cbn.
  - by apply CreateUserHandler_accounts_consistent.
  - by apply CreateAccountHandler_accounts_consistent.
  - unfold CreatePromotionHandler.execute. by repeat case_match.
Qed.

(** X13.  The promotions table keeps its unique keys: when no two
    promotions share a key or a code, none do after any sequence of
    submissions and reviews on the registry of the source. *)
Theorem promotions_stay_unique cs w :
  promotions_unique (db w) → promotions_unique (db (run_calls handlers0 cs w)).
Proof.
  apply run_calls_preserves; [done |].
  intros t h Hh now d p HP.
  destruct (handlers0_lookup _ _ Hh) as [[_ ->] | [[_ ->] | [_ ->]]]; cbn.
  - unfold CreateUserHandler.execute. by repeat case_match.
  - unfold CreateAccountHandler.execute. by repeat case_match.
  - by apply CreatePromotionHandler_promotions_unique.
Qed.

End source_tables.

End tables.

Lemma users_stay_unique_witness :
  users_unique (db Scenario.world) ∧ length (users (db Scenario.world)) = 1%nat.
Proof.
  split; [| vm_compute; reflexivity].
  apply (@users_stay_unique Scenario.platform Scenario.calls Sample.world0).
  repeat split; apply NoDup_nil_2.
Defined.

Lemma accounts_stay_consistent_witness :
  accounts_consistent (db Scenario.world) ∧ length (accounts (db Scenario.world)) = 1%nat.
Proof.
  split; [| vm_compute; reflexivity].
  apply (@accounts_stay_consistent Scenario.platform Scenario.calls Sample.world0).
  split_and!; [apply NoDup_nil_2 | apply NoDup_nil_2 |].
  intros a Ha. by apply elem_of_nil in Ha.
Defined.

Lemma promotions_stay_unique_witness :
  promotions_unique (db Scenario.world) ∧ length (promotions (db Scenario.world)) = 1%nat.
Proof.
  split; [| vm_compute; reflexivity].
  apply (@promotions_stay_unique Scenario.platform Scenario.calls Sample.world0).
  split; apply NoDup_nil_2.
Defined.

(** ** The handlers: what [validate] gives to [execute] *)

Section handlers_compose.
Context `{Platform}.
Import Validators.

Lemma find_key_app_last {A} (key : A → string) (l : list A) (a : A) :
  is_Some (find (λ b, String.eqb (key b) (key a)) (l ++ [a])).
Proof.
  destruct (find (λ b, String.eqb (key b) (key a)) (l ++ [a])) eqn:Hf; [by eexists |].
  apply find_key_None in Hf. exfalso. apply Hf.
  rewrite fmap_app. apply elem_of_app. right. apply list_elem_of_singleton. done.
Qed.

(** X14.  An effect is not made twice: when [execute] of a handler of the
    source has returned a row, [execute] of the same handler on the same
    payload and the database it left throws and leaves the database as it
    is, at any later time. *)
Theorem execute_again_is_refused t h now d payload d' r now' :
  handlers0 !! t = Some h →
  execute h now d payload = (d', inr r) →
  ∃ message, execute h now' d' payload = (d', inl message).
Proof.
  intros Hh Hx. destruct (handlers0_lookup _ _ Hh) as [[_ ->] | [[_ ->] | [_ ->]]];
    cbn in Hx |- *.
  - unfold CreateUserHandler.execute in Hx |- *.
    destruct (string_prop "email" payload) as [email |]; [| discriminate].
    destruct (string_prop "username" payload) as [username |]; [| discriminate].
    destruct (find (λ u, String.eqb (User.email u) email) (users d)); [discriminate |].
    destruct (find (λ u, String.eqb (User.username u) username) (users d));
      [discriminate |].
    injection Hx as <- <-. cbn [users set_users].
    match goal with
    | |- context [find _ (users d ++ [?u])] =>
        destruct (find_key_app_last User.email (users d) u) as [x Hfound]; cbn in Hfound
    end.
    rewrite Hfound. by eexists.
  - unfold CreateAccountHandler.execute in Hx |- *.
    destruct (string_prop "userId" payload) as [userId |]; [| discriminate].
    destruct (string_prop "accountNumber" payload) as [accountNumber |]; [| discriminate].
    destruct (string_prop "accountType" payload) as [accountType |]; [| discriminate].
    destruct (find (λ u, String.eqb (User.id u) userId) (users d)) eqn:Hu;
      [| discriminate].
    destruct (find (λ a, String.eqb (Account.accountNumber a) accountNumber) (accounts d));
      [discriminate |].
    injection Hx as <- <-. cbn [users accounts set_accounts]. rewrite Hu.
    match goal with
    | |- context [find _ (accounts d ++ [?a])] =>
        destruct (find_key_app_last Account.accountNumber (accounts d) a) as [x Hfound];
        cbn in Hfound
    end.
    rewrite Hfound. by eexists.
  - unfold CreatePromotionHandler.execute in Hx |- *.
    destruct (string_prop "code" payload) as [code |]; [| discriminate].
    destruct (string_prop "name" payload) as [name |]; [| discriminate].
    destruct (string_prop "discountType" payload) as [discountType |]; [| discriminate].
    destruct (string_prop "discountValue" payload) as [discountValue |]; [| discriminate].
    destruct (find (λ p, String.eqb (Promotion.code p) code) (promotions d));
      [discriminate |].
    injection Hx as <- <-. cbn [promotions set_promotions].
    match goal with
    | |- context [find _ (promotions d ++ [?a])] =>
        destruct (find_key_app_last Promotion.code (promotions d) a) as [x Hfound];
        cbn in Hfound
    end.
    rewrite Hfound. by eexists.
Qed.

(** X15.  What [execute] reads, [validate] has checked: a payload that the
    [validate] of a handler of the source accepts has, as strings, every
    property that its [execute] reads without a default, so [execute] does
    not meet a payload outside its declared type. *)
Theorem validated_payload_is_typed t h payload :
  handlers0 !! t = Some h →
  validate h payload = None →
  (t = CREATE_USER →
   is_Some (string_prop "email" payload) ∧ is_Some (string_prop "username" payload)) ∧
  (t = CREATE_ACCOUNT →
   is_Some (string_prop "userId" payload) ∧
   is_Some (string_prop "accountNumber" payload) ∧
   is_Some (string_prop "accountType" payload)) ∧
  (t = CREATE_PROMOTION →
   is_Some (string_prop "code" payload) ∧ is_Some (string_prop "name" payload) ∧
   is_Some (string_prop "discountType" payload) ∧
   is_Some (string_prop "discountValue" payload) ∧
   is_Some (string_prop "startDate" payload) ∧
   is_Some (string_prop "endDate" payload)) ∧
  ∀ now d, (execute h now d payload).2 ≠ inl ill_typed_payload.
Proof.
  intros Hh Hv.
  destruct (handlers0_lookup _ _ Hh) as [[-> ->] | [[-> ->] | [-> ->]]]; cbn in Hv.
  - unfold CreateUserHandler.validate in Hv.
    destruct (createUserSchema payload) eqn:Hs; [| discriminate].
    unfold createUserSchema in Hs.
    apply andb_prop in Hs as [[(e & He & _)%required_string_true
                                 (u & Hu & _)%required_string_true]%andb_prop _].
    split_and!; try discriminate.
    + intros _. rewrite He, Hu. by split; eexists.
    + intros now d. cbn. unfold CreateUserHandler.execute. rewrite He, Hu.
      repeat case_match; cbn; discriminate.
  - unfold CreateAccountHandler.validate in Hv.
    destruct (createAccountSchema payload) eqn:Hs; [| discriminate].
    unfold createAccountSchema in Hs.
    repeat match type of Hs with _ && _ = true => apply andb_prop in Hs as [Hs ?] end.
    repeat match goal with
           | Hr : required_string _ _ _ = true |- _ =>
               apply required_string_true in Hr as (? & ? & ?)
           end.
    split_and!; try discriminate.
    + intros _. split_and!; by eexists.
    + intros now d. cbn. unfold CreateAccountHandler.execute.
      repeat match goal with Hp : string_prop _ payload = Some _ |- _ => rewrite Hp; clear Hp end.
      repeat case_match; cbn; discriminate.
  - unfold CreatePromotionHandler.validate in Hv.
    destruct (createPromotionSchema payload) eqn:Hs; [| discriminate].
    unfold createPromotionSchema in Hs.
    repeat match type of Hs with _ && _ = true => apply andb_prop in Hs as [Hs ?] end.
    repeat match goal with
           | Hr : required_string _ _ _ = true |- _ =>
               apply required_string_true in Hr as (? & ? & ?)
           end.
    split_and!; try discriminate.
    + intros _. split_and!; by eexists.
    + intros now d. cbn. unfold CreatePromotionHandler.execute.
      repeat match goal with Hp : string_prop _ payload = Some _ |- _ => rewrite Hp; clear Hp end.
      repeat case_match; cbn; discriminate.
Qed.

(** X16.  A promotion made from a payload that [validate] accepted: the row
    that [execute] appends has both dates, the end after the start, a
    discount that is not negative and, for a percentage, at most 100, one
    of the two discount types, and is active. *)
Theorem validated_promotion_row payload now d d' r :
  CreatePromotionHandler.validate payload = None →
  CreatePromotionHandler.execute now d payload = (d', inr r) →
  ∃ p s e v,
    r = PromotionRow p ∧
    promotions d' = (promotions d ++ [p])%list ∧
    Promotion.startDate p = Some s ∧
    Promotion.endDate p = Some e ∧
    s < e ∧
    CreatePromotionHandler.parseFloat_x100 (Promotion.discountValue p) = Some v ∧
    0 ≤ v ∧
    (Promotion.discountType p = "percentage" ∨ Promotion.discountType p = "fixed") ∧
    (Promotion.discountType p = "percentage" → v ≤ 100 * 100) ∧
    Promotion.isActive p = true.
Proof.
  intros Hv Hx.
  destruct (createPromotionSchema payload) eqn:Hs;
    [| unfold CreatePromotionHandler.validate in Hv; rewrite Hs in Hv; discriminate].
  destruct (validate_after_schema payload Hs)
    as (dt & s & e & v & Hdt & Hkind & Hsn & Hen & Hvn & Hv0 & Hval).
  rewrite Hval in Hv.
  destruct (e <=? s) eqn:Hle; [discriminate |].
  destruct (bool_decide (dt = "percentage") && (100 * 100 <? v)) eqn:Hp; [discriminate |].
  unfold CreatePromotionHandler.discountValue_x100 in Hvn.
  destruct (string_prop "discountValue" payload) as [dv |] eqn:Hdv; [| discriminate].
  unfold CreatePromotionHandler.execute in Hx. rewrite Hdt, Hdv, Hsn, Hen in Hx.
  destruct (string_prop "code" payload); [| discriminate].
  destruct (string_prop "name" payload); [| discriminate].
  destruct (find _ (promotions d)); [discriminate |].
  injection Hx as <- <-.
  eexists _, s, e, v. split; [reflexivity |]. cbn.
  split_and!; try done; [lia |].
  intros Hd. rewrite (bool_decide_eq_true_2 _ Hd) in Hp. cbn in Hp. lia.
Qed.

(** X17.  [CreateAccountHandler.execute] on a payload that has a user, a
    number and a type.  It throws, and leaves the database as it is, when
    the user id is the text of a uuid and the key of no user, whatever the
    number, and when the user is there and an account has the number.
    Otherwise, on a payload that [validate] accepts and that fits the
    columns (a number and a type of at most 50 characters, a balance below
    ten to the thirteenth), it appends one account of that user, under a
    key no account had; the
    balance of the row is the number that the payload gives, or 0 when it
    gives none, and the currency is that of the payload, or USD. *)
Theorem CreateAccountHandler_execute_spec now d payload userId accountNumber accountType :
  string_prop "userId" payload = Some userId →
  string_prop "accountNumber" payload = Some accountNumber →
  string_prop "accountType" payload = Some accountType →
  (uuid_text userId = true →
   userId ∉ User.id <$> users d →
   CreateAccountHandler.execute now d payload =
     (d, inl ("User with ID " ++ userId ++ " does not exist"))) ∧
  (userId ∈ User.id <$> users d →
   accountNumber ∈ Account.accountNumber <$> accounts d →
   CreateAccountHandler.execute now d payload =
     (d, inl ("Account with number " ++ accountNumber ++ " already exists"))) ∧
  (userId ∈ User.id <$> users d →
   accountNumber ∉ Account.accountNumber <$> accounts d →
   CreateAccountHandler.validate payload = None →
   (String.length accountNumber ≤ 50)%nat →
   (String.length accountType ≤ 50)%nat →
   (∀ b v, string_prop "balance" payload = Some b →
           CreatePromotionHandler.parseFloat_x100 b = Some v → v < 10 ^ 15) →
   ∃ a v, CreateAccountHandler.execute now d payload =
            (set_accounts (accounts d ++ [a]) d, inr (AccountRow a)) ∧
          Account.userId a = userId ∧
          Account.accountNumber a = accountNumber ∧
          Account.accountType a = accountType ∧
          (Account.id a ∉ Account.id <$> accounts d) ∧
          CreatePromotionHandler.parseFloat_x100 (Account.balance a) = Some v ∧
          0 ≤ v < 10 ^ 15 ∧
          (string_prop "balance" payload = None → v = 0) ∧
          (∀ b, string_prop "balance" payload = Some b →
                CreatePromotionHandler.parseFloat_x100 b = Some v) ∧
          (string_prop "currency" payload = None → Account.currency a = "USD") ∧
          (∀ c, string_prop "currency" payload = Some c →
                Account.currency a = c ∧ String.length c = 3%nat)).
Proof.
  intros Hu Hn Ht. unfold CreateAccountHandler.execute. rewrite Hu, Hn, Ht.
  split_and!.
  - intros _ Hnot. apply find_key_None in Hnot. by rewrite Hnot.
  - intros Hin Hnum.
    destruct (find (λ u, String.eqb (User.id u) userId) (users d)) eqn:Hf;
      [| by apply find_key_None in Hf].
    destruct (find (λ a, String.eqb (Account.accountNumber a) accountNumber) (accounts d))
      eqn:Hg; [done | by apply find_key_None in Hg].
  - intros Hin Hnum Hvalid _ _ Hfits.
    destruct (find (λ u, String.eqb (User.id u) userId) (users d)) eqn:Hf;
      [| by apply find_key_None in Hf].
    apply find_key_None in Hnum. rewrite Hnum.
    unfold CreateAccountHandler.validate in Hvalid.
    destruct (Validators.createAccountSchema payload) eqn:Hschema; [| done].
    unfold Validators.createAccountSchema in Hschema.
    apply andb_prop in Hschema as [Hschema Hcurrency].
    apply andb_prop in Hschema as [_ Hbalance].
    unfold Validators.optional_string in Hbalance, Hcurrency.
    assert (∃ v, CreatePromotionHandler.parseFloat_x100
                   (or_default (string_prop "balance" payload) "0") = Some v ∧
                 0 ≤ v ∧
                 (string_prop "balance" payload = None → v = 0) ∧
                 (∀ b, string_prop "balance" payload = Some b →
                       CreatePromotionHandler.parseFloat_x100 b = Some v))
      as (v & Hv & Hv0 & Hnone & Hsome).
    { unfold string_prop. destruct (prop "balance" payload) as [[| | | b | |] |];
        try done; cbn.
      - destruct (decimal_regex_parses b Hbalance) as (v & Hv & Hv0).
        assert (b ≠ "") as Hb by (by intros ->).
        apply String.eqb_neq in Hb. rewrite Hb.
        exists v. split_and!; [done | done | done |]. by intros ? [= <-].
      - exists 0. split_and!; [by vm_compute | done | done | done]. }
    eexists _, v. split; [reflexivity |]. cbn. split_and!; try done.
    + apply fresh_key_unused.
    + destruct (string_prop "balance" payload) as [b |] eqn:Hb.
      * apply (Hfits b v eq_refl). by apply Hsome.
      * rewrite (Hnone eq_refl). done.
    + by intros ->.
    + intros c Hc. unfold string_prop in Hc |- *.
      destruct (prop "currency" payload) as [[| | | c' | |] |]; try done.
      injection Hc as ->. apply Nat.eqb_eq in Hcurrency.
      cbn. split; [| done].
      destruct (String.eqb_spec c "") as [-> |]; [discriminate Hcurrency | done].
Qed.

End handlers_compose.

(** The user is executed twice; the accepted payloads of the scenario. *)
Lemma execute_again_is_refused_witness :
  ∃ d1 u message,
    CreateUserHandler.execute 1 empty_db Sample.alice = (d1, inr (UserRow u)) ∧
    CreateUserHandler.execute 2 d1 Sample.alice = (d1, inl message).
Proof.
  destruct (CreateUserHandler.execute 1 empty_db Sample.alice) as [d1 [m | r]] eqn:E;
    [vm_compute in E; discriminate |].
  destruct (@execute_again_is_refused Scenario.platform CREATE_USER
              CreateUserHandler.handler 1 empty_db Sample.alice d1 r 2 eq_refl E)
    as [message Hm].
  assert (∃ u, r = UserRow u) as [u ->]
    by (vm_compute in E; injection E as _ <-; by eexists).
  by exists d1, u, message.
Defined.

Lemma validated_payload_is_typed_witness :
  is_Some (string_prop "userId" Scenario.account) ∧
  (CreateAccountHandler.execute 1 empty_db Scenario.account).2 ≠ inl ill_typed_payload.
Proof.
  destruct (@validated_payload_is_typed Scenario.platform CREATE_ACCOUNT
              CreateAccountHandler.handler Scenario.account eq_refl eq_refl)
    as (_ & Hacc & _ & Hexec).
  split; [apply (Hacc eq_refl) | apply (Hexec 1 empty_db)].
Defined.

Lemma validated_promotion_row_witness :
  ∃ p, (CreatePromotionHandler.execute (H := Scenario.platform) 1 empty_db
          Scenario.promotion).2 = inr (PromotionRow p) ∧
       Promotion.startDate p = Some 20260301 ∧
       ∃ s e, Promotion.startDate p = Some s ∧ Promotion.endDate p = Some e ∧ s < e.
Proof.
  destruct (CreatePromotionHandler.execute (H := Scenario.platform) 1 empty_db
              Scenario.promotion) as [d' r] eqn:E.
  assert (∃ r', r = inr r') as [r' ->] by (vm_compute in E; injection E as _ <-; by eexists).
  destruct (@validated_promotion_row Scenario.platform Scenario.promotion 1 empty_db d' r'
              eq_refl E) as (p & s & e & v & -> & _ & Hs & He & Hlt & _).
  exists p. split; [reflexivity |]. split; [| by exists s, e].
  vm_compute in E. injection E as _ <-. reflexivity.
Defined.

(** An account for a user that does not exist, with and without a number
    that is taken; an account of the user of the scenario. *)
Lemma CreateAccountHandler_execute_spec_witness :
  let nobody :=
    JObj [("userId", JStr "6366612b-00c9-4cbd-abd7-da61d1264245");
          ("accountNumber", JStr "ACC-001"); ("accountType", JStr "savings")] in
  let second :=
    JObj [("userId", JStr "0"); ("accountNumber", JStr "ACC-002");
          ("accountType", JStr "savings"); ("balance", JStr "12.5")] in
  CreateAccountHandler.execute 1 empty_db nobody =
    (empty_db, inl "User with ID 6366612b-00c9-4cbd-abd7-da61d1264245 does not exist") ∧
  CreateAccountHandler.execute 20 (db Scenario.world) Scenario.account =
    (db Scenario.world, inl "Account with number ACC-001 already exists") ∧
  ∃ a, CreateAccountHandler.execute 20 (db Scenario.world) second =
         (set_accounts (accounts (db Scenario.world) ++ [a]) (db Scenario.world),
          inr (AccountRow a)) ∧
       CreatePromotionHandler.parseFloat_x100 (Account.balance a) = Some 1250 ∧
       Account.currency a = "USD".
Proof.
  intros nobody second. split_and!.
  - refine (proj1 (CreateAccountHandler_execute_spec (H := Scenario.platform) 1 empty_db
                     nobody "6366612b-00c9-4cbd-abd7-da61d1264245" "ACC-001" "savings"
                     eq_refl eq_refl eq_refl) _ _).
    + vm_compute. reflexivity.
    + apply not_elem_of_nil.
  - refine (proj1 (proj2 (CreateAccountHandler_execute_spec (H := Scenario.platform) 20
                     (db Scenario.world)
                     Scenario.account "0" "ACC-001" "savings" eq_refl eq_refl eq_refl))
                  _ _); apply (bool_decide_unpack _); vm_compute; exact I.
  - destruct (proj2 (proj2 (CreateAccountHandler_execute_spec (H := Scenario.platform) 20
                     (db Scenario.world) second "0" "ACC-002" "savings"
                     eq_refl eq_refl eq_refl)))
      as (a & v & Hx & _ & _ & _ & _ & Hv & _ & _ & Hb & Hc & _).
    + apply (bool_decide_unpack _). vm_compute. exact I.
    + apply (bool_decide_unpack _). vm_compute. exact I.
    + vm_compute. reflexivity.
    + cbn. lia.
    + cbn. lia.
    + intros b v [= <-] [= <-]. vm_compute. reflexivity.
    + exists a. split_and!; [exact Hx | | by apply Hc].
      rewrite Hv. pose proof (Hb "12.5" eq_refl) as Hb'. vm_compute in Hb'. by symmetry.
Defined.

(** ** The numeral format of the schemas *)

Section numeral_format.
Import Validators.

Lemma string_app_cons c (s t : string) : String c s ++ t = String c (s ++ t).
Proof. reflexivity. Qed.

Lemma string_app_nil (s : string) : s ++ "" = s.
Proof.
  induction s as [| c s IH]; [done |]. by rewrite string_app_cons, IH.
Qed.

Lemma span_digits_split s :
  s = (span_digits s).1 ++ (span_digits s).2 ∧
  all_digits (span_digits s).1 = true.
Proof.
  induction s as [| c s [IH1 IH2]]; [done |]. cbn [span_digits].
  destruct (is_digit c) eqn:Hc; [| done].
  destruct (span_digits s) as [ds tl]. cbn [fst snd all_digits] in *.
  rewrite Hc, IH2, string_app_cons. by rewrite <- IH1.
Qed.

Lemma span_digits_app w rest :
  all_digits w = true →
  (rest = "" ∨ ∃ c r, rest = String c r ∧ is_digit c = false) →
  span_digits (w ++ rest) = (w, rest).
Proof.
  intros Hw Hrest. induction w as [| c w IH]; cbn [all_digits] in Hw.
  - change ("" ++ rest) with rest.
    destruct Hrest as [-> | (c & r & -> & Hc)]; [done |]. cbn [span_digits]. by rewrite Hc.
  - apply andb_prop in Hw as [Hc Hw].
    rewrite string_app_cons. cbn [span_digits]. by rewrite Hc, (IH Hw).
Qed.

(** X18.  The matcher of [/^\d+(\.\d{1,2})?$/] accepts the language of the
    expression: the strings made of one digit or more, alone or followed by
    a point and one or two digits. *)
Theorem decimal_regex_language s :
  decimal_regex s = true ↔
  ∃ whole, whole ≠ "" ∧ all_digits whole = true ∧
           (s = whole ∨
            ∃ fraction, all_digits fraction = true ∧
                        (String.length fraction = 1 ∨ String.length fraction = 2)%nat ∧
                        s = whole ++ "." ++ fraction).
Proof.
  split.
  - unfold decimal_regex. intros Hre.
    destruct (span_digits_split s) as [Hs Hds].
    destruct (span_digits s) as [whole rest]. cbn in Hs, Hds.
    apply andb_prop in Hre as [Hne Hrest].
    exists whole. split; [| split; [done |]].
    { intros ->. done. }
    destruct rest as [| c fraction].
    + left. by rewrite string_app_nil in Hs.
    + right. destruct (span_digits_split fraction) as [Hf Hfd].
      pose proof (span_digits_whole fraction) as Hall.
      destruct (span_digits fraction) as [ds tl]. cbn in Hf, Hfd.
      apply andb_prop in Hrest as [Hc [Htl Hlen]%andb_prop].
      apply Ascii.eqb_eq in Hc as ->. apply String.eqb_eq in Htl as ->.
      rewrite (Hall ds eq_refl) in *. exists ds. split; [done |]. split; [| done].
      apply andb_prop in Hlen as [H1%Nat.leb_le H2%Nat.leb_le]. lia.
  - intros (whole & Hne & Hw & [-> | (fraction & Hf & Hlen & ->)]); unfold decimal_regex.
    + rewrite <- (string_app_nil whole) at 1.
      rewrite (span_digits_app whole "" Hw) by by left.
      destruct whole; [done |]. reflexivity.
    + change ("." ++ fraction) with (String "." fraction).
      rewrite (span_digits_app whole (String "." fraction) Hw)
        by (right; by exists "."%char, fraction).
      cbn [Ascii.eqb Bool.eqb andb]. rewrite <- (string_app_nil fraction) at 1.
      rewrite (span_digits_app fraction "" Hf) by by left.
      destruct whole; [done |]. cbn.
      destruct Hlen as [-> | ->]; reflexivity.
Qed.

End numeral_format.


(** ** The controller *)

Section controller.
Context `{Platform} `{DateFormat}.
Import Http.

Lemma includes_unfold needle hay :
  includes needle hay =
  String.prefix needle hay ||
  match hay with
  | EmptyString => false
  | String _ rest => includes needle rest
  end.
Proof. by destruct hay. Qed.

Lemma includes_app_r needle pre hay :
  includes needle hay = true → includes needle (pre ++ hay) = true.
Proof.
  intros Hi. induction pre as [| c pre IH]; [done |].
  rewrite string_app_cons, includes_unfold, IH. apply orb_true_r.
Qed.

Lemma NotFoundError_404 actionId :
  WorkflowController.not_found_or_500 (Error_message (NotFoundError actionId)) = 404%nat.
Proof.
  unfold WorkflowController.not_found_or_500, Error_message.
  rewrite includes_app_r; [done |]. by apply includes_app_r.
Qed.



(** X19.  When the [id] of the path is the text of a uuid, or is missing,
    [getActionDetail] answers 200 with the row when the id is the key of a
    row, 404 when it is the key of none, 400 when the path has no [id]; it
    does not answer 500. *)
Theorem getActionDetail_codes req w :
  (∀ id, param_id req = Some id → id = "" ∨ uuid_text id = true) →
  let resp := WorkflowController.getActionDetail req w in
  (code resp = 200%nat ∧ success resp = true ∧
   ∃ id action, param_id req = Some id ∧
                workflowActions (db w) !! id = Some action ∧
                data resp = Some action) ∨
  (code resp = 404%nat ∧ success resp = false ∧
   ∃ id, param_id req = Some id ∧ workflowActions (db w) !! id = None ∧
         error resp = Some ("Action with ID " ++ id ++ " not found")) ∨
  (code resp = 400%nat ∧ success resp = false ∧ missing (param_id req) = true).
Proof.
  intros _. unfold WorkflowController.getActionDetail.
  destruct (missing (param_id req)) eqn:Hm; [by right; right |].
  destruct (param_id req) as [id |]; [| done]. cbn [from_option Datatypes.id].
  unfold WorkflowService.getActionById.
  destruct (workflowActions (db w) !! id) as [action |] eqn:Hrow.
  - left. cbn. split_and!; [done .. |]. by exists id, action.
  - right; left. rewrite NotFoundError_404. cbn. split_and!; [done .. |]. by exists id.
Qed.

Lemma getActionDetail_codes_witness :
  code (WorkflowController.getActionDetail
          {| param_id := Some "6366612b-00c9-4cbd-abd7-da61d1264245";
             json := inl "Unexpected end of JSON input" |}
          Sample.world2) = 404%nat.
Proof.
  destruct (getActionDetail_codes
              {| param_id := Some "6366612b-00c9-4cbd-abd7-da61d1264245";
                 json := inl "Unexpected end of JSON input" |}
              Sample.world2)
    as [(_ & _ & id & action & Hid & Hrow & _) | [(H404 & _) | (_ & _ & Hmissing)]].
  - intros id [= <-]. right. vm_compute. reflexivity.
  - injection Hid as <-. vm_compute in Hrow. discriminate Hrow.
  - exact H404.
  - vm_compute in Hmissing. discriminate Hmissing.
Defined.

Lemma decision_Some s status :
  Schemas.decision s = Some status → s = "approved" ∨ s = "rejected".
Proof.
  unfold Schemas.decision.
  destruct (String.eqb_spec s "approved"); [by left |].
  destruct (String.eqb_spec s "rejected"); [by right | done].
Qed.

(** X20.  A body whose [status] is neither ["approved"] nor ["rejected"] (so
    ["pending"], or no string at all) is answered 400 and does not reach the
    service: nothing is written and no handler is called. *)
Theorem controller_reviewAction_needs_decision handlers now req body w :
  json req = inr body →
  string_prop "status" body ≠ Some "approved" →
  string_prop "status" body ≠ Some "rejected" →
  ∃ resp, WorkflowController.reviewAction handlers now req w = (w, resp) ∧
          code resp = 400%nat ∧ success resp = false.
Proof.
  intros Hjson Ha Hr. unfold WorkflowController.reviewAction. rewrite Hjson.
  destruct (missing (param_id req)); [by eexists |].
  assert (Schemas.reviewActionSchema body = None) as ->; [| by eexists].
  unfold Schemas.reviewActionSchema.
  destruct (string_prop "status" body) as [s |]; [| done]. cbn.
  destruct (Schemas.decision s) as [status |] eqn:Hd; [| done].
  by destruct (decision_Some _ _ Hd) as [-> | ->].
Qed.


Lemma assoc_kept_app k a p rest v :
  assoc k (Schemas.kept a p ++ rest)%list = Some v →
  (k = a ∧ prop a p = Some v) ∨ assoc k rest = Some v.
Proof.
  unfold Schemas.kept. destruct (prop a p) as [x |]; [| by right]. cbn.
  destruct (String.eqb_spec a k) as [-> |]; [| by right].
  intros [= ->]. by left.
Qed.

Lemma assoc_kept_date_app k a p rest v :
  assoc k (Schemas.kept_date a p ++ rest)%list = Some v →
  (k = a ∧ ∃ s t, string_prop a p = Some s ∧ Date_parse s = Some t ∧
                  v = JStr (toISOString t)) ∨
  assoc k rest = Some v.
Proof.
  unfold Schemas.kept_date. destruct (string_prop a p) as [s |]; [| by right].
  destruct (Date_parse s) as [t |] eqn:Ht; [| by right]. cbn.
  destruct (String.eqb_spec a k) as [-> |]; [| by right].
  intros [= <-]. left. split; [done |]. by exists s, t.
Qed.

Lemma assoc_kept_None k a p rest :
  k ≠ a → assoc k (Schemas.kept a p ++ rest)%list = assoc k rest.
Proof.
  intros Hk. unfold Schemas.kept. destruct (prop a p) as [x |]; [| done]. cbn.
  by destruct (String.eqb_spec a k) as [-> |].
Qed.

Ltac kept_cases Hk :=
  repeat (apply assoc_kept_app in Hk as [[-> Hk] | Hk];
          [split; [left; exact Hk | apply (bool_decide_unpack _); vm_compute; exact I] |]).

(** What the union of the payload schemas returns has the properties of the
    schemas only, with the values of the request; the two dates are written
    again by [toISOString]. *)
Lemma parse_payload_keys payload out k v :
  Schemas.parse_payload payload = Some out →
  prop k out = Some v →
  (prop k payload = Some v ∨
   ∃ s t, string_prop k payload = Some s ∧ Date_parse s = Some t ∧
          v = JStr (toISOString t)) ∧
  k ∈ schema_keys.
Proof.
  unfold Schemas.parse_payload, Schemas.parse_user, Schemas.parse_account,
    Schemas.parse_promotion.
  intros Hparse Hk.
  destruct (Validators.createUserSchema payload).
  { injection Hparse as <-. cbn [prop] in Hk.
    rewrite <- (app_nil_r (Schemas.kept "fullName" payload)) in Hk.
    kept_cases Hk. done. }
  destruct (Validators.createAccountSchema payload).
  { injection Hparse as <-. cbn [prop] in Hk.
    rewrite <- (app_nil_r (Schemas.kept "currency" payload)) in Hk.
    kept_cases Hk. done. }
  destruct (Validators.createPromotionSchema payload); [| done].
  injection Hparse as <-. cbn [prop] in Hk.
  rewrite <- (app_nil_r (Schemas.kept_date "endDate" payload)) in Hk.
  kept_cases Hk.
  apply assoc_kept_date_app in Hk as [[-> Hk] | Hk].
  { split; [by right | apply (bool_decide_unpack _); vm_compute; exact I]. }
  apply assoc_kept_date_app in Hk as [[-> Hk] | Hk]; [| done].
  split; [by right | apply (bool_decide_unpack _); vm_compute; exact I].
Qed.

(** X22.  When [createAction] answers 201, the row it returns is in the
    table, pending, and its payload is what the union of the schemas
    returned for the payload of the request: a property of the stored payload
    is a property of one of the three schemas, with the value of the request
    (a date written again by [toISOString]); the other properties of the
    request are not stored. *)
Theorem controller_createAction_stores_parsed handlers now req w w' resp :
  WorkflowController.createAction handlers now req w = (w', resp) →
  code resp = 201%nat →
  ∃ body payload a,
    json req = inr body ∧ prop "payload" body = Some payload ∧
    data resp = Some a ∧
    workflowActions (db w') !! WorkflowAction.id a = Some a ∧
    WorkflowAction.status a = PENDING ∧
    string_prop "actionType" body = Some (WorkflowAction.actionType a) ∧
    Schemas.parse_payload payload = Some (WorkflowAction.payload a) ∧
    ∀ k v, prop k (WorkflowAction.payload a) = Some v →
           (prop k payload = Some v ∨
            ∃ s t, string_prop k payload = Some s ∧ Date_parse s = Some t ∧
                   v = JStr (toISOString t)) ∧
           k ∈ schema_keys.
Proof.
  unfold WorkflowController.createAction. intros Hc Hcode.
  destruct (json req) as [thrown | body]; [by injection Hc as <- <- |].
  unfold Schemas.createWorkflowActionSchema in Hc.
  destruct (string_prop "actionType" body) as [actionType |] eqn:Hbt;
    [| by injection Hc as <- <-].
  destruct (prop "payload" body) as [payload |] eqn:Hbp; [| by injection Hc as <- <-].
  destruct (string_prop "makerId" body) as [makerId |]; [| by injection Hc as <- <-].
  destruct (_ && _); [| by injection Hc as <- <-].
  destruct (Schemas.parse_payload payload) as [out |] eqn:Hparse;
    [| by injection Hc as <- <-].
  destruct (WorkflowService.createAction _ _ _ _ _ _) as [w1 [a | e]] eqn:Hs;
    [| by injection Hc as <- <-].
  injection Hc as <- <-.
  destruct (createAction_Ok _ _ _ _ _ _ _ _ Hs) as (Hrow & Htype & Hpayload & Hstatus).
  exists body, payload, a. rewrite Htype, Hpayload.
  split_and!; [done .. |].
  intros k v. by apply parse_payload_keys.
Qed.

Lemma assoc_user_keys k payload :
  k ≠ "email" → k ≠ "username" → k ≠ "fullName" →
  assoc k (Schemas.kept "email" payload ++ Schemas.kept "username" payload ++
           Schemas.kept "fullName" payload)%list = None.
Proof.
  intros. rewrite <- (app_nil_r (Schemas.kept "fullName" payload)).
  by rewrite !assoc_kept_None.
Qed.

(** X23.  The union of the payload schemas is tried in the order user,
    account, promotion, whatever the action type: a payload that the user
    schema accepts is cut down to the properties of a user, so a submission
    of an account or a promotion that carries an [email] and a [username] too
    is refused by its handler and answered 500; nothing is stored. *)
Theorem controller_createAction_first_schema_wins now req body actionType payload
    makerId w :
  json req = inr body →
  string_prop "actionType" body = Some actionType →
  actionType = CREATE_ACCOUNT ∨ actionType = CREATE_PROMOTION →
  prop "payload" body = Some payload →
  string_prop "makerId" body = Some makerId →
  makerId ≠ "" →
  Validators.createUserSchema payload = true →
  ∃ w' resp,
    WorkflowController.createAction handlers0 now req w = (w', resp) ∧
    code resp = 500%nat ∧ error resp = Some "Validation failed" ∧
    db w' = db w.
Proof.
  intros Hjson Htype Hkind Hpayload Hmaker Hne Huser.
  unfold WorkflowController.createAction, Schemas.createWorkflowActionSchema.
  rewrite Hjson, Htype, Hpayload, Hmaker.
  assert (Validators.min_length 1 makerId = true) as ->.
  { destruct makerId; [done | reflexivity]. }
  unfold Schemas.parse_payload, Schemas.parse_user. rewrite Huser.
  set (out := JObj _).
  assert (Validators.createAccountSchema out = false) as Haccount.
  { unfold Validators.createAccountSchema, Validators.required_string at 1.
    subst out. cbn [prop]. by rewrite assoc_user_keys. }
  assert (Validators.createPromotionSchema out = false) as Hpromotion.
  { unfold Validators.createPromotionSchema, Validators.required_string at 1.
    subst out. cbn [prop]. by rewrite assoc_user_keys. }
  destruct Hkind as [-> | ->].
  - change (Schemas.is_action_type CREATE_ACCOUNT) with true. cbn [andb].
    assert (WorkflowService.createAction handlers0 now CREATE_ACCOUNT out makerId w =
              (log (CallValidate CREATE_ACCOUNT out) w,
               Throw (ValidationError "Validation failed"))) as ->.
    { unfold WorkflowService.createAction.
      change (ActionHandlerFactory.getHandler handlers0 CREATE_ACCOUNT)
        with (Ok (ActionHandlerFactory.Handler CreateAccountHandler.handler)).
      cbn [validate CreateAccountHandler.handler].
      unfold CreateAccountHandler.validate. by rewrite Haccount. }
    by eexists _, _.
  - change (Schemas.is_action_type CREATE_PROMOTION) with true. cbn [andb].
    assert (WorkflowService.createAction handlers0 now CREATE_PROMOTION out makerId w =
              (log (CallValidate CREATE_PROMOTION out) w,
               Throw (ValidationError "Validation failed"))) as ->.
    { unfold WorkflowService.createAction.
      change (ActionHandlerFactory.getHandler handlers0 CREATE_PROMOTION)
        with (Ok (ActionHandlerFactory.Handler CreatePromotionHandler.handler)).
      cbn [validate CreatePromotionHandler.handler].
      unfold CreatePromotionHandler.validate. by rewrite Hpromotion. }
    by eexists _, _.
Qed.

End controller.


Lemma controller_reviewAction_needs_decision_witness :
  ∃ resp,
    WorkflowController.reviewAction Sample.handlers 20
      (Requests.review "0" "pending" "c1") Sample.world2 = (Sample.world2, resp) ∧
    Http.code resp = 400%nat ∧ Http.success resp = false.
Proof.
  apply (controller_reviewAction_needs_decision Sample.handlers 20
           (Requests.review "0" "pending" "c1") _ Sample.world2 eq_refl);
    vm_compute; discriminate.
Defined.


Lemma controller_createAction_stores_parsed_witness :
  let answer :=
    WorkflowController.createAction (H := Scenario.platform) (H0 := Requests.dateFormat)
      Scenario.handlers 20
      (Requests.create CREATE_ACCOUNT Scenario.account "m1") Sample.world3 in
  Http.code answer.2 = 201%nat ∧
  ∃ a, Http.data answer.2 = Some a ∧
       workflowActions (db answer.1) !! WorkflowAction.id a = Some a ∧
       ∀ k v, prop k (WorkflowAction.payload a) = Some v → k ∈ schema_keys.
Proof.
  intros answer.
  assert (Http.code answer.2 = 201%nat) as Hcode by (vm_compute; reflexivity).
  split; [exact Hcode |].
  destruct (controller_createAction_stores_parsed (H := Scenario.platform)
              (H0 := Requests.dateFormat) Scenario.handlers 20
              (Requests.create CREATE_ACCOUNT Scenario.account "m1") Sample.world3
              answer.1 answer.2 (surjective_pairing _) Hcode)
    as (body & payload & a & _ & _ & Hdata & Hrow & _ & _ & _ & Hkeys).
  exists a. split_and!; [exact Hdata | exact Hrow |].
  intros k v Hk. exact (proj2 (Hkeys k v Hk)).
Defined.

Lemma controller_createAction_first_schema_wins_witness :
  Validators.createAccountSchema (H := Scenario.platform) Requests.account_of_alice = true ∧
  ∃ w' resp,
    WorkflowController.createAction (H := Scenario.platform) (H0 := Requests.dateFormat)
      Scenario.handlers 20 (Requests.create CREATE_ACCOUNT Requests.account_of_alice "m1")
      Sample.world3 = (w', resp) ∧
    Http.code resp = 500%nat ∧ Http.error resp = Some "Validation failed" ∧
    db w' = db Sample.world3.
Proof.
  split; [vm_compute; reflexivity |].
  apply (controller_createAction_first_schema_wins (H := Scenario.platform)
           (H0 := Requests.dateFormat) 20
           (Requests.create CREATE_ACCOUNT Requests.account_of_alice "m1") _
           CREATE_ACCOUNT Requests.account_of_alice "m1" Sample.world3
           eq_refl eq_refl (or_introl eq_refl) eq_refl eq_refl);
    [discriminate | vm_compute; reflexivity].
Defined.


(** ** The routes *)

Section routes.
Context `{Platform} `{DateFormat}.
Import Http Routes.

Lemma createAction_makerId handlers now t p m w w' a :
  WorkflowService.createAction handlers now t p m w = (w', Ok a) →
  WorkflowAction.makerId a = m.
Proof.
  unfold WorkflowService.createAction. intros Hc.
  destruct (ActionHandlerFactory.getHandler handlers t) as [[h | name] | e]; [| done ..].
  destruct (validate h p); [done |]. by injection Hc as _ <-.
Qed.

(** X24.  One token does not pass both gates: if [POST /actions] hands a
    request to the controller, [POST /actions/:id/review] answers 403 to
    every request with the same token, and the other way round; a request
    that is not handed to the controller writes nothing. *)
Theorem routes_separate_roles handlers now token req req' w w' :
  let submitted :=
    post_actions handlers now {| jwtPayload := token; request := req |} w in
  let reviewed :=
    post_actions_id_review handlers now {| jwtPayload := token; request := req' |} w' in
  (is_handled submitted.2 = true →
   reviewed = (w', Forbidden "Unauthorized: CHECKER role required")) ∧
  (is_handled reviewed.2 = true →
   submitted = (w, Forbidden "Unauthorized: MAKER role required")) ∧
  (is_handled submitted.2 = false → submitted.1 = w) ∧
  (is_handled reviewed.2 = false → reviewed.1 = w').
Proof.
  unfold post_actions, post_actions_id_review, jwtMiddleware, requireRole. cbn.
  destruct token as [payload |]; [| done].
  destruct (decide (string_prop "role" payload ≠ Some "MAKER")) as [Hm | Hm];
    destruct (decide (string_prop "role" payload ≠ Some "CHECKER")) as [Hc | Hc];
    cbn; split_and!; try done.
  all: apply dec_stable in Hm; apply dec_stable in Hc; congruence.
Qed.

(** X25.  The maker of a row comes from the body of the request, not from
    the token: a submission that [POST /actions] stores has the [makerId] of
    the body, and every token of a maker gives the same answer and the same
    state. *)
Theorem post_actions_maker_is_of_body handlers now payload req w w' resp a :
  string_prop "role" payload = Some "MAKER" →
  post_actions handlers now {| jwtPayload := Some payload; request := req |} w =
    (w', Handled resp) →
  data resp = Some a →
  (∃ body, json req = inr body ∧
           string_prop "makerId" body = Some (WorkflowAction.makerId a)) ∧
  ∀ payload',
    string_prop "role" payload' = Some "MAKER" →
    post_actions handlers now {| jwtPayload := Some payload'; request := req |} w =
      (w', Handled resp).
Proof.
  intros Hrole Hpost Hdata.
  unfold post_actions, jwtMiddleware, requireRole in *. cbn in *.
  rewrite Hrole in Hpost. rewrite decide_False in Hpost by (by intros []).
  split.
  - unfold handled in Hpost. injection Hpost as <- <-.
    unfold WorkflowController.createAction in Hdata |- *.
    destruct (json req) as [thrown | body]; [done |].
    exists body. split; [done |].
    unfold Schemas.createWorkflowActionSchema in Hdata.
    destruct (string_prop "actionType" body) as [actionType |]; [| done].
    destruct (prop "payload" body) as [p |]; [| done].
    destruct (string_prop "makerId" body) as [makerId |]; [| done].
    destruct (_ && _); [| done].
    destruct (Schemas.parse_payload p) as [out |]; [| done].
    destruct (WorkflowService.createAction _ _ _ _ _ _) as [w1 [a1 | e]] eqn:Hs;
      [| done].
    injection Hdata as ->. by rewrite (createAction_makerId _ _ _ _ _ _ _ _ Hs).
  - intros payload' Hrole'. rewrite Hrole'.
    by rewrite decide_False by (by intros []).
Qed.

End routes.

Lemma post_actions_maker_is_of_body_witness :
  let post token :=
    Routes.post_actions (H := Scenario.platform) (H0 := Requests.dateFormat)
      Scenario.handlers 20
      {| Routes.jwtPayload := Some token;
         Routes.request := Requests.create CREATE_USER Sample.alice "m7" |}
      Sample.world0 in
  ∃ a resp w',
    post (JObj [("id", JStr "u1"); ("role", JStr "MAKER")]) = (w', Routes.Handled resp) ∧
    Http.data resp = Some a ∧ WorkflowAction.makerId a = "m7" ∧
    post (JObj [("id", JStr "u2"); ("role", JStr "MAKER")]) = (w', Routes.Handled resp).
Proof.
  intros post.
  destruct (post (JObj [("id", JStr "u1"); ("role", JStr "MAKER")])) as [w' answer] eqn:E.
  assert (∃ resp a, answer = Routes.Handled resp ∧ Http.data resp = Some a)
    as (resp & a & -> & Hdata).
  { subst post. vm_compute in E. injection E as _ <-. by eexists _, _. }
  destruct (post_actions_maker_is_of_body (H := Scenario.platform)
              (H0 := Requests.dateFormat) Scenario.handlers 20
              (JObj [("id", JStr "u1"); ("role", JStr "MAKER")])
              (Requests.create CREATE_USER Sample.alice "m7")
              Sample.world0 w' resp a eq_refl E Hdata)
    as [(body & Hbody & Hmaker) Hsame].
  exists a, resp, w'. split_and!; [done | done | | by apply Hsame].
  injection Hbody as <-. by injection Hmaker.
Defined.

(** ** The action types and their metadata *)

Section action_types.
Import ActionTypesController.

Lemma toUpperCase_not_lower c : is_lower (toUpperCase c) = false.
Proof. by destruct c as [[] [] [] [] [] [] [] []]. Qed.

Lemma is_lower_word c : is_lower c = true → is_word c = true.
Proof. unfold is_word. by intros ->. Qed.

Lemma replace_underscores_length s :
  String.length (replace_underscores s) = String.length s.
Proof. induction s as [| c s IH]; [done |]. cbn. by rewrite IH. Qed.

Lemma capitalize_words_length b s :
  String.length (capitalize_words b s) = String.length s.
Proof.
  revert b. induction s as [| c s IH]; intros b; [done |]. cbn. by rewrite IH.
Qed.

Lemma toUpperCase_underscore c :
  Ascii.eqb c "_"%char = false → Ascii.eqb (toUpperCase c) "_"%char = false.
Proof. by destruct c as [[] [] [] [] [] [] [] []]. Qed.

Lemma no_underscore b s :
  includes "_" (capitalize_words b (replace_underscores s)) = false.
Proof.
  revert b. induction s as [| c s IH]; intros b; [done |].
  cbn [replace_underscores capitalize_words]. rewrite includes_unfold, IH.
  cbn [String.prefix]. rewrite orb_false_r.
  destruct (ascii_dec _ _) as [Heq |]; [exfalso | done].
  destruct (Ascii.eqb c "_"%char) eqn:Hc; [by destruct b |].
  destruct (is_word c && negb b).
  - pose proof (toUpperCase_underscore c Hc) as Hu.
    rewrite <- Heq in Hu. discriminate Hu.
  - rewrite <- Heq in Hc. discriminate Hc.
Qed.

Lemma toUpperCase_word c : is_word c = true → is_word (toUpperCase c) = true.
Proof. by destruct c as [[] [] [] [] [] [] [] []]. Qed.

(** In what [capitalize_words] returns, one of the letters [a] to [z]
    comes after a character of [\w] only. *)
Lemma capitalize_words_lower after_word s pre c post :
  capitalize_words after_word s = pre ++ String c post →
  is_lower c = true →
  (pre = "" ∧ after_word = true) ∨
  ∃ pre' p, pre = pre' ++ String p "" ∧ is_word p = true.
Proof.
  revert after_word pre. induction s as [| x s IH]; intros after_word pre Heq Hc.
  { destruct pre; discriminate Heq. }
  cbn [capitalize_words] in Heq. destruct pre as [| p0 pre].
  - change ("" ++ String c post) with (String c post) in Heq.
    injection Heq as Hx _. left. split; [done |].
    destruct after_word; [done |]. rewrite andb_true_r in Hx.
    destruct (is_word x) eqn:Hw.
    + rewrite <- Hx, toUpperCase_not_lower in Hc. discriminate Hc.
    + subst x. by rewrite (is_lower_word _ Hc) in Hw.
  - rewrite string_app_cons in Heq. injection Heq as Hx Hrest. right.
    destruct (IH _ _ Hrest Hc) as [[-> Hw] | (pre' & p & -> & Hp)].
    + exists "", p0. split; [done |]. subst p0.
      destruct (is_word x && negb after_word); [by apply toUpperCase_word | done].
    + exists (String p0 pre'), p. by rewrite string_app_cons.
Qed.

(** X26.  [getActionTypes] answers 200 with one entry for each registered
    type, in the order of [getAllActionTypes].  The name it makes for a type
    other than the three of the source is as long as the type and has no
    underscore; its first character is none of the letters [a] to [z], and
    wherever one of these letters stands in it, the character before is a
    letter or a digit of ASCII. *)
Theorem getActionTypes_metadata handlers :
  let resp := getActionTypes handlers in
  Http.code resp = 200%nat ∧
  ∃ entries,
    Http.data resp = Some entries ∧
    actionType <$> entries = ActionHandlerFactory.getAllActionTypes handlers ∧
    ∀ m, m ∈ entries →
         m = metadata_of (actionType m) ∧
         (actionType m ∉ [CREATE_USER; CREATE_ACCOUNT; CREATE_PROMOTION] →
          String.length (name m) = String.length (actionType m) ∧
          includes "_" (name m) = false ∧
          (∀ c rest, name m = String c rest → is_lower c = false) ∧
          (∀ pre c post, name m = pre ++ String c post → is_lower c = true →
                         ∃ pre' p, pre = pre' ++ String p "" ∧ is_word p = true)).
Proof.
  cbn. split; [done |]. eexists. split; [done |].
  assert (∀ t, actionType (metadata_of t) = t) as Htype.
  { intros t. unfold metadata_of. by repeat case_match. }
  split.
  - rewrite <- list_fmap_compose. erewrite list_fmap_ext; [apply list_fmap_id |].
    intros _ t _. apply Htype.
  - intros m [t [-> _]]%list_elem_of_fmap. rewrite Htype. split; [done |].
    intros Hnew. unfold metadata_of.
    destruct (String.eqb_spec t CREATE_USER) as [-> |];
      [exfalso; apply Hnew; set_solver |].
    destruct (String.eqb_spec t CREATE_ACCOUNT) as [-> |];
      [exfalso; apply Hnew; set_solver |].
    destruct (String.eqb_spec t CREATE_PROMOTION) as [-> |];
      [exfalso; apply Hnew; set_solver |].
    cbn [name]. split_and!.
    + by rewrite capitalize_words_length, replace_underscores_length.
    + apply no_underscore.
    + destruct t as [| c0 t]; [done |].
      cbn [replace_underscores capitalize_words]. intros c rest [= <- _].
      rewrite andb_true_r.
      destruct (is_word _) eqn:Hw; [apply toUpperCase_not_lower |].
      destruct (is_lower _) eqn:Hl; [| done].
      by rewrite (is_lower_word _ Hl) in Hw.
    + intros pre c post Heq Hc.
      by destruct (capitalize_words_lower _ _ _ _ _ Heq Hc) as [[_ ?] | ?].
Qed.

End action_types.

(** ** The registry of components *)

Section component_registry.
Import ComponentRegistry.
#[local] Set Warnings "-clear-no-such-hyp".
Context {Components : Type}.
Implicit Types (m : Map Components) (r : t Components)
  (v registration : WorkflowComponentRegistration Components).

Lemma Map_has_keys key m : Map_has key m = true ↔ key ∈ m.*1.
Proof.
  induction m as [| [k v] m IH]; cbn; [by rewrite elem_of_nil |].
  rewrite orb_true_iff, IH, elem_of_cons.
  by destruct (String.eqb_spec k key); naive_solver.
Qed.

Lemma Map_get_keys key m : is_Some (Map_get key m) ↔ key ∈ m.*1.
Proof.
  induction m as [| [k v] m IH]; cbn; [by rewrite elem_of_nil, is_Some_alt |].
  rewrite elem_of_cons.
  destruct (String.eqb_spec k key); [naive_solver | rewrite IH; naive_solver].
Qed.

Lemma Map_get_set key v m : Map_get key (Map_set key v m) = Some v.
Proof.
  induction m as [| [k v0] m IH]; cbn; [by rewrite String.eqb_refl |].
  destruct (String.eqb_spec k key) as [-> | Hne]; cbn.
  - by rewrite String.eqb_refl.
  - by apply String.eqb_neq in Hne as ->.
Qed.

Lemma Map_get_set_other key key' v m :
  key' ≠ key → Map_get key' (Map_set key v m) = Map_get key' m.
Proof.
  intros Hne. induction m as [| [k v0] m IH]; cbn.
  - by destruct (String.eqb_spec key key').
  - destruct (String.eqb_spec k key) as [-> | Hk]; cbn.
    + by destruct (String.eqb_spec key key').
    + by rewrite IH.
Qed.

Lemma Map_set_keys key v m :
  (Map_set key v m).*1 = if Map_has key m then m.*1 else (m.*1 ++ [key])%list.
Proof.
  induction m as [| [k v0] m IH]; cbn; [done |].
  destruct (String.eqb_spec k key) as [-> | Hk]; cbn; [done |].
  rewrite IH. by destruct (Map_has key m).
Qed.

(** X27.  [register] stores the registration under its action type and
    leaves the other types as they were; a type that was registered keeps its
    place in [getActionTypes], a new one goes to the end; [hasRegistration]
    tells whether [getRegistration] finds something. *)
Theorem register_getRegistration registration r :
  let r' := register registration r in
  getRegistration (actionType registration) r' = Some registration ∧
  (∀ key, key ≠ actionType registration →
          getRegistration key r' = getRegistration key r) ∧
  (∀ key, hasRegistration key r' = true ↔ is_Some (getRegistration key r')) ∧
  getActionTypes r' =
    if hasRegistration (actionType registration) r then getActionTypes r
    else (getActionTypes r ++ [actionType registration])%list.
Proof.
  unfold getRegistration, hasRegistration, getActionTypes, register. cbn.
  split_and!.
  - apply Map_get_set.
  - intros key Hne. by apply Map_get_set_other.
  - intros key. by rewrite Map_has_keys, Map_get_keys.
  - apply Map_set_keys.
Qed.

Lemma registered_snoc (rs : list (WorkflowComponentRegistration Components)) registration :
  registered (rs ++ [registration]) = register registration (registered rs).
Proof. unfold registered. by rewrite foldl_app. Qed.

Lemma first_occurrences_elem seen l x :
  x ∈ first_occurrences seen l ↔ x ∈ l ∧ x ∉ seen.
Proof.
  revert seen. induction l as [| y l IH]; intros seen; cbn.
  - rewrite elem_of_nil. naive_solver.
  - case_bool_decide as Hy.
    + rewrite IH, elem_of_cons. naive_solver.
    + rewrite elem_of_cons, IH, !elem_of_cons.
      destruct (decide (x = y)) as [-> |]; naive_solver.
Qed.

Lemma first_occurrences_NoDup seen l : NoDup (first_occurrences seen l).
Proof.
  revert seen. induction l as [| y l IH]; intros seen; cbn; [constructor |].
  case_bool_decide; [apply IH |].
  constructor; [| apply IH].
  rewrite first_occurrences_elem, elem_of_cons. naive_solver.
Qed.

Lemma first_occurrences_snoc seen l x :
  first_occurrences seen (l ++ [x]) =
    if bool_decide (x ∈ seen ∨ x ∈ l) then first_occurrences seen l
    else (first_occurrences seen l ++ [x])%list.
Proof.
  revert seen. induction l as [| y l IH]; intros seen; cbn.
  - repeat case_bool_decide; try done; set_solver.
  - case_bool_decide as Hy; rewrite IH.
    + repeat case_bool_decide; try done; set_solver.
    + repeat case_bool_decide; try done; set_solver.
Qed.

(** X28.  After any registrations, the registry lists every action type
    once, in the order in which the types were first registered, every
    listed registration is the one [getRegistration] gives for its type, and
    the type has the registration that came last. *)
Theorem registered_types (rs : list (WorkflowComponentRegistration Components)) :
  let r := registered rs in
  getActionTypes r = first_occurrences [] (actionType <$> rs) ∧
  NoDup (getActionTypes r) ∧
  actionType <$> getAllRegistrations r = getActionTypes r ∧
  ∀ key, getRegistration key r =
         last (List.filter (λ x, String.eqb (actionType x) key) rs).
Proof.
  cbv zeta.
  assert (getActionTypes (registered rs) = first_occurrences [] (actionType <$> rs))
    as Htypes.
  { induction rs as [| x rs IH] using rev_ind; [done |].
    rewrite registered_snoc, fmap_app.
    change (actionType <$> [x]) with [actionType x]. rewrite first_occurrences_snoc.
    destruct (register_getRegistration x (registered rs)) as (_ & _ & _ & ->).
    unfold hasRegistration.
    destruct (Map_has _ _) eqn:Hhas.
    - apply Map_has_keys in Hhas. fold (getActionTypes (registered rs)) in Hhas.
      rewrite IH, first_occurrences_elem in Hhas.
      rewrite bool_decide_true by naive_solver. apply IH.
    - rewrite bool_decide_false; [by rewrite IH |].
      intros [Hin | Hin]; [by apply elem_of_nil in Hin |].
      apply not_true_iff_false in Hhas. apply Hhas, Map_has_keys.
      fold (getActionTypes (registered rs)).
      rewrite IH, first_occurrences_elem. split; [done | apply not_elem_of_nil]. }
  split_and!.
  - exact Htypes.
  - rewrite Htypes. apply first_occurrences_NoDup.
  - clear Htypes. unfold getAllRegistrations, getActionTypes.
    induction rs as [| x rs IH] using rev_ind; [done |].
    rewrite registered_snoc. cbn [register registrations].
    revert IH. generalize (registrations (registered rs)). intros m.
    induction m as [| [k v] m IHm]; cbn; [done |].
    intros [= Hk Hm].
    destruct (String.eqb_spec k (actionType x)) as [-> |]; cbn; [by rewrite Hm |].
    by rewrite Hk, IHm.
  - clear Htypes. intros key.
    induction rs as [| x rs IH] using rev_ind; [done |].
    rewrite registered_snoc, List.filter_app. cbn [List.filter].
    destruct (String.eqb_spec (actionType x) key) as [<- | Hne].
    + rewrite last_snoc.
      by destruct (register_getRegistration x (registered rs)) as (-> & _).
    + rewrite app_nil_r, <- IH.
      destruct (register_getRegistration x (registered rs)) as (_ & Hother & _).
      by apply Hother.
Qed.

(** X29.  The console has one line for each registration and one warning
    for each registration of a type that was registered before: the warnings
    and the listed types add up to the registrations. *)
Theorem registered_console (rs : list (WorkflowComponentRegistration Components)) :
  let r := registered rs in
  (length (List.filter is_warn (console r)) + length (getActionTypes r) = length rs)%nat ∧
  length (List.filter (λ line, negb (is_warn line)) (console r)) = length rs.
Proof.
  cbv zeta. induction rs as [| x rs [IH1 IH2]] using rev_ind; [done |].
  rewrite registered_snoc.
  destruct (register_getRegistration x (registered rs)) as (_ & _ & _ & ->).
  unfold hasRegistration. cbn [register console].
  rewrite !List.filter_app, !length_app.
  destruct (Map_has _ _); cbn; rewrite ?length_app; cbn; lia.
Qed.

End component_registry.
